(** * Extraction-and-reconciliation engine and ontology matcher

    A shallow embedding of the core of the repository:
    - [ai_utils.py]: the three field extractors and their enumerated-answer
      parsers;
    - [extract_data.py]: [run_three_pass_extraction] and [build_row];
    - [dsp_systems_modelling/ontology_mapping.py]: ontology loading and the
      embedding-based nearest-term matcher.

    Python [str] values are modelled as [string]s of 8-bit code points (the
    Latin-1 range of Python's code points), Python [int]s as [Z], Python
    floats as binary64 [float]s, dictionaries as insertion-ordered
    association lists.  Exceptions and the order of the external calls are
    explicit: a computation maps the log of the calls made so far to either
    an exception or a value, together with the extended log. *)

From Stdlib Require Import String Ascii List ZArith NArith Bool Arith Lia.
From Stdlib Require Import DecimalString PrimFloat.
From Stdlib Require DecimalNat DecimalFacts.
Import ListNotations.

Open Scope string_scope.
Open Scope list_scope.

(* ------------------------------------------------------------------ *)
(** ** Python strings *)

Module PyStr.

Definition code (c : ascii) : N := N_of_ascii c.

Definition between (lo hi n : N) : bool := (N.leb lo n && N.leb n hi)%bool.

(** [str.isspace] on one code point below 256. *)
Definition is_space (c : ascii) : bool :=
  let n := code c in
  (between 9 13 n || between 28 32 n || N.eqb n 133 || N.eqb n 160)%bool.

(** ASCII decimal digits. *)
Definition is_digit (c : ascii) : bool := between 48 57 (code c).

(** The class [\w] of [re] on a [str] pattern, for code points below 256:
    the underscore and everything alphanumeric. *)
Definition is_word (c : ascii) : bool :=
  let n := code c in
  (between 48 57 n || between 65 90 n || N.eqb n 95 || between 97 122 n
   || N.eqb n 170 || between 178 179 n || N.eqb n 181 || between 185 186 n
   || between 188 190 n || between 192 214 n || between 216 246 n
   || between 248 255 n)%bool.

Definition is_empty (s : string) : bool :=
  match s with EmptyString => true | String _ _ => false end.

Fixpoint lstrip (s : string) : string :=
  match s with
  | EmptyString => EmptyString
  | String c s' => if is_space c then lstrip s' else s
  end.

Fixpoint rstrip (s : string) : string :=
  match s with
  | EmptyString => EmptyString
  | String c s' =>
      let r := rstrip s' in
      if (is_space c && is_empty r)%bool then EmptyString else String c r
  end.

(** [s.strip()] *)
Definition strip (s : string) : string := rstrip (lstrip s).

(** [s.split(sep)] for a one-character separator: never an empty list. *)
Fixpoint split (sep : ascii) (s : string) : list string :=
  match s with
  | EmptyString => [EmptyString]
  | String c s' =>
      if Ascii.eqb c sep then EmptyString :: split sep s'
      else match split sep s' with
           | [] => [String c EmptyString]
           | p :: ps => String c p :: ps
           end
  end.

Fixpoint skip (n : nat) (s : string) : string :=
  match n, s with
  | O, _ => s
  | S _, EmptyString => EmptyString
  | S n', String _ s' => skip n' s'
  end.

Definition head (s : string) : option ascii :=
  match s with EmptyString => None | String c _ => Some c end.

(** [str(i)] / the rendering of [{i}] in an f-string, for [i >= 0]. *)
Definition dec (n : nat) : string := NilEmpty.string_of_uint (Nat.to_uint n).

(** [str(z)] for a Python [int]. *)
Definition dec_Z (z : Z) : string := NilZero.string_of_int (Z.to_int z).

Definition upper_char (c : ascii) : ascii :=
  if between 97 122 (code c) then ascii_of_N (code c - 32) else c.

(** [s.upper()] on the ASCII letters.  It is only ever compared with
    ["NA"], and no other code point below 256 upper-cases to [N] or [A]. *)
Fixpoint upper (s : string) : string :=
  match s with
  | EmptyString => EmptyString
  | String c s' => String (upper_char c) (upper s')
  end.

Definition newline : ascii := ascii_of_nat 10.

End PyStr.

(* ------------------------------------------------------------------ *)
(** ** Python containers *)

Module PyDict.

(** A [dict] with [str] keys, in insertion order, keys pairwise distinct. *)
Definition dict (V : Type) : Type := list (string * V).

Fixpoint lookup {V} (k : string) (d : dict V) : option V :=
  match d with
  | [] => None
  | (k', v) :: d' => if String.eqb k k' then Some v else lookup k d'
  end.

(** [d.get(k, default)] *)
Definition get {V} (d : dict V) (k : string) (default : V) : V :=
  match lookup k d with Some v => v | None => default end.

(** [d[k] = v]: overwrite in place, or append. *)
Fixpoint set {V} (k : string) (v : V) (d : dict V) : dict V :=
  match d with
  | [] => [(k, v)]
  | (k', v') :: d' =>
      if String.eqb k k' then (k', v) :: d' else (k', v') :: set k v d'
  end.

Definition keys {V} (d : dict V) : list string := map fst d.
Definition values {V} (d : dict V) : list V := map snd d.

(** A dict display or comprehension: the pairs are inserted left to right. *)
Definition of_pairs {V} (ps : list (string * V)) : dict V :=
  fold_left (fun d kv => set (fst kv) (snd kv) d) ps [].

Definition mem {V} (k : string) (d : dict V) : bool :=
  match lookup k d with Some _ => true | None => false end.

End PyDict.

Module PyList.

(** [l[i] = v] for [0 <= i]; out of range the list is returned unchanged
    here, and the callers below only write in range. *)
Fixpoint set_nth {A} (i : nat) (v : A) (l : list A) : list A :=
  match l, i with
  | [], _ => []
  | _ :: l', O => v :: l'
  | x :: l', S i' => x :: set_nth i' v l'
  end.

(** [l[z]] with Python's indexing: a negative index counts from the end,
    anything outside [-len, len) raises [IndexError] ([None]). *)
Definition index {A} (l : list A) (z : Z) : option A :=
  let n := Z.of_nat (length l) in
  if (0 <=? z)%Z then nth_error l (Z.to_nat z)
  else if (- n <=? z)%Z then nth_error l (Z.to_nat (n + z))
  else None.

End PyList.

(* ------------------------------------------------------------------ *)
(** ** The enumerated-answer regular expressions

    The two patterns that the parsers compile for item [i] and search in
    [content], by their matching semantics under the flag [(?s)]:
    - for [i < n]: the lookbehind [(?<=\b{i}:)], a lazy group of any
      characters, and the lookahead [(?=\b{i+1}:|$)];
    - for [i = n]: the same lookbehind, a greedy group of any characters,
      and [$].
    A scan carries the character before the current position, which is
    what [\b] looks at. *)

Module Regex.
Import PyStr.

Definition is_word_opt (c : option ascii) : bool :=
  match c with Some c => is_word c | None => false end.

(** [\b] between the character before and the character after. *)
Definition word_boundary (prev next : option ascii) : bool :=
  xorb (is_word_opt prev) (is_word_opt next).

(** The literal [{i}:]. *)
Definition label (i : nat) : string := dec i ++ ":".

(** [\b{i}:] matches at the current position. *)
Definition label_here (i : nat) (prev : option ascii) (s : string) : bool :=
  (word_boundary prev (head s) && String.prefix (label i) s)%bool.

(** The leftmost position at which the lookbehind [(?<=\b{i}:)] holds:
    the text that follows the first boundary-anchored [{i}:]. *)
Fixpoint after_label (i : nat) (prev : option ascii) (s : string)
  : option string :=
  if label_here i prev s then Some (skip (String.length (label i)) s)
  else match s with
       | EmptyString => None
       | String c s' => after_label i (Some c) s'
       end.

(** [$] without [re.MULTILINE]: the end of the text, or just before a
    newline that ends the text. *)
Definition dollar_here (s : string) : bool :=
  match s with
  | EmptyString => true
  | String c EmptyString => Ascii.eqb c newline
  | _ => false
  end.

(** The lookahead [(?=\b{j}:|$)]. *)
Definition lookahead_here (j : nat) (prev : option ascii) (s : string)
  : bool :=
  (label_here j prev s || dollar_here s)%bool.

(** The lazy group [(.*?)] under [(?s)]: the shortest span after which
    the lookahead holds. *)
Fixpoint lazy_span (j : nat) (prev : option ascii) (s : string) : string :=
  if lookahead_here j prev s then EmptyString
  else match s with
       | EmptyString => EmptyString
       | String c s' => String c (lazy_span j (Some c) s')
       end.

Definition colon : ascii := ascii_of_nat 58.

(** [match.group(1)] of the pattern for item [i] out of [n], or [None]
    when [search] finds nothing. *)
Definition search_item (i n : nat) (content : string) : option string :=
  match after_label i None content with
  | None => None
  | Some rest =>
      if Nat.ltb i n then Some (lazy_span (i + 1) (Some colon) rest)
      else Some rest
  end.

End Regex.

(* ------------------------------------------------------------------ *)
(** ** The enumerated-response parsers of [ai_utils.py] *)

Module Parser.
Import PyStr PyDict.

Definition NA : string := "NA".

(** The body of the [for i in range(1, n + 1)] loop: the value stored at
    [results[i - 1]]. *)
Definition item_value (i n : nat) (content : string) : string :=
  match Regex.search_item i n content with
  | Some g => let val := strip g in if is_empty val then NA else val
  | None => NA
  end.

(** [results = ["NA"] * n] followed by the loop. *)
Definition parse_items (content : string) (n : nat) : list string :=
  fold_left
    (fun results i => PyList.set_nth (i - 1) (item_value i n content) results)
    (seq 1 n) (repeat NA n).

Definition meta_keys : list string :=
  [ "study_title"; "population_outcome_measured_in";
    "population_intervention_affected_or_predictor";
    "secondary_characteristics"; "country"; "study_type_letter";
    "num_main_results"; "main_results_list" ].

Definition detail_keys : list string :=
  [ "effect_size_type"; "effect_size"; "effect_size_uncertainty";
    "p_value"; "total_sample_size"; "intervention_or_predictor_variable";
    "outcome_variable" ].

(** [parse_meta_extraction]: the constant indices [data[0]] .. [data[7]]
    are in range of the eight-element list. *)
Definition parse_meta_extraction (content : string) : dict string :=
  let data := parse_items content 8 in
  map (fun kj => (fst kj, nth (snd kj) data NA))
      (combine meta_keys (seq 0 8)).

(** [parse_detail_extraction] *)
Definition parse_detail_extraction (content : string) : dict string :=
  let data := parse_items content 7 in
  map (fun kj => (fst kj, nth (snd kj) data NA))
      (combine detail_keys (seq 0 7)).

Definition extra_key (i : nat) : string := "extra_" ++ dec i.

(** The comprehension
    [{f"extra_{i}": results[i - 1] for i in range(num_items)}]:
    [None] stands for the [IndexError] of an index out of range. *)
Fixpoint comprehension (results : list string) (idxs : list nat)
  : option (list (string * string)) :=
  match idxs with
  | [] => Some []
  | i :: idxs' =>
      match PyList.index results (Z.of_nat i - 1),
            comprehension results idxs' with
      | Some v, Some ps => Some ((extra_key i, v) :: ps)
      | _, _ => None
      end
  end.

(** [parse_user_items_response]; [None] when it raises. *)
Definition parse_user_items_response (content : string) (num_items : nat)
  : option (dict string) :=
  let results := parse_items content num_items in
  option_map of_pairs (comprehension results (seq 0 num_items)).

End Parser.

(* ------------------------------------------------------------------ *)
(** ** Python values, exceptions and external calls *)

Module Effects.

(** Values as [json.load] and [pandas] hand them over. *)
#[warnings="-register-all"]
Inductive pyval : Type :=
| VNone
| VBool (b : bool)
| VInt (z : Z)
| VFloat (x : float)
| VStr (s : string)
| VList (l : list pyval)
| VDict (d : list (string * pyval)).

(** One single-turn prompt to the text-generation collaborator.  Each
    extractor fills a fixed template with the values kept here. *)
Inductive request : Type :=
| MetaPrompt (paper_text : string)
| DetailPrompt (paper_text result_text : string)
| UserItemsPrompt (paper_text : string) (user_items : list string).

(** The external calls, in the order in which they are made. *)
Inductive event : Type :=
| ChatCall (r : request)
| EmbedCall (text : pyval).

Inductive exn : Type :=
| ApiError | IndexError | KeyError | TypeError | ValueError.

Definition log : Type := list event.

(** A computation: from the calls made so far to an exception or a
    value, and the calls made so far afterwards. *)
Definition M (A : Type) : Type := log -> (exn + A) * log.

Definition ret {A} (a : A) : M A := fun w => (inr a, w).

Definition raise {A} (e : exn) : M A := fun w => (inl e, w).

Definition bind {A B} (m : M A) (k : A -> M B) : M B :=
  fun w => match m w with
           | (inr a, w') => k a w'
           | (inl e, w') => (inl e, w')
           end.

(** [try: body / except Exception: handler] *)
Definition try_except {A} (body : M A) (handler : exn -> M A) : M A :=
  fun w => match body w with
           | (inr a, w') => (inr a, w')
           | (inl e, w') => handler e w'
           end.

Definition lift {A} (r : exn + A) : M A := fun w => (r, w).

Definition detail_calls (w : log) : list string :=
  flat_map (fun e => match e with
                     | ChatCall (DetailPrompt _ t) => [t]
                     | _ => []
                     end) w.

End Effects.

Declare Scope py_scope.
Delimit Scope py_scope with py.
Notation "x <- m ;; k" := (Effects.bind m (fun x => k))
  (at level 61, m at next level, right associativity) : py_scope.

(* ------------------------------------------------------------------ *)
(** ** The field extractors of [ai_utils.py] *)

Module Extractors.
Import PyStr PyDict Effects Parser.
Local Open Scope py_scope.

Section WithChat.

(** The text-generation collaborator: what the try block of an
    extractor obtains as [response.choices[0].message.content] on the
    call made after [n] earlier ones, or [None] when anything in that
    block raises. *)
Variable chat : nat -> request -> option string.

Definition create_chat (r : request) : M string :=
  fun w => match chat (length w) r with
           | Some content => (inr content, w ++ [ChatCall r])
           | None => (inl ApiError, w ++ [ChatCall r])
           end.

(** The try block shared by the three extractors: the call and
    [content.strip()]; the except clause returns [fallback]. *)
Definition content_or {A} (r : request) (fallback : A) : M (A + string) :=
  try_except
    (content <- create_chat r ;; ret (inr (strip content)))
    (fun _ => ret (inl fallback)).

Definition meta_fallback : dict string :=
  [ ("study_title", "NA");
    ("population_outcome_measured_in", "NA");
    ("population_intervention_affected_or_predictor", "NA");
    ("secondary_characteristics", "NA");
    ("country", "NA");
    ("study_type_letter", "NA");
    ("num_main_results", "0");
    ("main_results_list", "NA") ].

Definition extract_meta_info (paper_text : string) : M (dict string) :=
  r <- content_or (MetaPrompt paper_text) meta_fallback ;;
  match r with
  | inl d => ret d
  | inr content => ret (parse_meta_extraction content)
  end.

Definition detail_fallback : dict string :=
  [ ("effect_size_type", "NA");
    ("effect_size", "NA");
    ("effect_size_uncertainty", "NA");
    ("p_value", "NA");
    ("total_sample_size", "NA");
    ("intervention_or_predictor_variable", "NA");
    ("outcome_variable", "NA") ].

Definition extract_result_details (paper_text result_text : string)
  : M (dict string) :=
  r <- content_or (DetailPrompt paper_text result_text) detail_fallback ;;
  match r with
  | inl d => ret d
  | inr content => ret (parse_detail_extraction content)
  end.

(** [{f"extra_{i}": "NA" for i in range(1, len(user_items) + 1)}] *)
Definition user_items_fallback (user_items : list string) : dict string :=
  of_pairs (map (fun i => (extra_key i, NA))
                (seq 1 (length user_items))).

Definition extract_user_items (paper_text : string)
    (user_items : list string) : M (dict string) :=
  match user_items with
  | [] => ret []
  | _ :: _ =>
      r <- content_or (UserItemsPrompt paper_text user_items)
                      (user_items_fallback user_items) ;;
      match r with
      | inl d => ret d
      | inr content =>
          match parse_user_items_response content (length user_items) with
          | Some out => ret out
          | None => raise IndexError
          end
      end
  end.

End WithChat.

End Extractors.

(* ------------------------------------------------------------------ *)
(** ** [extract_data.py]: reconciliation, rows and the table *)

Module Pipeline.
Import PyStr PyDict Effects Parser Extractors.
Local Open Scope py_scope.

(** A cell of a row dictionary: every value is a [str], except
    [main_result_index], which is an [int]. *)
Inductive cell : Type :=
| CStr (s : string)
| CInt (z : Z).

Definition row : Type := dict cell.

(** [build_row] *)
Definition build_row (pdf_file : string) (meta_data : dict string)
    (result_index : Z) (result_text : string)
    (detail_data user_data : dict string) : row :=
  let row0 : row :=
    [ ("filename", CStr pdf_file);
      ("study_title", CStr (get meta_data "study_title" "NA"));
      ("population_outcome_measured_in",
        CStr (get meta_data "population_outcome_measured_in" "NA"));
      ("population_intervention_affected_or_predictor",
        CStr (get meta_data
                "population_intervention_affected_or_predictor" "NA"));
      ("secondary_characteristics",
        CStr (get meta_data "secondary_characteristics" "NA"));
      ("country", CStr (get meta_data "country" "NA"));
      ("study_type_letter", CStr (get meta_data "study_type_letter" "NA"));
      ("num_main_results", CStr (get meta_data "num_main_results" "0"));
      ("main_result_index", CInt result_index);
      ("main_result_text", CStr result_text);
      ("effect_size_type", CStr (get detail_data "effect_size_type" "NA"));
      ("effect_size", CStr (get detail_data "effect_size" "NA"));
      ("effect_size_uncertainty",
        CStr (get detail_data "effect_size_uncertainty" "NA"));
      ("p_value", CStr (get detail_data "p_value" "NA"));
      ("total_sample_size", CStr (get detail_data "total_sample_size" "NA"));
      ("intervention_or_predictor_variable",
        CStr (get detail_data "intervention_or_predictor_variable" "NA"));
      ("outcome_variable", CStr (get detail_data "outcome_variable" "NA")) ]
  in
  fold_left (fun r kv => set (fst kv) (CStr (snd kv)) r) user_data row0.

(** The candidate list: [main_results_str] split on [";"], each part
    stripped, empty parts dropped; nothing at all for an empty text or the
    sentinel. *)
Definition split_main_results (main_results_str : string) : list string :=
  if (negb (is_empty main_results_str)
      && negb (String.eqb main_results_str "NA"))%bool
  then filter (fun p => negb (is_empty p))
              (map strip (split ";" main_results_str))
  else [].

(** The literal passed as [detail_data] when a study has no main result. *)
Definition na_detail_data : dict string :=
  [ ("effect_size_type", "NA");
    ("effect_size", "NA");
    ("effect_size_uncertainty", "NA");
    ("p_value", "NA");
    ("total_sample_size", "NA");
    ("intervention_or_predictor_variable", "NA");
    ("outcome_variable", "NA") ].

(** [d[k]] *)
Definition getitem {V} (d : dict V) (k : string) : exn + V :=
  match lookup k d with Some v => inr v | None => inl KeyError end.

Section WithCollaborators.

Variable chat : nat -> request -> option string.

(** Python's built-in [int] on a [str]: [None] for [ValueError]. *)
Variable py_int : string -> option Z.

(** [try: num_results = int(meta_data["num_main_results"])] with a bare
    [except] that sets 0. *)
Definition reported_count (meta_data : dict string) : Z :=
  match getitem meta_data "num_main_results" with
  | inr s => match py_int s with Some z => z | None => 0%Z end
  | inl _ => 0%Z
  end.

(** The count after the mismatch test. *)
Definition reconciled_count (reported : Z) (main_results_list : list string)
  : Z :=
  let len := Z.of_nat (length main_results_list) in
  if negb (Z.eqb reported len) then len else reported.

(** [for i, result_text in enumerate(main_results_list, start=i)] *)
Fixpoint detail_rows (pdf_file paper_text : string)
    (meta_data user_data : dict string) (i : Z) (results : list string)
  : M (list row) :=
  match results with
  | [] => ret []
  | result_text :: rest =>
      detail_data <- extract_result_details chat paper_text result_text ;;
      let row_data :=
        build_row pdf_file meta_data i result_text detail_data user_data in
      rows <- detail_rows pdf_file paper_text meta_data user_data
                          (i + 1) rest ;;
      ret (row_data :: rows)
  end.

(** From "figure out how many main results" to the end of the loop body:
    the rows appended to [results_rows] for one study. *)
Definition study_rows (pdf_file paper_text : string)
    (meta_data user_data : dict string) : M (list row) :=
  let num_results := reported_count meta_data in
  main_results_str <- lift (getitem meta_data "main_results_list") ;;
  let main_results_list := split_main_results main_results_str in
  let num_results := reconciled_count num_results main_results_list in
  if Z.eqb num_results 0 then
    ret [ build_row pdf_file meta_data 0 "NA" na_detail_data user_data ]
  else
    detail_rows pdf_file paper_text meta_data user_data 1 main_results_list.

(** The body of the loop over the files, for a file with text. *)
Definition process_study (pdf_file paper_text : string)
    (user_items : list string) : M (list row) :=
  meta_data <- extract_meta_info chat paper_text ;;
  user_data <- match user_items with
               | [] => ret []
               | _ :: _ => extract_user_items chat paper_text user_items
               end ;;
  study_rows pdf_file paper_text meta_data user_data.

(** The loop over the files of the folder, each given by its name and by
    the text that [extract_text_from_pdf] returned for it. *)
Fixpoint process_files (files : list (string * string))
    (user_items : list string) : M (list row) :=
  match files with
  | [] => ret []
  | (pdf_file, paper_text) :: rest =>
      if is_empty (strip paper_text) then process_files rest user_items
      else
        rows <- process_study pdf_file paper_text user_items ;;
        more <- process_files rest user_items ;;
        ret (rows ++ more)
  end.

Definition base_fieldnames : list string :=
  [ "filename"; "study_title"; "population_outcome_measured_in";
    "population_intervention_affected_or_predictor";
    "secondary_characteristics"; "country"; "study_type_letter";
    "num_main_results"; "main_result_index"; "main_result_text";
    "effect_size_type"; "effect_size"; "effect_size_uncertainty";
    "p_value"; "total_sample_size"; "intervention_or_predictor_variable";
    "outcome_variable" ].

Definition fieldnames (user_items : list string) : list string :=
  base_fieldnames ++ map extra_key (seq 0 (length user_items)).

Definition mem_list (k : string) (l : list string) : bool :=
  existsb (String.eqb k) l.

(** The text that the csv writer puts in a cell. *)
Definition cell_text (c : cell) : string :=
  match c with CStr s => s | CInt z => dec_Z z end.

(** [csv.DictWriter(f, fieldnames).writerow(row)]: a key outside
    [fieldnames] raises [ValueError]; a missing key is written as the
    empty text. *)
Definition writerow (names : list string) (r : row) : exn + list string :=
  if forallb (fun k => mem_list k names) (keys r)
  then inr (map (fun k => cell_text (get r k (CStr ""))) names)
  else inl ValueError.

Fixpoint writerows (names : list string) (rows : list row)
  : exn + list (list string) :=
  match rows with
  | [] => inr []
  | r :: rows' =>
      match writerow names r with
      | inl e => inl e
      | inr line =>
          match writerows names rows' with
          | inl e => inl e
          | inr more => inr (line :: more)
          end
      end
  end.

(** [run_three_pass_extraction] on an existing folder: the header and the
    lines written to the output file. *)
Definition run_three_pass_extraction (files : list (string * string))
    (user_items : list string) : M (list (list string)) :=
  results_rows <- process_files files user_items ;;
  let names := fieldnames user_items in
  lines <- lift (writerows names results_rows) ;;
  ret (names :: lines).

End WithCollaborators.

End Pipeline.

(* ------------------------------------------------------------------ *)
(** ** [ontology_mapping.py] *)

Module Ontology.
Import PyStr PyDict Effects.
Local Open Scope py_scope.

(** [sub in s] for two texts. *)
Fixpoint contains (sub s : string) : bool :=
  if String.prefix sub s then true
  else match s with
       | EmptyString => false
       | String _ s' => contains sub s'
       end.

Definition is_str (v : pyval) : bool :=
  match v with VStr _ => true | _ => false end.

(** ["term" in v] *)
Definition term_in (v : pyval) : exn + bool :=
  match v with
  | VDict d => inr (mem "term" d)
  | VStr s => inr (contains "term" s)
  | VList l =>
      inr (existsb (fun x => match x with
                             | VStr s => String.eqb s "term"
                             | _ => false
                             end) l)
  | _ => inl TypeError
  end.

(** [v["term"]] *)
Definition term_of (v : pyval) : exn + pyval :=
  match v with
  | VDict d => match lookup "term" d with
               | Some t => inr t
               | None => inl KeyError
               end
  | _ => inl TypeError
  end.

(** [[item["term"] for item in data if "term" in item]] *)
Fixpoint terms_of_records (data : list pyval) : exn + list pyval :=
  match data with
  | [] => inr []
  | item :: rest =>
      match term_in item with
      | inl e => inl e
      | inr true =>
          match term_of item with
          | inl e => inl e
          | inr t =>
              match terms_of_records rest with
              | inl e => inl e
              | inr ts => inr (t :: ts)
              end
          end
      | inr false => terms_of_records rest
      end
  end.

Definition is_term_record (v : pyval) : bool :=
  match v with VDict d => mem "term" d | _ => false end.

(** The part of [load_ontology] that follows [json.load]. *)
Definition terms_of_json (data : pyval) : exn + list pyval :=
  match data with
  | VList (first :: rest) =>
      if is_term_record first then terms_of_records (first :: rest)
      else if forallb is_str (first :: rest) then inr (first :: rest)
           else inr []
  | _ => inr []
  end.

(** A table as [pd.read_csv] returns it: the column names and, for each
    column, its cells. *)
Record dataframe : Type := {
  columns : list string;
  column_cells : list (list pyval)
}.

Definition is_na (v : pyval) : bool :=
  match v with
  | VNone => true
  | VFloat x => PrimFloat.is_nan x
  | _ => false
  end.

(** The csv branch of [load_ontology]. *)
Definition terms_of_csv (df : dataframe) : exn + list pyval :=
  match combine (columns df) (column_cells df) with
  | [] => inl IndexError
  | ((_, cells0) :: _) as cols =>
      match lookup "term" cols with
      | Some cells => inr cells
      | None => inr (filter (fun v => negb (is_na v)) cells0)
      end
  end.

(** An ontology source file: the lower-cased extension of its path and
    what the two readers make of it, an exception where the reader
    raises. *)
Record ontology_file : Type := {
  ext : string;
  read_csv : exn + dataframe;
  json_load : exn + pyval
}.

(** [load_ontology] *)
Definition load_ontology (f : ontology_file) : exn + list pyval :=
  if String.eqb (ext f) ".csv" then
    match read_csv f with
    | inl e => inl e
    | inr df => terms_of_csv df
    end
  else if String.eqb (ext f) ".json" then
    match json_load f with
    | inl e => inl e
    | inr data => terms_of_json data
    end
  else inr [].

Definition vector : Type := list float.

Section WithCollaborators.

(** The embedding collaborator: the vector returned to the call made
    after [n] earlier ones, or [None] when the call raises. *)
Variable embed : nat -> pyval -> option vector.

(** [np.dot] on two vectors of one length and [np.linalg.norm]. *)
Variable np_dot : vector -> vector -> float.
Variable np_norm : vector -> float.

(** [text[:30]] in the message of the except clause: a value that cannot
    be sliced makes the clause itself raise. *)
Definition sliceable (text : pyval) : bool :=
  match text with VStr _ | VList _ => true | _ => false end.

(** [compute_embedding] *)
Definition compute_embedding (text : pyval) : M vector :=
  fun w => match embed (length w) text with
           | Some emb => (inr emb, w ++ [EmbedCall text])
           | None =>
               if sliceable text then (inr [], w ++ [EmbedCall text])
               else (inl TypeError, w ++ [EmbedCall text])
           end.

(** The rows of the frame built by [create_ontology_embeddings]. *)
Definition onto_frame : Type := list (pyval * vector).

Fixpoint embed_terms (terms : list pyval) : M (list vector) :=
  match terms with
  | [] => ret []
  | term :: rest =>
      emb <- compute_embedding term ;;
      embs <- embed_terms rest ;;
      ret (emb :: embs)
  end.

(** [create_ontology_embeddings] *)
Definition create_ontology_embeddings (terms : list pyval) : M onto_frame :=
  match terms with
  | [] => ret []
  | _ :: _ =>
      embeddings <- embed_terms terms ;;
      ret (combine terms embeddings)
  end.

Definition is_nil {A} (l : list A) : bool :=
  match l with [] => true | _ :: _ => false end.

Definition is_zero (x : float) : bool := PrimFloat.eqb x 0%float.

(** [cosine_similarity]; [np.dot] raises on two lengths. *)
Definition cosine_similarity (vec_a vec_b : vector) : exn + float :=
  if (is_nil vec_a || is_nil vec_b)%bool then inr 0%float
  else if negb (Nat.eqb (length vec_a) (length vec_b)) then inl ValueError
  else
    let dot := np_dot vec_a vec_b in
    let norm_a := np_norm vec_a in
    let norm_b := np_norm vec_b in
    if (is_zero norm_a || is_zero norm_b)%bool then inr 0%float
    else inr (PrimFloat.div dot (PrimFloat.mul norm_a norm_b)).

(** The scan of [np.argmax] over floats: the first greatest value, and a
    NaN as soon as one is met. *)
Fixpoint argmax_scan (mp : float) (max_ind i : nat) (l : list float) : nat :=
  if PrimFloat.is_nan mp then max_ind
  else match l with
       | [] => max_ind
       | x :: l' =>
           if negb (PrimFloat.leb x mp) then argmax_scan x i (S i) l'
           else argmax_scan mp max_ind (S i) l'
       end.

Definition np_argmax (l : list float) : exn + nat :=
  match l with
  | [] => inl ValueError
  | x :: l' => inr (argmax_scan x 0 1 l')
  end.

(** The loop that fills [sims]. *)
Fixpoint similarities (item_embedding : vector) (onto_df : onto_frame)
  : exn + list float :=
  match onto_df with
  | [] => inr []
  | (_, onto_emb) :: rest =>
      match cosine_similarity item_embedding onto_emb with
      | inl e => inl e
      | inr sim =>
          match similarities item_embedding rest with
          | inl e => inl e
          | inr sims => inr (sim :: sims)
          end
      end
  end.

(** [find_best_match_in_ontology]: the result is the sentinel text or a
    term of the frame. *)
Definition find_best_match_in_ontology (item_text : string)
    (onto_df : onto_frame) : M pyval :=
  match onto_df with
  | [] => ret (VStr "NA")
  | _ :: _ =>
      item_embedding <- compute_embedding (VStr item_text) ;;
      sims <- lift (similarities item_embedding onto_df) ;;
      best_index <- lift (np_argmax sims) ;;
      match nth_error onto_df best_index with
      | Some (best_term, _) => ret best_term
      | None => raise IndexError
      end
  end.

(** A row of the frame that [pd.read_csv] returns for the extraction
    file: for each column the text that [str] gives for its cell as
    pandas holds it. *)
Definition text_row : Type := dict string.

(** The test before a lookup: the text is not empty and is not the
    sentinel in any letter case. *)
Definition wants_match (text : string) : bool :=
  (negb (is_empty text) && negb (String.eqb (upper text) "NA"))%bool.

Definition intervention_col : string := "4".
Definition outcome_col : string := "7".

(** One turn of the loop over the rows: the two mapped values. *)
Definition map_row (intervention_onto_df outcome_onto_df : onto_frame)
    (r : text_row) : M (pyval * pyval) :=
  let extracted_interv_text := get r intervention_col "NA" in
  let extracted_outcome_text := get r outcome_col "NA" in
  best_interv_term <-
    (if wants_match extracted_interv_text
     then find_best_match_in_ontology extracted_interv_text
            intervention_onto_df
     else ret (VStr "NA")) ;;
  best_out_term <-
    (if wants_match extracted_outcome_text
     then find_best_match_in_ontology extracted_outcome_text outcome_onto_df
     else ret (VStr "NA")) ;;
  ret (best_interv_term, best_out_term).

Fixpoint map_rows (intervention_onto_df outcome_onto_df : onto_frame)
    (rows : list text_row) : M (list (pyval * pyval)) :=
  match rows with
  | [] => ret []
  | r :: rest =>
      p <- map_row intervention_onto_df outcome_onto_df r ;;
      ps <- map_rows intervention_onto_df outcome_onto_df rest ;;
      ret (p :: ps)
  end.

(** A row of the mapped table: the cells read, and the two new columns. *)
Definition mapped_row : Type := (text_row * (pyval * pyval))%type.

(** [map_interventions_and_outcomes] between [pd.read_csv] and
    [to_csv]: from the frame read to the frame handed to the writer, in
    which every row has gained [mapped_intervention] and
    [mapped_outcome].  How pandas reads the cells of the file and writes
    those of the frame (a cell "NA" is read as a missing value and
    written as an empty field) is outside the model: only the column
    names and the two mapped values are reasoned about. *)
Definition map_interventions_and_outcomes (df_extracted : list text_row)
    (intervention_ontology outcome_ontology : ontology_file)
  : M (list mapped_row) :=
  intervention_terms <- lift (load_ontology intervention_ontology) ;;
  outcome_terms <- lift (load_ontology outcome_ontology) ;;
  intervention_onto_df <- create_ontology_embeddings intervention_terms ;;
  outcome_onto_df <- create_ontology_embeddings outcome_terms ;;
  mapped <- map_rows intervention_onto_df outcome_onto_df df_extracted ;;
  ret (combine df_extracted mapped).

End WithCollaborators.

End Ontology.

(* ------------------------------------------------------------------ *)
(** ** Vocabulary of the properties *)

Module Props.
Import PyStr PyDict Effects Parser.

(** A parsed value: the sentinel, or a non-empty text that [strip] leaves
    as it is. *)
Definition trimmed_or_NA (v : string) : Prop :=
  v = "NA" \/ (v <> "" /\ strip v = v).

Fixpoint all_digits (s : string) : bool :=
  match s with
  | EmptyString => true
  | String c s' => (is_digit c && all_digits s')%bool
  end.

(** Some digit of the text is directly followed by a colon. *)
Fixpoint has_digit_colon (s : string) : bool :=
  match s with
  | EmptyString => false
  | String c s' =>
      ((is_digit c && match s' with
                      | String d _ => Ascii.eqb d Regex.colon
                      | EmptyString => false
                      end)
       || has_digit_colon s')%bool
  end.

(** The last character of [s], or [prev] when [s] is empty. *)
Fixpoint last_char_or (prev : option ascii) (s : string) : option ascii :=
  match s with
  | EmptyString => prev
  | String c s' => last_char_or (Some c) s'
  end.

Definition last_char (s : string) : option ascii := last_char_or None s.

Definition is_digit_opt (c : option ascii) : bool :=
  match c with Some c => is_digit c | None => false end.

(** The parts of a text split on [";"], each trimmed, the empty ones
    dropped. *)
Definition nonempty_parts (raw : string) : list string :=
  filter (fun p => negb (is_empty p)) (map strip (split ";" raw)).

(** The meta record that [extract_meta_info] hands over for the answer
    [answer] of the collaborator ([None]: the call failed). *)
Definition meta_of (answer : option string) : dict string :=
  match answer with
  | Some content => parse_meta_extraction (strip content)
  | None => Extractors.meta_fallback
  end.

(** The detail record for the answer of the collaborator. *)
Definition detail_of (answer : option string) : dict string :=
  match answer with
  | Some content => parse_detail_extraction (strip content)
  | None => Extractors.detail_fallback
  end.

(** The user-items record for the answer of the collaborator. *)
Definition user_data_of (user_items : list string) (answer : option string)
  : dict string :=
  match user_items with
  | [] => []
  | _ :: _ =>
      match answer with
      | Some content =>
          match parse_user_items_response (strip content)
                  (length user_items) with
          | Some out => out
          | None => []
          end
      | None => Extractors.user_items_fallback user_items
      end
  end.

(** The raw results text of a meta record. *)
Definition raw_results (meta_data : dict string) : string :=
  get meta_data "main_results_list" "NA".

(** The rows of the results [results], numbered from [i], when the
    detail calls are the calls number [n], [n + 1], ... *)
Fixpoint rows_from (chat : nat -> request -> option string)
    (pdf_file paper_text : string) (meta_data user_data : dict string)
    (i : Z) (n : nat) (results : list string) : list Pipeline.row :=
  match results with
  | [] => []
  | result_text :: rest =>
      Pipeline.build_row pdf_file meta_data i result_text
        (detail_of (chat n (DetailPrompt paper_text result_text))) user_data
      :: rows_from chat pdf_file paper_text meta_data user_data
           (i + 1) (S n) rest
  end.

Definition detail_requests (paper_text : string) (results : list string)
  : log :=
  map (fun t => ChatCall (DetailPrompt paper_text t)) results.

(** The records that a study gets from its meta and user-items calls when
    it starts after the calls of [w], and those calls. *)
Definition meta_at (chat : nat -> request -> option string)
    (paper_text : string) (w : log) : dict string :=
  meta_of (chat (length w) (MetaPrompt paper_text)).

Definition user_at (chat : nat -> request -> option string)
    (paper_text : string) (user_items : list string) (w : log)
  : dict string :=
  user_data_of user_items
    (chat (S (length w)) (UserItemsPrompt paper_text user_items)).

Definition first_calls (paper_text : string) (user_items : list string)
  : log :=
  ChatCall (MetaPrompt paper_text)
  :: match user_items with
     | [] => []
     | _ :: _ => [ChatCall (UserItemsPrompt paper_text user_items)]
     end.

(** A row has every base column. *)
Definition has_base_columns (r : Pipeline.row) : Prop :=
  forall k, In k Pipeline.base_fieldnames -> lookup k r <> None.

(** A row as [build_row] makes it for a study of the batch run with
    [chat] and [user_items]. *)
Definition built_row (chat : nat -> request -> option string)
    (user_items : list string) (r : Pipeline.row) : Prop :=
  exists pdf_file paper_text meta_data i t detail_data w,
    r = Pipeline.build_row pdf_file meta_data i t detail_data
          (user_at chat paper_text user_items w).

(** The files of a batch that have some text. *)
Definition with_text (files : list (string * string))
  : list (string * string) :=
  filter (fun f => negb (is_empty (strip (snd f)))) files.

Definition all_NA (d : dict string) : Prop :=
  Forall (fun v => v = "NA") (values d).

(** A frame row with the columns of the extraction file, each cell as
    the text written there; the columns are what the mapper's lookups
    depend on. *)
Definition as_text_row (r : Pipeline.row) : Ontology.text_row :=
  map (fun kv => (fst kv, Pipeline.cell_text (snd kv))) r.

(** The item whose answer the comprehension stores under [extra_j]: the
    index [j - 1] wraps around to the last item for [j = 0]. *)
Definition item_under (n j : nat) : nat :=
  match j with O => n | S _ => j end.

(** JSON data that is neither a list headed by a record with a "term"
    field nor a non-empty list of texts. *)
Definition unsupported_json (data : pyval) : bool :=
  match data with
  | VList (first :: rest) =>
      (negb (Ontology.is_term_record first)
       && negb (forallb Ontology.is_str (first :: rest)))%bool
  | _ => true
  end.

(** The values on which the test ["term" in item] is defined: texts,
    lists and objects; on [None], a boolean or a number it raises. *)
Definition is_container (v : pyval) : bool :=
  match v with
  | VStr _ | VList _ | VDict _ => true
  | _ => false
  end.

(** A json ontology file and a file of another kind. *)
Definition json_file (data : exn + pyval) : Ontology.ontology_file :=
  {| Ontology.ext := ".json";
     Ontology.read_csv := inl ValueError;
     Ontology.json_load := data |}.

Definition other_file (extension : string) : Ontology.ontology_file :=
  {| Ontology.ext := extension;
     Ontology.read_csv := inl ValueError;
     Ontology.json_load := inl ValueError |}.

(** An embedding collaborator of which every call fails, and sample
    numeric kernels: the sum of the products from left to right and the
    square root of the sum of the squares. *)
Definition embed_down : nat -> pyval -> option Ontology.vector :=
  fun _ _ => None.

Definition sample_dot (a b : Ontology.vector) : float :=
  fold_left (fun acc xy => PrimFloat.add acc (PrimFloat.mul (fst xy) (snd xy)))
            (combine a b) 0%float.

Definition sample_norm (a : Ontology.vector) : float :=
  PrimFloat.sqrt (sample_dot a a).

(** Two terms of an ontology with their cached vectors. *)
Definition two_terms : Ontology.onto_frame :=
  [ (VStr "alpha", [1%float; 0%float]); (VStr "beta", [0%float; 1%float]) ].

(** A row of the extraction table with an intervention and an outcome. *)
Definition extracted_row : Ontology.text_row :=
  as_text_row
    (Pipeline.build_row "a.pdf"
       (meta_of (Some ("1: T 2: P 3: NA 4: NA 5: UK 6: g 7: 1 "
                       ++ "8: Parenting education improved health")%string))
       1 "Parenting education improved health"
       (detail_of (Some "6: Parenting education 7: Child mental health"))
       []).

Definition nl : string := String newline EmptyString.

(** Sample collaborators for the concrete runs below: fixed answers to
    the meta and detail prompts, an optional answer to the user-items
    prompt; an [int] that reads one digit. *)
Definition sample_chat (meta_answer detail_answer user_answer : option string)
  : nat -> request -> option string :=
  fun _ r => match r with
             | MetaPrompt _ => meta_answer
             | DetailPrompt _ _ => detail_answer
             | UserItemsPrompt _ _ => user_answer
             end.

(** A study that reports 5 results and lists three, and one that reports
    2 and lists none. *)
Definition chat_three_results : nat -> request -> option string :=
  sample_chat (Some "7: 5 8: A; B; C") (Some "1: OR") None.

Definition chat_no_results : nat -> request -> option string :=
  sample_chat (Some "7: 2 8: NA") (Some "1: OR") None.

(** A study whose answer to item 7 is not a number, with two results. *)
Definition chat_several : nat -> request -> option string :=
  sample_chat (Some "7: several 8: A; B") (Some "1: OR") None.

(** A study whose answer has no item 7, with two results. *)
Definition chat_no_count : nat -> request -> option string :=
  sample_chat (Some "8: A; B") (Some "1: OR") None.

(** A collaborator of which every call fails. *)
Definition chat_down : nat -> request -> option string := fun _ _ => None.

Definition sample_int (s : string) : option Z :=
  match s with
  | String c EmptyString =>
      if is_digit c then Some (Z.of_N (code c) - 48)%Z else None
  | _ => None
  end.

End Props.

(* ------------------------------------------------------------------ *)
(** ** [ai_utils.py]: the relevance filter *)

Module Relevance.
Import PyStr PyDict Effects.

(** The truth value of a Python value in a condition. *)
Definition truthy (v : pyval) : bool :=
  match v with
  | VNone => false
  | VBool b => b
  | VInt z => negb (Z.eqb z 0)
  | VFloat x => negb (PrimFloat.eqb x 0%float)
  | VStr s => negb (is_empty s)
  | VList l => match l with [] => false | _ :: _ => true end
  | VDict d => match d with [] => false | _ :: _ => true end
  end.

(** [str.lower] on one code point below 256: the ASCII capitals and the
    accented capitals move up by 32. *)
Definition lower_char (c : ascii) : ascii :=
  let n := code c in
  if (between 65 90 n || (between 192 222 n && negb (N.eqb n 215)))%bool
  then ascii_of_N (n + 32) else c.

(** [s.lower()] *)
Fixpoint lower (s : string) : string :=
  match s with
  | EmptyString => EmptyString
  | String c s' => String (lower_char c) (lower s')
  end.

(** One classification prompt: the description of the user, the title
    and the abstract of the reference. *)
Inductive query : Type :=
| Classify (user_description : string) (title abstract : pyval).

(** ["include" in content and "exclude" not in content] *)
Definition says_include (content : string) : bool :=
  (Ontology.contains "include" content
   && negb (Ontology.contains "exclude" content))%bool.

(** The test that skips a reference: neither a title nor an abstract. *)
Definition has_text (ref : dict pyval) : bool :=
  negb (negb (truthy (get ref "title" (VStr "")))
        && negb (truthy (get ref "abstract" (VStr ""))))%bool.

Definition query_of (user_description : string) (ref : dict pyval) : query :=
  Classify user_description (get ref "title" (VStr ""))
           (get ref "abstract" (VStr "")).

Section WithClassifier.

(** The text-generation collaborator on a classification prompt: the
    content of the answer to the call made after [n] earlier ones, or
    [None] when anything in the try block raises. *)
Variable classify : nat -> query -> option string.

(** [filter_references_with_gpt]: the references kept, and the calls
    made so far afterwards. *)
Fixpoint filter_references_with_gpt (references : list (dict pyval))
    (user_description : string) (w : list query)
  : list (dict pyval) * list query :=
  match references with
  | [] => ([], w)
  | ref :: rest =>
      let title := get ref "title" (VStr "") in
      let abstract := get ref "abstract" (VStr "") in
      if (negb (truthy title) && negb (truthy abstract))%bool
      then filter_references_with_gpt rest user_description w
      else
        let q := Classify user_description title abstract in
        match classify (length w) q with
        | Some answer =>
            let content := lower (strip answer) in
            let (filtered, w') :=
              filter_references_with_gpt rest user_description (w ++ [q]) in
            if (Ontology.contains "include" content
                && negb (Ontology.contains "exclude" content))%bool
            then (ref :: filtered, w')
            else (filtered, w')
        | None => filter_references_with_gpt rest user_description (w ++ [q])
        end
  end.

End WithClassifier.

End Relevance.

(* ------------------------------------------------------------------ *)
(** ** [openalex_utils.py] *)

Module OpenAlex.
Import PyStr PyDict Effects.

(** [max] over a sequence of integers: [ValueError] on an empty one. *)
Definition py_max (l : list Z) : exn + Z :=
  match l with
  | [] => inl ValueError
  | x :: l' => inr (fold_left Z.max l' x)
  end.

(** [l[z] = v] with Python's indexing. *)
Definition setitem {A} (l : list A) (z : Z) (v : A) : exn + list A :=
  let n := Z.of_nat (length l) in
  if ((0 <=? z) && (z <? n))%Z%bool
  then inr (PyList.set_nth (Z.to_nat z) v l)
  else if ((z <? 0) && (- n <=? z))%Z%bool
       then inr (PyList.set_nth (Z.to_nat (n + z)) v l)
       else inl IndexError.

(** [sep.join(l)] *)
Fixpoint join (sep : string) (l : list string) : string :=
  match l with
  | [] => EmptyString
  | [x] => x
  | x :: l' => (x ++ sep ++ join sep l')%string
  end.

(** [for pos in positions: abstract[pos] = word] *)
Fixpoint write_positions (abstract : list string) (word : string)
    (positions : list Z) : exn + list string :=
  match positions with
  | [] => inr abstract
  | pos :: rest =>
      match setitem abstract pos word with
      | inl e => inl e
      | inr abstract' => write_positions abstract' word rest
      end
  end.

(** [for word, positions in inverted_index.items(): ...] *)
Fixpoint write_words (abstract : list string)
    (items : dict (list Z)) : exn + list string :=
  match items with
  | [] => inr abstract
  | (word, positions) :: rest =>
      match write_positions abstract word positions with
      | inl e => inl e
      | inr abstract' => write_words abstract' rest
      end
  end.

(** [reconstruct_abstract]: the index is [None] or a dictionary from
    words to positions; the result is [None] or a text. *)
Definition reconstruct_abstract (inverted_index : option (dict (list Z)))
  : exn + option string :=
  match inverted_index with
  | None => inr None
  | Some [] => inr None
  | Some index =>
      match py_max (flat_map snd index) with
      | inl e => inl e
      | inr max_index =>
          let abstract := repeat EmptyString (Z.to_nat (max_index + 1)) in
          match write_words abstract index with
          | inl e => inl e
          | inr abstract' => inr (Some (join " " abstract'))
          end
      end
  end.

(** [extract_oa_metadata]: the location is [None] or a dictionary. *)
Definition extract_oa_metadata (best_oa_location : option (dict pyval))
  : dict pyval :=
  match best_oa_location with
  | None | Some [] =>
      [ ("landing_page_url", VNone); ("pdf_url", VNone); ("is_oa", VNone) ]
  | Some loc =>
      [ ("landing_page_url", get loc "landing_page_url" VNone);
        ("pdf_url", get loc "pdf_url" VNone);
        ("is_oa", get loc "is_oa" (VBool false)) ]
  end.

End OpenAlex.

(* ------------------------------------------------------------------ *)
(** ** [search_literature.py]: identifiers and downloads *)

Module Search.
Import PyStr PyDict Effects.

(** [[f"study_{i+1}" for i in range(n)]] *)
Definition unique_ids (n : nat) : list string :=
  map (fun i => ("study_" ++ dec (i + 1))%string) (seq 0 n).

(** The test before a download:
    [pdf_url and unique_id and isinstance(pdf_url, str) and pdf_url.strip()]. *)
Definition wants_download (pdf_url unique_id : pyval) : bool :=
  (Relevance.truthy pdf_url && Relevance.truthy unique_id
   && match pdf_url with
      | VStr s => negb (is_empty (strip s))
      | _ => false
      end)%bool.

(** The loop over the rows of the filtered table, each given by the cell
    under [pdf_url], once [unique_id] is inserted: the calls of
    [download_pdf], each with its url and file name. *)
Definition downloads (pdf_urls : list pyval) : list (pyval * string) :=
  flat_map
    (fun row =>
       let pdf_url := fst row in
       let unique_id := snd row in
       if wants_download pdf_url (VStr unique_id)
       then [(pdf_url, (unique_id ++ ".pdf")%string)]
       else [])
    (combine pdf_urls (unique_ids (length pdf_urls))).

End Search.

(* ------------------------------------------------------------------ *)
(** ** [extract_data.py]: the text of a file *)

Module PdfText.
Import PyStr PyDict Effects.

(** [text += page.extract_text()] over the pages: every page gives a
    value or raises, and only a text can be added to the text. *)
Fixpoint add_pages (text : string) (pages : list (exn + pyval))
  : exn + string :=
  match pages with
  | [] => inr text
  | inl e :: _ => inl e
  | inr (VStr t) :: rest => add_pages (text ++ t)%string rest
  | inr _ :: _ => inl TypeError
  end.

(** [extract_text_from_pdf]: the reader gives the pages or raises; any
    exception is caught and the empty text returned. *)
Definition extract_text_from_pdf (reader : exn + list (exn + pyval))
  : string :=
  match reader with
  | inl _ => EmptyString
  | inr pages =>
      match add_pages EmptyString pages with
      | inr text => text
      | inl _ => EmptyString
      end
  end.

Section WithCollaborators.
Variable chat : nat -> request -> option string.
Variable py_int : string -> option Z.

(** The loop of [run_three_pass_extraction] over the files, each given
    by its name and its reader. *)
Definition process_pdfs (pdfs : list (string * (exn + list (exn + pyval))))
    (user_items : list string) : M (list Pipeline.row) :=
  Pipeline.process_files chat py_int
    (map (fun f => (fst f, extract_text_from_pdf (snd f))) pdfs) user_items.

End WithCollaborators.

End PdfText.

(* ------------------------------------------------------------------ *)
(** ** Vocabulary of the further properties *)

Module Shapes.
Import PyStr PyDict Effects Parser Props.

(** One numbered line of an answer, with its line break. *)
Definition item_line (k : nat) (v : string) : string :=
  (Regex.label k ++ " " ++ v ++ nl)%string.

Fixpoint full_lines (k : nat) (vs : list string) : string :=
  match vs with
  | [] => EmptyString
  | v :: vs' => (item_line k v ++ full_lines (S k) vs')%string
  end.

(** An answer in the format that the prompts ask for: the values [vs]
    numbered from [k], one per line. *)
Fixpoint answer_text (k : nat) (vs : list string) : string :=
  match vs with
  | [] => EmptyString
  | [v] => (Regex.label k ++ " " ++ v)%string
  | v :: vs' => (item_line k v ++ answer_text (S k) vs')%string
  end.

(** A value that can be read back: not empty, without surrounding white
    space, and with no digit directly followed by a colon. *)
Definition plain_value (v : string) : Prop :=
  v <> "" /\ strip v = v /\ has_digit_colon v = false.

(** [l1] is [l2] with some elements left out. *)
Inductive Subseq {A : Type} : list A -> list A -> Prop :=
| Subseq_nil : Subseq [] []
| Subseq_keep (x : A) (l1 l2 : list A) :
    Subseq l1 l2 -> Subseq (x :: l1) (x :: l2)
| Subseq_drop (x : A) (l1 l2 : list A) :
    Subseq l1 l2 -> Subseq l1 (x :: l2).

End Shapes.

(* ------------------------------------------------------------------ *)
(** ** Sample inputs of the further properties *)

Module XSamples.
Import PyStr PyDict Effects Parser Props Shapes.

(** The seven values of the example answer of the detail prompt. *)
Definition seven_values : list string :=
  [ "Odds ratio"; "1.8"; "95% CI [1.2, 2.4]"; "0.03"; "250";
    "Parenting education"; "Child mental health problems" ].

(** A collaborator that answers every detail prompt with them. *)
Definition chat_formatted : nat -> request -> option string :=
  sample_chat None (Some (answer_text 1 seven_values)) None.

(** Three references: one with a title and an abstract, one with
    neither, one with an abstract only. *)
Definition three_references : list (dict pyval) :=
  [ [ ("title", VStr "Parenting and sleep"); ("abstract", VStr "We study") ];
    [ ("title", VStr ""); ("abstract", VNone) ];
    [ ("title", VNone); ("abstract", VStr "A trial of") ] ].

(** Classifiers of which every call fails, or answers in capitals. *)
Definition classify_down : nat -> Relevance.query -> option string :=
  fun _ _ => None.

Definition classify_yes : nat -> Relevance.query -> option string :=
  fun _ _ => Some " INCLUDE ".

(** The inverted index of "the cat the sat", and an index with a gap. *)
Definition sample_index : dict (list Z) :=
  [ ("the", [0; 2]%Z); ("cat", [1]%Z); ("sat", [3]%Z) ].

Definition sample_words : list string := [ "the"; "cat"; "the"; "sat" ].

Definition gap_index : dict (list Z) := [ ("end", [2]%Z) ].

End XSamples.

(* ------------------------------------------------------------------ *)
(** ** Vocabulary of the inverted index *)

Module IndexShapes.
Import PyStr PyDict Effects.

(** Position [j] is listed under some word of the index. *)
Definition covered (j : nat) (items : dict (list Z)) : bool :=
  existsb (fun kv => existsb (fun p => Z.eqb p (Z.of_nat j)) (snd kv)) items.

(** Every position of the index is a position of a list of [n] words. *)
Definition in_range (n : nat) (items : dict (list Z)) : Prop :=
  forall word positions p,
    In (word, positions) items -> In p positions ->
    (0 <= p < Z.of_nat n)%Z.

(** The index lists the words [ws] at their positions: each listed
    position holds the word it is listed under, and each position of
    [ws] is listed. *)
Definition describes (items : dict (list Z)) (ws : list string) : Prop :=
  (forall word positions p,
     In (word, positions) items -> In p positions ->
     (0 <= p)%Z /\ nth_error ws (Z.to_nat p) = Some word)
  /\ (forall j, j < length ws -> covered j items = true).

End IndexShapes.

(* ------------------------------------------------------------------ *)
(** ** Vocabulary of the files and the rows *)

Module RowShapes.
Import PyStr PyDict Effects Props.

(** A page that gives no text: its extraction raises or returns a value
    that is not a text. *)
Definition bad_page (page : exn + pyval) : bool :=
  match page with
  | inr (VStr _) => false
  | _ => true
  end.

Definition text_page (t : string) : exn + pyval := inr (VStr t).

(** A row of a study as [process_study] builds it: the meta and user
    records of the study, a result text that is not empty, and a detail
    record that is the record of sentinels or comes from a detail
    call. *)
Definition study_row (chat : nat -> request -> option string)
    (user_items : list string) (r : Pipeline.row) : Prop :=
  exists pdf_file paper_text w i t detail_data,
    r = Pipeline.build_row pdf_file (meta_at chat paper_text w) i t
          detail_data (user_at chat paper_text user_items w)
    /\ t <> ""
    /\ (detail_data = Pipeline.na_detail_data
        \/ exists answer, detail_data = detail_of answer).

End RowShapes.

(* ------------------------------------------------------------------ *)
(** ** Vocabulary of the downloads *)

Module SearchShapes.
Import PyStr PyDict Effects Search.

(** The download of one row of the filtered table, if any. *)
Definition step (row : pyval * string) : list (pyval * string) :=
  if wants_download (fst row) (VStr (snd row))
  then [(fst row, (snd row ++ ".pdf")%string)] else [].

(** The identifiers of [n] rows from the row at position [k]. *)
Definition ids_from (k n : nat) : list string :=
  map (fun i => ("study_" ++ dec (i + 1))%string) (seq k n).

End SearchShapes.

(* ================================================================== *)
(** * Properties *)

(** ** Texts *)

Module StrFacts.
Import PyStr.

Lemma rstrip_idem (s : string) : rstrip (rstrip s) = rstrip s.
Proof.
  induction s as [|c s IH]; simpl; [reflexivity|].
  destruct (is_space c && is_empty (rstrip s))%bool eqn:E; simpl;
    [reflexivity|].
  rewrite IH, E. reflexivity.
Qed.

Lemma lstrip_head (s : string) :
  match lstrip s with
  | EmptyString => True
  | String c _ => is_space c = false
  end.
Proof.
  induction s as [|c s IH]; simpl; [exact I|].
  destruct (is_space c) eqn:E; [exact IH | exact E].
Qed.

Lemma lstrip_rstrip_head (s : string) :
  match s with
  | EmptyString => True
  | String c _ => is_space c = false
  end -> lstrip (rstrip s) = rstrip s.
Proof.
  destruct s as [|c s]; simpl; [reflexivity|].
  intros E. rewrite E. simpl. rewrite E. reflexivity.
Qed.

Lemma strip_idem (s : string) : strip (strip s) = strip s.
Proof.
  unfold strip.
  rewrite (lstrip_rstrip_head (lstrip s) (lstrip_head s)).
  apply rstrip_idem.
Qed.

Lemma is_empty_false (s : string) : is_empty s = false -> s <> "".
Proof. destruct s; [discriminate | intros _ H; discriminate H]. Qed.

Lemma prefix_skip (a s : string) :
  String.prefix a s = true -> s = (a ++ skip (String.length a) s)%string.
Proof.
  revert s. induction a as [|c a IH]; intros s H; simpl in *.
  - reflexivity.
  - destruct s as [|d s]; simpl in H; [discriminate H|].
    destruct (ascii_dec c d) as [->|]; [|discriminate H].
    simpl. f_equal. apply IH, H.
Qed.

Lemma prefix_head (a s : string) :
  String.prefix a s = true -> a <> "" -> head s = head a.
Proof.
  destruct a as [|c a]; [intros _ H; now elim H|].
  destruct s as [|d s]; simpl; intros H _; [discriminate H|].
  destruct (ascii_dec c d) as [->|]; [reflexivity | discriminate H].
Qed.

Lemma prefix_cons (a b : ascii) (x y : string) :
  String.prefix (String a x) (String b y) = true ->
  a = b /\ String.prefix x y = true.
Proof.
  simpl. destruct (ascii_dec a b) as [->|]; [now split | discriminate].
Qed.

Lemma digit_is_word (c : ascii) : is_digit c = true -> is_word c = true.
Proof. unfold is_digit, is_word. intros ->. reflexivity. Qed.

Lemma uint_digits (d : Decimal.uint) :
  Props.all_digits (NilEmpty.string_of_uint d) = true.
Proof. induction d; simpl; auto. Qed.

Lemma to_uint_nonnil (n : nat) : Nat.to_uint n <> Decimal.Nil.
Proof.
  rewrite <- (DecimalNat.Unsigned.of_to n) at 1.
  rewrite DecimalNat.Unsigned.to_of. apply DecimalFacts.unorm_nonnil.
Qed.

Lemma dec_digits (n : nat) : Props.all_digits (dec n) = true.
Proof. apply uint_digits. Qed.

Lemma dec_nonempty (n : nat) : dec n <> "".
Proof.
  unfold dec. pose proof (to_uint_nonnil n) as H.
  destruct (Nat.to_uint n); simpl; try discriminate. now elim H.
Qed.

Lemma dec_inj (a b : nat) : dec a = dec b -> a = b.
Proof.
  unfold dec. intros H. apply DecimalNat.Unsigned.to_uint_inj.
  apply (f_equal NilEmpty.uint_of_string) in H.
  rewrite !NilEmpty.usu in H. now injection H.
Qed.

End StrFacts.

(** ** The parser *)

Module ParserFacts.
Import PyStr PyDict Parser Props StrFacts.

Lemma set_nth_app {A} (pre : list A) (x v : A) (l : list A) :
  PyList.set_nth (length pre) v (pre ++ x :: l) = pre ++ v :: l.
Proof. induction pre as [|y pre IH]; simpl; [reflexivity | now rewrite IH]. Qed.

Lemma loop_fills {A} (f : nat -> A) (d : A) (m : nat) :
  forall (pre : list A),
    fold_left (fun results i => PyList.set_nth (i - 1) (f i) results)
              (seq (S (length pre)) m) (pre ++ repeat d m)
    = pre ++ map f (seq (S (length pre)) m).
Proof.
  induction m as [|m IH]; intros pre; simpl; [reflexivity|].
  rewrite Nat.sub_0_r, set_nth_app.
  replace (pre ++ f (S (length pre)) :: repeat d m)
    with ((pre ++ [f (S (length pre))]) ++ repeat d m)
    by (rewrite <- app_assoc; reflexivity).
  replace (S (S (length pre))) with (S (length (pre ++ [f (S (length pre))])))
    by (rewrite length_app; simpl; lia).
  rewrite IH, <- app_assoc. reflexivity.
Qed.

Lemma set_nth_length {A} (i : nat) (v : A) (l : list A) :
  length (PyList.set_nth i v l) = length l.
Proof.
  revert i. induction l as [|x l IH]; intros [|i]; simpl;
    [reflexivity | reflexivity | reflexivity | now rewrite IH].
Qed.

(** Every index that the loop writes is inside the list. *)
Lemma loop_writes_in_range (n i : nat) :
  In i (seq 1 n) -> i - 1 < length (repeat NA n).
Proof. intros H. apply in_seq in H. rewrite repeat_length. lia. Qed.

(** The loop stores, at every index, the value computed for its item. *)
Lemma parse_items_map (content : string) (n : nat) :
  parse_items content n = map (fun i => item_value i n content) (seq 1 n).
Proof. apply (loop_fills (fun i => item_value i n content) NA n []). Qed.

Lemma parse_items_length (content : string) (n : nat) :
  length (parse_items content n) = n.
Proof. now rewrite parse_items_map, length_map, length_seq. Qed.

Lemma item_value_trimmed (i n : nat) (content : string) :
  trimmed_or_NA (item_value i n content).
Proof.
  unfold item_value, trimmed_or_NA.
  destruct (Regex.search_item i n content) as [g|]; [|now left].
  cbv zeta. destruct (is_empty (strip g)) eqn:E; [now left|].
  right. split; [now apply is_empty_false | apply strip_idem].
Qed.

Lemma parse_items_trimmed (content : string) (n : nat) :
  Forall trimmed_or_NA (parse_items content n).
Proof.
  rewrite parse_items_map. apply Forall_forall. intros v Hv.
  apply in_map_iff in Hv as [i [<- _]]. apply item_value_trimmed.
Qed.

Lemma digits_colon_prefix (ds s : string) :
  all_digits ds = true -> ds <> "" ->
  String.prefix (ds ++ ":") s = true -> has_digit_colon s = true.
Proof.
  revert s. induction ds as [|a ds IH]; intros s Hd Hne Hp.
  - now elim Hne.
  - simpl in Hd. apply andb_true_iff in Hd as [Ha Hds].
    destruct s as [|b s]; [discriminate Hp|].
    apply prefix_cons in Hp as [<- Hp].
    cbn [has_digit_colon]. rewrite Ha. destruct ds as [|a' ds].
    + destruct s as [|c s]; [discriminate Hp|].
      apply prefix_cons in Hp as [<- _]. reflexivity.
    + rewrite (IH s Hds) by (discriminate || exact Hp).
      apply orb_true_r.
Qed.

Lemma label_prefix_digit_colon (i : nat) (s : string) :
  String.prefix (Regex.label i) s = true -> has_digit_colon s = true.
Proof. apply digits_colon_prefix; [apply dec_digits | apply dec_nonempty]. Qed.

Lemma has_digit_colon_tail (c : ascii) (s : string) :
  has_digit_colon (String c s) = false -> has_digit_colon s = false.
Proof. simpl. intros H. now apply orb_false_iff in H. Qed.

Lemma no_label_no_match (i : nat) (s : string) :
  has_digit_colon s = false ->
  forall prev, Regex.after_label i prev s = None.
Proof.
  induction s as [|c s IH]; intros H prev; simpl.
  - unfold Regex.label_here.
    destruct (String.prefix (Regex.label i) "") eqn:E.
    + apply label_prefix_digit_colon in E. discriminate E.
    + now rewrite andb_false_r.
  - unfold Regex.label_here.
    destruct (String.prefix (Regex.label i) (String c s)) eqn:E.
    + apply label_prefix_digit_colon in E. congruence.
    + rewrite andb_false_r. apply IH. eapply has_digit_colon_tail, H.
Qed.

Lemma no_label_all_NA (content : string) (n : nat) :
  has_digit_colon content = false -> parse_items content n = repeat NA n.
Proof.
  intros H. rewrite parse_items_map.
  assert (E : forall i, item_value i n content = NA).
  { intros i. unfold item_value, Regex.search_item.
    now rewrite (no_label_no_match i content H None). }
  assert (G : forall m k,
             map (fun i => item_value i n content) (seq k m) = repeat NA m).
  { induction m as [|m IH]; intros k; simpl; [reflexivity|].
    now rewrite E, IH. }
  apply G.
Qed.

End ParserFacts.

(** ** Dictionaries *)

Module DictFacts.
Import PyDict.

Lemma lookup_set_other {V} (k k' : string) (v : V) (d : dict V) :
  k <> k' -> lookup k (set k' v d) = lookup k d.
Proof.
  intros Hne. apply String.eqb_neq in Hne.
  induction d as [|[k2 v2] d IH]; simpl.
  - now rewrite Hne.
  - destruct (String.eqb k' k2) eqn:E; simpl.
    + apply String.eqb_eq in E. subst k2. now rewrite Hne.
    + now rewrite IH.
Qed.

Lemma set_fresh {V} (k : string) (v : V) (d : dict V) :
  ~ In k (keys d) -> set k v d = d ++ [(k, v)].
Proof.
  induction d as [|[k' v'] d IH]; simpl; intros H; [reflexivity|].
  destruct (String.eqb k k') eqn:E.
  - apply String.eqb_eq in E. subst. elim H. now left.
  - rewrite IH; [reflexivity | intros Hin; apply H; now right].
Qed.

Lemma fold_set_fresh {V} (ps : list (string * V)) :
  forall d : dict V,
    NoDup (keys d ++ map fst ps) ->
    fold_left (fun d kv => set (fst kv) (snd kv) d) ps d = d ++ ps.
Proof.
  induction ps as [|[k v] ps IH]; intros d H; simpl.
  - now rewrite app_nil_r.
  - simpl in H. rewrite set_fresh.
    + rewrite IH.
      * now rewrite <- app_assoc.
      * unfold keys. rewrite map_app. simpl. rewrite <- app_assoc. exact H.
    + apply NoDup_remove_2 in H. intros Hin. apply H.
      apply in_or_app. now left.
Qed.

(** A comprehension over pairwise distinct keys keeps every pair. *)
Lemma of_pairs_distinct {V} (ps : list (string * V)) :
  NoDup (map fst ps) -> of_pairs ps = ps.
Proof. intros H. unfold of_pairs. now rewrite fold_set_fresh. Qed.

End DictFacts.

(** ** The dictionary of user items *)

Module UserItemsFacts.
Import PyStr PyDict Parser Props StrFacts ParserFacts DictFacts.

Lemma extra_key_inj (a b : nat) : extra_key a = extra_key b -> a = b.
Proof.
  unfold extra_key. intros H. apply dec_inj.
  simpl in H. now injection H.
Qed.

Lemma extra_keys_distinct (l : list nat) :
  NoDup l -> NoDup (map extra_key l).
Proof.
  induction 1 as [|i l Hin _ IH]; simpl; constructor; [|exact IH].
  intros H. apply in_map_iff in H as [j [E Hj]].
  apply extra_key_inj in E. now subst.
Qed.

Lemma index_wraps (results : list string) (j : nat) :
  j < length results ->
  PyList.index results (Z.of_nat j - 1)
  = nth_error results (item_under (length results) j - 1).
Proof.
  intros Hj. unfold PyList.index. destruct j as [|j]; simpl item_under.
  - replace (0 <=? Z.of_nat 0 - 1)%Z with false by (symmetry; apply Z.leb_gt; lia).
    replace (- Z.of_nat (length results) <=? Z.of_nat 0 - 1)%Z with true
      by (symmetry; apply Z.leb_le; lia).
    f_equal. lia.
  - replace (0 <=? Z.of_nat (S j) - 1)%Z with true
      by (symmetry; apply Z.leb_le; lia).
    f_equal. lia.
Qed.

Lemma comprehension_total (content : string) (n : nat) (idxs : list nat) :
  (forall j, In j idxs -> j < n) ->
  comprehension (parse_items content n) idxs
  = Some (map (fun j => (extra_key j,
                         item_value (item_under n j) n content)) idxs).
Proof.
  induction idxs as [|j idxs IH]; intros H; simpl; [reflexivity|].
  assert (Hj : j < n) by (apply H; now left).
  rewrite index_wraps by (now rewrite parse_items_length).
  rewrite parse_items_length, parse_items_map.
  assert (Hi : 1 <= item_under n j <= n)
    by (destruct j; simpl; lia).
  rewrite (@nth_error_nth' _ _ _ NA) by (rewrite length_map, length_seq; lia).
  rewrite (nth_indep _ NA (item_value 0 n content))
    by (rewrite length_map, length_seq; lia).
  rewrite (map_nth (fun i => item_value i n content)), seq_nth by lia.
  replace (1 + (item_under n j - 1)) with (item_under n j) by lia.
  rewrite <- parse_items_map, IH by (intros; apply H; now right).
  reflexivity.
Qed.

(** What [parse_user_items_response] returns, for every text and count. *)
Lemma parse_user_items_response_eq (content : string) (n : nat) :
  parse_user_items_response content n
  = Some (map (fun j => (extra_key j,
                         item_value (item_under n j) n content)) (seq 0 n)).
Proof.
  unfold parse_user_items_response.
  rewrite comprehension_total by (intros j Hj; apply in_seq in Hj; lia).
  simpl. f_equal. apply of_pairs_distinct.
  rewrite map_map. simpl. apply extra_keys_distinct, seq_NoDup.
Qed.

End UserItemsFacts.

(** ** Word boundaries of the labels *)

Module RegexFacts.
Import PyStr Regex Props StrFacts.

Lemma label_nonempty (i : nat) : label i <> "".
Proof.
  unfold label. pose proof (dec_nonempty i) as H.
  destruct (dec i); [now elim H | discriminate].
Qed.

Lemma label_head_word (i : nat) : is_word_opt (head (label i)) = true.
Proof.
  unfold label. pose proof (dec_nonempty i) as H.
  pose proof (dec_digits i) as D.
  destruct (dec i) as [|c s]; [now elim H|].
  simpl in *. apply andb_true_iff in D as [D _]. now apply digit_is_word.
Qed.

(** Where [\b{i}:] matches, the label is there and no word character
    stands before it. *)
Lemma label_here_spec (i : nat) (prev : option ascii) (s : string) :
  label_here i prev s = true ->
  s = (label i ++ skip (String.length (label i)) s)%string
  /\ is_word_opt prev = false.
Proof.
  unfold label_here, word_boundary. intros H.
  apply andb_true_iff in H as [B P]. split; [now apply prefix_skip|].
  rewrite (prefix_head _ _ P (label_nonempty i)), label_head_word in B.
  now destruct (is_word_opt prev).
Qed.

Lemma after_label_spec (i : nat) (s : string) :
  forall prev rest,
    after_label i prev s = Some rest ->
    exists pre,
      s = (pre ++ label i ++ rest)%string
      /\ is_word_opt (last_char_or prev pre) = false.
Proof.
  induction s as [|c s IH]; intros prev rest; simpl.
  - destruct (label_here i prev "") eqn:E; [|discriminate].
    intros [= <-]. apply label_here_spec in E as [E W].
    exists "". now split.
  - destruct (label_here i prev (String c s)) eqn:E.
    + intros [= <-]. apply label_here_spec in E as [E W].
      exists "". now split.
    + intros H. apply IH in H as [pre [-> W]].
      exists (String c pre). now split.
Qed.

Lemma lazy_span_spec (j : nat) (s : string) :
  forall prev,
    exists tail,
      s = (lazy_span j prev s ++ tail)%string
      /\ lookahead_here j (last_char_or prev (lazy_span j prev s)) tail = true.
Proof.
  induction s as [|c s IH]; intros prev; simpl.
  - exists "". destruct (lookahead_here j prev "") eqn:E; simpl.
    + now split.
    + unfold lookahead_here in E. simpl in E. now rewrite orb_true_r in E.
  - destruct (lookahead_here j prev (String c s)) eqn:E.
    + exists (String c s). now split.
    + destruct (IH (Some c)) as [tail [Hs Hl]].
      exists tail. simpl. split; [now f_equal | exact Hl].
Qed.

Lemma digit_opt_is_word (c : option ascii) :
  is_word_opt c = false -> is_digit_opt c = false.
Proof.
  destruct c as [c|]; simpl; [|reflexivity].
  destruct (is_digit c) eqn:D; [|reflexivity].
  now rewrite (digit_is_word c D).
Qed.

Lemma prefix_of_app (a s : string) : String.prefix a (a ++ s) = true.
Proof.
  induction a as [|c a IH]; simpl; [now destruct s|].
  destruct (ascii_dec c c) as [_|N]; [exact IH | now elim N].
Qed.

(** After a character that is not a word character, and at the start of
    the text, [\b{i}:] matches the label that stands there. *)
Lemma label_here_after_nonword (i : nat) (prev : option ascii)
    (rest : string) :
  is_word_opt prev = false -> label_here i prev (label i ++ rest) = true.
Proof.
  intros W. unfold label_here, word_boundary.
  rewrite (prefix_head _ _ (prefix_of_app (label i) rest) (label_nonempty i)).
  now rewrite label_head_word, W, prefix_of_app.
Qed.

(** The search does not run past such a label. *)
Lemma after_label_finds (i : nat) (pre rest : string) :
  forall prev,
    is_word_opt (last_char_or prev pre) = false ->
    exists rest',
      after_label i prev (pre ++ label i ++ rest) = Some rest'.
Proof.
  induction pre as [|c pre IH]; intros prev W.
  - cbn [append last_char_or] in *.
    pose proof (label_here_after_nonword i prev rest W) as L.
    destruct (label i ++ rest)%string as [|a s]; cbn [after_label];
      rewrite L; eexists; reflexivity.
  - cbn [append last_char_or after_label] in *.
    destruct (label_here i prev _); [eexists; reflexivity|].
    now apply IH.
Qed.

End RegexFacts.

(** ** Totality and boundaries of the parser *)

Module ParserClaims.
Import PyStr PyDict Parser Props StrFacts ParserFacts DictFacts.
Import UserItemsFacts RegexFacts.

Lemma meta_values_trimmed (content : string) :
  keys (parse_meta_extraction content) = meta_keys
  /\ Forall trimmed_or_NA (values (parse_meta_extraction content)).
Proof.
  unfold parse_meta_extraction, values, keys.
  pose proof (parse_items_trimmed content 8) as T.
  set (data := parse_items content 8) in *.
  split; [reflexivity|]. simpl.
  repeat (apply Forall_cons; [apply item_value_trimmed|]). apply Forall_nil.
Qed.

Lemma detail_values_trimmed (content : string) :
  keys (parse_detail_extraction content) = detail_keys
  /\ Forall trimmed_or_NA (values (parse_detail_extraction content)).
Proof.
  unfold parse_detail_extraction, values, keys.
  pose proof (parse_items_trimmed content 7) as T.
  set (data := parse_items content 7) in *.
  split; [reflexivity|]. simpl.
  repeat (apply Forall_cons; [apply item_value_trimmed|]). apply Forall_nil.
Qed.

Lemma user_items_values_trimmed (content : string) (n : nat) :
  exists d,
    parse_user_items_response content n = Some d
    /\ keys d = map extra_key (seq 0 n)
    /\ Forall trimmed_or_NA (values d).
Proof.
  eexists. split; [apply parse_user_items_response_eq|].
  unfold keys, values. rewrite !map_map. simpl. split; [reflexivity|].
  apply Forall_forall. intros v Hv.
  apply in_map_iff in Hv as [j [<- _]]. apply item_value_trimmed.
Qed.

End ParserClaims.

(** C7.  For every text and every expected count N >= 1 the enumerated
    parser fills exactly N values, each the sentinel "NA" or a non-empty
    text without surrounding white space.  The user-items parser never
    raises and returns N entries of that kind under N distinct keys, the
    meta parser eight of them.  A text in which no digit is followed by a
    colon yields N times "NA". *)
Theorem parser_totality (content : string) (n : nat) :
  1 <= n ->
  length (Parser.parse_items content n) = n
  /\ Forall Props.trimmed_or_NA (Parser.parse_items content n)
  /\ (exists d,
        Parser.parse_user_items_response content n = Some d
        /\ length d = n
        /\ NoDup (PyDict.keys d)
        /\ Forall Props.trimmed_or_NA (PyDict.values d))
  /\ (length (Parser.parse_meta_extraction content) = 8
      /\ Forall Props.trimmed_or_NA
           (PyDict.values (Parser.parse_meta_extraction content)))
  /\ (Props.has_digit_colon content = false ->
      Parser.parse_items content n = repeat "NA" n).
Proof.
  intros _. split; [apply ParserFacts.parse_items_length|].
  split; [apply ParserFacts.parse_items_trimmed|].
  split.
  { destruct (ParserClaims.user_items_values_trimmed content n)
      as [d [E [K V]]].
    exists d. split; [exact E|]. split.
    - rewrite <- (length_map fst d). change (map fst d) with (PyDict.keys d).
      now rewrite K, length_map, length_seq.
    - split; [|exact V]. rewrite K.
      apply UserItemsFacts.extra_keys_distinct, seq_NoDup. }
  split.
  { split; [reflexivity|]. apply ParserClaims.meta_values_trimmed. }
  apply ParserFacts.no_label_all_NA.
Qed.

(** The parser on an answer of three items that has no label. *)
Lemma parser_totality_witness :
  1 <= 3
  /\ Props.has_digit_colon "no labels in this answer" = false
  /\ Parser.parse_items "no labels in this answer" 3 = ["NA"; "NA"; "NA"].
Proof.
  split; [lia|]. split; [reflexivity|].
  destruct (parser_totality "no labels in this answer" 3) as (_ & _ & _ & _ & H);
    [lia|].
  apply H. reflexivity.
Defined.

(** C8 (amended).  Label matching is boundary-aware.  The answer
    "1: foo bar", newline, "2: baz" parsed with N = 2 gives "foo bar" and
    "baz"; in "10: qux" parsed with N = 10 the label of item 1 (like
    those of items 2 to 9) finds nothing and item 10 is "qux".  For every
    text, the label found for item i is not preceded by a word character
    (a letter, a digit or an underscore), so never by a digit of a longer
    run of digits, and the label that ends a lazy span is not preceded by
    one either.  After any other character, and at the start of the
    text, the label is matched: the search for item i succeeds on every
    text that holds the label there.  So the label is also found inside
    a number written with a point: "0.1: x" parsed with N = 1 gives
    "x". *)
Theorem label_matching_boundary_aware :
  Parser.parse_items ("1: foo bar" ++ Props.nl ++ "2: baz")%string 2
    = ["foo bar"; "baz"]
  /\ Parser.parse_items "10: qux" 10 = repeat "NA" 9 ++ ["qux"]
  /\ (forall (i : nat) (content rest : string),
        Regex.after_label i None content = Some rest ->
        exists pre,
          content = (pre ++ Regex.label i ++ rest)%string
          /\ Regex.is_word_opt (Props.last_char pre) = false
          /\ Props.is_digit_opt (Props.last_char pre) = false)
  /\ (forall (j : nat) (c : ascii) (s : string),
        exists tail,
          s = (Regex.lazy_span j (Some c) s ++ tail)%string
          /\ (Regex.dollar_here tail = true
              \/ (String.prefix (Regex.label j) tail = true
                  /\ Regex.is_word_opt
                       (Props.last_char_or (Some c)
                          (Regex.lazy_span j (Some c) s)) = false
                  /\ Props.is_digit_opt
                       (Props.last_char_or (Some c)
                          (Regex.lazy_span j (Some c) s)) = false)))
  /\ (forall (i : nat) (pre rest : string),
        Regex.is_word_opt (Props.last_char pre) = false ->
        exists rest',
          Regex.after_label i None (pre ++ Regex.label i ++ rest)%string
          = Some rest')
  /\ Parser.parse_items "0.1: x" 1 = ["x"].
Proof.
  split; [reflexivity|]. split; [reflexivity|]. split.
  { intros i content rest H.
    apply RegexFacts.after_label_spec in H as [pre [E W]].
    exists pre. split; [exact E|]. split; [exact W|].
    now apply RegexFacts.digit_opt_is_word. }
  split.
  { intros j c s.
    destruct (RegexFacts.lazy_span_spec j s (Some c)) as [tail [E L]].
    exists tail. split; [exact E|].
    unfold Regex.lookahead_here in L. apply orb_true_iff in L as [L|L];
      [right | now left].
    pose proof L as L'. apply RegexFacts.label_here_spec in L' as [_ W].
    unfold Regex.label_here in L. apply andb_true_iff in L as [_ P].
    split; [exact P|]. split; [exact W|].
    now apply RegexFacts.digit_opt_is_word. }
  split; [|reflexivity].
  intros i pre rest W. now apply RegexFacts.after_label_finds.
Qed.

(** The label of item 1 in a text that also holds the number 21, and
    after the point of 0.1. *)
Lemma label_matching_boundary_aware_witness :
  Regex.after_label 1 None "21: a 1: b" = Some " b"
  /\ (exists pre,
        "21: a 1: b" = (pre ++ Regex.label 1 ++ " b")%string
        /\ Props.is_digit_opt (Props.last_char pre) = false)
  /\ Regex.is_word_opt (Props.last_char "0.") = false
  /\ exists rest',
       Regex.after_label 1 None ("0." ++ Regex.label 1 ++ " x")%string
       = Some rest'.
Proof.
  split; [reflexivity|].
  destruct label_matching_boundary_aware as (_ & _ & H & _ & F & _).
  split.
  - destruct (H 1 "21: a 1: b" " b" eq_refl) as [pre [E [_ D]]].
    exists pre. now split.
  - split; [reflexivity|]. apply (F 1 "0." " x"). reflexivity.
Defined.

(** C8 as stated fails: a label is matched inside a number written with
    a point.  In "0.1: x" the label of item 1 is found after the point,
    and in "1: p = 0.2: borderline 2: y" the value of item 1 ends, and
    that of item 2 starts, inside 0.2. *)
Lemma label_matches_inside_decimal :
  Parser.parse_items "0.1: x" 1 = ["x"]
  /\ Parser.parse_items "1: p = 0.2: borderline 2: y" 2
     = ["p = 0."; "borderline 2: y"].
Proof. split; reflexivity. Qed.

(** C2 (what the code does).  With the two labels a and b and the answer
    "1: x", newline, "2: y", the user-items extractor stores the answer
    to item 2 under extra_0 and the answer to item 1 under extra_1: the
    index [i - 1] of the comprehension starts at -1, the last item. *)
Theorem user_items_rotated :
  Parser.parse_user_items_response ("1: x" ++ Props.nl ++ "2: y")%string 2
    = Some [("extra_0", "y"); ("extra_1", "x")]
  /\ fst (Extractors.extract_user_items
            (fun _ _ => Some ("1: x" ++ Props.nl ++ "2: y")%string)
            "paper text" ["a"; "b"] [])
     = inr [("extra_0", "y"); ("extra_1", "x")].
Proof. split; reflexivity. Qed.

(** ** The extractors *)

Module ExtractorFacts.
Import PyStr PyDict Effects Parser Extractors Props.
Import StrFacts ParserFacts DictFacts UserItemsFacts.

Section WithChat.
Variable chat : nat -> request -> option string.

Lemma content_or_eq {A} (r : request) (fallback : A) (w : log) :
  content_or chat r fallback w
  = (inr match chat (length w) r with
         | Some content => inr (strip content)
         | None => inl fallback
         end, w ++ [ChatCall r]).
Proof.
  unfold content_or, try_except, bind, create_chat, ret.
  destruct (chat (length w) r); reflexivity.
Qed.

(** The meta extractor returns a record whatever the call does, after
    exactly one call. *)
Lemma extract_meta_info_eq (paper_text : string) (w : log) :
  extract_meta_info chat paper_text w
  = (inr (meta_of (chat (length w) (MetaPrompt paper_text))),
     w ++ [ChatCall (MetaPrompt paper_text)]).
Proof.
  unfold extract_meta_info, bind. rewrite content_or_eq.
  destruct (chat (length w) (MetaPrompt paper_text)); reflexivity.
Qed.

Lemma extract_result_details_eq (paper_text result_text : string) (w : log) :
  extract_result_details chat paper_text result_text w
  = (inr (detail_of (chat (length w) (DetailPrompt paper_text result_text))),
     w ++ [ChatCall (DetailPrompt paper_text result_text)]).
Proof.
  unfold extract_result_details, bind. rewrite content_or_eq.
  destruct (chat (length w) (DetailPrompt paper_text result_text));
    reflexivity.
Qed.

Lemma extract_user_items_eq (paper_text : string) (item : string)
    (items : list string) (w : log) :
  extract_user_items chat paper_text (item :: items) w
  = (inr (user_data_of (item :: items)
            (chat (length w) (UserItemsPrompt paper_text (item :: items)))),
     w ++ [ChatCall (UserItemsPrompt paper_text (item :: items))]).
Proof.
  unfold extract_user_items, bind. rewrite content_or_eq.
  unfold user_data_of.
  destruct (chat (length w) (UserItemsPrompt paper_text (item :: items)))
    as [c|]; [|reflexivity].
  now rewrite parse_user_items_response_eq.
Qed.

End WithChat.

Lemma user_items_fallback_eq (user_items : list string) :
  user_items_fallback user_items
  = map (fun i => (extra_key i, NA)) (seq 1 (length user_items)).
Proof.
  unfold user_items_fallback. apply of_pairs_distinct.
  rewrite map_map. simpl. apply extra_keys_distinct, seq_NoDup.
Qed.

(** Every key of a user-items record is one of the [extra_] keys. *)
Lemma user_data_keys (user_items : list string) (answer : option string) :
  forall k, In k (keys (user_data_of user_items answer)) ->
            exists i, k = extra_key i.
Proof.
  intros k. unfold user_data_of. destruct user_items as [|x l]; [easy|].
  destruct answer as [c|].
  - rewrite parse_user_items_response_eq. unfold keys. rewrite map_map.
    intros H. apply in_map_iff in H as [j [<- _]]. now exists j.
  - rewrite user_items_fallback_eq. unfold keys. rewrite map_map.
    intros H. apply in_map_iff in H as [j [<- _]]. now exists j.
Qed.

Lemma user_data_success_keys (user_items : list string) (content : string) :
  user_items <> [] ->
  keys (user_data_of user_items (Some content))
  = map extra_key (seq 0 (length user_items)).
Proof.
  unfold user_data_of. destruct user_items as [|x l]; [easy|]. intros _.
  rewrite parse_user_items_response_eq. unfold keys. now rewrite map_map.
Qed.

End ExtractorFacts.

(** ** Rows and reconciliation *)

Module PipelineFacts.
Import PyStr PyDict Effects Parser Extractors Pipeline Props.
Import StrFacts DictFacts UserItemsFacts ExtractorFacts.

Lemma base_not_extra (k : string) (i : nat) :
  In k base_fieldnames -> k <> extra_key i.
Proof.
  unfold extra_key. simpl.
  intros H E. subst k.
  repeat (destruct H as [H|H]; [discriminate H|]). exact H.
Qed.

Lemma fold_set_lookup_other (k : string) (ud : dict string) :
  forall r0 : row,
    (forall k', In k' (keys ud) -> k' <> k) ->
    lookup k (fold_left (fun r kv => set (fst kv) (CStr (snd kv)) r) ud r0)
    = lookup k r0.
Proof.
  induction ud as [|[k' v] ud IH]; intros r0 H; simpl; [reflexivity|].
  rewrite IH by (intros k2 H2; apply H; now right).
  apply lookup_set_other. intros E. apply (H k'); [now left | now symmetry].
Qed.

(** The user data never touches a column that it does not name. *)
Lemma build_row_lookup (k pdf_file : string) (meta_data : dict string)
    (i : Z) (t : string) (dd ud : dict string) :
  (forall k', In k' (keys ud) -> k' <> k) ->
  lookup k (build_row pdf_file meta_data i t dd ud)
  = lookup k (build_row pdf_file meta_data i t dd []).
Proof. intros H. unfold build_row. now apply fold_set_lookup_other. Qed.

Lemma extra_keys_not_base (ud : dict string) (k : string) :
  (forall k', In k' (keys ud) -> exists j, k' = extra_key j) ->
  In k base_fieldnames ->
  forall k', In k' (keys ud) -> k' <> k.
Proof.
  intros H Hk k' Hk' E. destruct (H k' Hk') as [j ->].
  now apply (base_not_extra k j).
Qed.

Lemma keys_set {V} (k k' : string) (v : V) (d : dict V) :
  In k (keys (set k' v d)) -> k = k' \/ In k (keys d).
Proof.
  induction d as [|[k2 v2] d IH]; simpl.
  - intros [<-|[]]. now left.
  - destruct (String.eqb k' k2) eqn:E; simpl.
    + intros [<-|H]; right; [now left | now right].
    + intros [<-|H]; [right; now left|].
      destruct (IH H) as [->|H']; [now left | right; now right].
Qed.

Lemma keys_fold_set (ud : dict string) :
  forall (r0 : row) (k : string),
    In k (keys (fold_left (fun r kv => set (fst kv) (CStr (snd kv)) r)
                          ud r0)) ->
    In k (keys r0) \/ In k (keys ud).
Proof.
  induction ud as [|[k' v] ud IH]; intros r0 k; simpl; [now left|].
  intros H. apply IH in H as [H|H]; [|right; now right].
  apply keys_set in H as [->|H]; [right; now left | now left].
Qed.

Lemma build_row_keys (pdf_file : string) (meta_data : dict string)
    (i : Z) (t : string) (dd ud : dict string) (k : string) :
  In k (keys (build_row pdf_file meta_data i t dd ud)) ->
  In k base_fieldnames \/ In k (keys ud).
Proof. unfold build_row. intros H. now apply keys_fold_set in H. Qed.

Lemma reconciled_count_eq (reported : Z) (l : list string) :
  reconciled_count reported l = Z.of_nat (length l).
Proof.
  unfold reconciled_count.
  destruct (Z.eqb reported (Z.of_nat (length l))) eqn:E; simpl;
    [now apply Z.eqb_eq in E | reflexivity].
Qed.

Section WithCollaborators.
Variable chat : nat -> request -> option string.
Variable py_int : string -> option Z.

Lemma detail_rows_eq (pdf_file paper_text : string)
    (meta_data user_data : dict string) (results : list string) :
  forall (i : Z) (w : log),
    detail_rows chat pdf_file paper_text meta_data user_data i results w
    = (inr (rows_from chat pdf_file paper_text meta_data user_data i
              (length w) results),
       w ++ detail_requests paper_text results).
Proof.
  induction results as [|t rest IH]; intros i w; simpl.
  - unfold ret. now rewrite app_nil_r.
  - unfold bind at 1. rewrite extract_result_details_eq.
    unfold bind at 1. rewrite IH. unfold ret.
    rewrite length_app, Nat.add_1_r, <- app_assoc. reflexivity.
Qed.

(** The rows of a study whose meta record holds the results text [raw]:
    one row of sentinels and no call when no candidate is left, one
    detail call and one row per candidate otherwise. *)
Lemma study_rows_eq (pdf_file paper_text raw : string)
    (meta_data user_data : dict string) (w : log) :
  lookup "main_results_list" meta_data = Some raw ->
  study_rows chat py_int pdf_file paper_text meta_data user_data w
  = match split_main_results raw with
    | [] => (inr [build_row pdf_file meta_data 0 "NA" na_detail_data
                    user_data], w)
    | _ :: _ =>
        (inr (rows_from chat pdf_file paper_text meta_data user_data 1
                (length w) (split_main_results raw)),
         w ++ detail_requests paper_text (split_main_results raw))
    end.
Proof.
  intros H. unfold study_rows, bind, lift, getitem. rewrite H.
  rewrite reconciled_count_eq.
  destruct (split_main_results raw) as [|t l] eqn:E; [reflexivity|].
  replace (Z.eqb (Z.of_nat (length (t :: l))) 0) with false
    by (symmetry; apply Z.eqb_neq; simpl; lia).
  apply detail_rows_eq.
Qed.

Lemma meta_of_raw (answer : option string) :
  lookup "main_results_list" (meta_of answer)
  = Some (raw_results (meta_of answer)).
Proof. destruct answer; reflexivity. Qed.

End WithCollaborators.

End PipelineFacts.

(** ** One study *)

Module StudyFacts.
Import PyStr PyDict Effects Parser Extractors Pipeline Props.
Import StrFacts DictFacts UserItemsFacts ExtractorFacts PipelineFacts.

Lemma detail_calls_app (a b : log) :
  detail_calls (a ++ b) = detail_calls a ++ detail_calls b.
Proof. apply flat_map_app. Qed.

Lemma detail_calls_requests (paper_text : string) (l : list string) :
  detail_calls (detail_requests paper_text l) = l.
Proof. induction l as [|t l IH]; simpl; [reflexivity | now rewrite IH]. Qed.

Lemma rows_from_length (chat : nat -> request -> option string)
    (pdf_file paper_text : string) (meta_data user_data : dict string)
    (results : list string) :
  forall (i : Z) (n : nat),
    length (rows_from chat pdf_file paper_text meta_data user_data i n
              results) = length results.
Proof. induction results; intros; simpl; [reflexivity | now rewrite IHresults]. Qed.

Section WithCollaborators.
Variable chat : nat -> request -> option string.
Variable py_int : string -> option Z.

Lemma process_study_eq (pdf_file paper_text : string)
    (user_items : list string) (w : log) :
  process_study chat py_int pdf_file paper_text user_items w
  = study_rows chat py_int pdf_file paper_text
      (meta_at chat paper_text w) (user_at chat paper_text user_items w)
      (w ++ first_calls paper_text user_items).
Proof.
  unfold process_study, meta_at, user_at, first_calls.
  unfold bind at 1. rewrite extract_meta_info_eq.
  destruct user_items as [|x l].
  - reflexivity.
  - unfold bind at 1. rewrite extract_user_items_eq.
    rewrite length_app, Nat.add_1_r, <- app_assoc. reflexivity.
Qed.

Lemma user_at_keys (paper_text : string) (user_items : list string)
    (w : log) :
  forall k, In k (keys (user_at chat paper_text user_items w)) ->
            exists j, k = extra_key j.
Proof. apply user_data_keys. Qed.

Lemma detail_calls_first (paper_text : string) (user_items : list string) :
  detail_calls (first_calls paper_text user_items) = [].
Proof. destruct user_items; reflexivity. Qed.

End WithCollaborators.

Section Rows.
Variable chat : nat -> request -> option string.
Variables pdf_file paper_text : string.
Variables meta_data user_data : dict string.
Hypothesis extra_only :
  forall k, In k (keys user_data) -> exists j, k = extra_key j.

Lemma base_lookup (k : string) (i : Z) (t : string) (dd : dict string) :
  In k base_fieldnames ->
  lookup k (build_row pdf_file meta_data i t dd user_data)
  = lookup k (build_row pdf_file meta_data i t dd []).
Proof.
  intros Hk. apply build_row_lookup.
  now apply extra_keys_not_base.
Qed.

Lemma rows_from_index (results : list string) :
  forall (a n : nat),
    map (lookup "main_result_index")
        (rows_from chat pdf_file paper_text meta_data user_data
           (Z.of_nat a) n results)
    = map (fun j => Some (CInt (Z.of_nat j))) (seq a (length results)).
Proof.
  induction results as [|t l IH]; intros a n; simpl; [reflexivity|].
  rewrite base_lookup by (simpl; tauto).
  replace (Z.of_nat a + 1)%Z with (Z.of_nat (S a)) by lia.
  now rewrite IH.
Qed.

Lemma rows_from_text (results : list string) :
  forall (i : Z) (n : nat),
    map (lookup "main_result_text")
        (rows_from chat pdf_file paper_text meta_data user_data i n results)
    = map (fun t => Some (CStr t)) results.
Proof.
  induction results as [|t l IH]; intros i n; simpl; [reflexivity|].
  rewrite base_lookup by (simpl; tauto). now rewrite IH.
Qed.

Lemma rows_from_meta (k : string) (results : list string) :
  In k meta_keys -> k <> "main_results_list" ->
  forall (i : Z) (n : nat),
    Forall (fun r => lookup k r
                     = Some (CStr (get meta_data k
                                     (if String.eqb k "num_main_results"
                                      then "0" else "NA"))))
           (rows_from chat pdf_file paper_text meta_data user_data i n
              results).
Proof.
  intros Hk Hne. induction results as [|t l IH]; intros i n; simpl;
    constructor; [|apply IH].
  rewrite base_lookup.
  - simpl in Hk.
    repeat (destruct Hk as [<-|Hk]; [first [reflexivity | now elim Hne]|]).
    now elim Hk.
  - simpl in Hk. simpl.
    repeat (destruct Hk as [<-|Hk]; [first [tauto | now elim Hne]|]).
    now elim Hk.
Qed.

End Rows.

End StudyFacts.

(** ** Reconciliation and rows of one study *)

Module StudyClaims.
Import PyStr PyDict Effects Parser Extractors Pipeline Props.
Import StrFacts DictFacts UserItemsFacts ExtractorFacts PipelineFacts.
Import StudyFacts.

Lemma split_main_results_eq (raw : string) :
  split_main_results raw
  = if String.eqb raw "NA" then [] else nonempty_parts raw.
Proof.
  unfold split_main_results, nonempty_parts.
  destruct raw as [|c raw]; [reflexivity|].
  cbn [is_empty negb andb]. now destruct (String.eqb (String c raw) "NA").
Qed.

Lemma meta_field7 (answer : option string) :
  get (meta_of answer) "num_main_results" "0"
  = match answer with
    | Some content => item_value 7 8 (strip content)
    | None => "0"
    end.
Proof. destruct answer; reflexivity. Qed.

Section OneStudy.
Variable chat : nat -> request -> option string.
Variable py_int : string -> option Z.
Variables pdf_file paper_text : string.
Variable user_items : list string.
Variable w : log.

Local Abbreviation meta_data := (meta_at chat paper_text w).
Local Abbreviation user_data := (user_at chat paper_text user_items w).
Local Abbreviation candidates := (split_main_results (raw_results meta_data)).
Local Abbreviation w1 := (w ++ first_calls paper_text user_items).

Lemma process_study_cases :
  process_study chat py_int pdf_file paper_text user_items w
  = match candidates with
    | [] => (inr [build_row pdf_file meta_data 0 "NA" na_detail_data
                    user_data], w1)
    | _ :: _ =>
        (inr (rows_from chat pdf_file paper_text meta_data user_data 1
                (length w1) candidates),
         w1 ++ detail_requests paper_text candidates)
    end.
Proof.
  rewrite process_study_eq.
  apply study_rows_eq. apply meta_of_raw.
Qed.

Lemma zero_row_cells (k : string) :
  In k detail_keys ->
  lookup k (build_row pdf_file meta_data 0 "NA" na_detail_data user_data)
  = Some (CStr "NA").
Proof.
  intros Hk. rewrite base_lookup.
  - simpl in Hk.
    repeat (destruct Hk as [<-|Hk]; [reflexivity|]). now elim Hk.
  - apply user_at_keys.
  - simpl in Hk. simpl.
    repeat (destruct Hk as [<-|Hk]; [tauto|]). now elim Hk.
Qed.

End OneStudy.

End StudyClaims.

(** C5 (amended).  For every study the candidate list is: nothing when
    the raw results text is the sentinel "NA", otherwise the non-empty
    trimmed parts of the text split on ";".  The reconciled count is the
    length of that list whatever count the study reports ("A; B; C"
    reconciles to 3 for every reported count).  When the list is not
    empty the study makes exactly one detail call per candidate, in
    split order, and its rows carry the indices 1, 2, ... and the
    candidate texts in that order. *)
Theorem reconciliation_follows_candidates
    (chat : nat -> Effects.request -> option string)
    (py_int : string -> option Z) (pdf_file paper_text : string)
    (user_items : list string) (w : Effects.log) :
  let meta_data := Props.meta_at chat paper_text w in
  let raw := Props.raw_results meta_data in
  let candidates := Pipeline.split_main_results raw in
  candidates
    = (if String.eqb raw "NA" then [] else Props.nonempty_parts raw)
  /\ Pipeline.reconciled_count (Pipeline.reported_count py_int meta_data)
       candidates = Z.of_nat (length candidates)
  /\ (forall reported : Z,
        Pipeline.reconciled_count reported
          (Pipeline.split_main_results "A; B; C") = 3%Z)
  /\ (candidates <> [] ->
      exists rows w',
        Pipeline.process_study chat py_int pdf_file paper_text user_items w
          = (inr rows, w')
        /\ Effects.detail_calls w' = Effects.detail_calls w ++ candidates
        /\ map (PyDict.lookup "main_result_index") rows
           = map (fun j => Some (Pipeline.CInt (Z.of_nat j)))
                 (seq 1 (length candidates))
        /\ map (PyDict.lookup "main_result_text") rows
           = map (fun t => Some (Pipeline.CStr t)) candidates).
Proof.
  intros meta_data raw candidates.
  split; [apply StudyClaims.split_main_results_eq|].
  split; [apply PipelineFacts.reconciled_count_eq|].
  split; [intros; apply PipelineFacts.reconciled_count_eq|].
  intros Hne.
  rewrite StudyClaims.process_study_cases.
  fold meta_data. fold raw. fold candidates.
  destruct candidates as [|t l] eqn:E; [now elim Hne|].
  eexists. eexists. split; [reflexivity|]. split.
  - rewrite !StudyFacts.detail_calls_app, StudyFacts.detail_calls_first,
      StudyFacts.detail_calls_requests. now rewrite app_nil_r.
  - split.
    + apply (StudyFacts.rows_from_index chat pdf_file paper_text _ _
               (StudyFacts.user_at_keys chat paper_text user_items w)
               (t :: l) 1).
    + apply StudyFacts.rows_from_text, StudyFacts.user_at_keys.
Qed.

(** A study that reports 5 results and lists three. *)
Lemma reconciliation_follows_candidates_witness :
  Pipeline.split_main_results
    (Props.raw_results (Props.meta_at Props.chat_three_results "text" []))
    <> []
  /\ exists rows w',
       Pipeline.process_study Props.chat_three_results Props.sample_int
         "a.pdf" "text" [] [] = (inr rows, w')
       /\ Effects.detail_calls w' = ["A"; "B"; "C"].
Proof.
  assert (N : Pipeline.split_main_results
                (Props.raw_results
                   (Props.meta_at Props.chat_three_results "text" [])) <> [])
    by (vm_compute; discriminate).
  split; [exact N|].
  destruct (reconciliation_follows_candidates Props.chat_three_results
              Props.sample_int
              "a.pdf" "text" [] []) as (_ & _ & _ & H).
  destruct (H N) as (rows & w' & E & D & _).
  exists rows, w'. split; [exact E | exact D].
Defined.

(** C5 as stated fails: the raw results text "NA" split on ";" has one
    non-empty trimmed part, yet it reconciles to 0 results. *)
Lemma sentinel_text_reconciles_to_zero :
  Props.nonempty_parts "NA" = ["NA"]
  /\ Pipeline.reconciled_count 1 (Pipeline.split_main_results "NA") = 0%Z
  /\ Pipeline.reconciled_count 1 (Pipeline.split_main_results "NA")
     <> Z.of_nat (length (Props.nonempty_parts "NA")).
Proof. repeat split; try reflexivity. vm_compute. discriminate. Qed.

(** C6.  For every study whose reconciled result count is 0, exactly one
    row is produced, with main_result_index 0, main_result_text "NA" and
    the seven detail fields "NA", and the study makes no detail call. *)
Theorem zero_results_single_row
    (chat : nat -> Effects.request -> option string)
    (py_int : string -> option Z) (pdf_file paper_text : string)
    (user_items : list string) (w : Effects.log) :
  let meta_data := Props.meta_at chat paper_text w in
  Pipeline.reconciled_count (Pipeline.reported_count py_int meta_data)
    (Pipeline.split_main_results (Props.raw_results meta_data)) = 0%Z ->
  exists r w',
    Pipeline.process_study chat py_int pdf_file paper_text user_items w
      = (inr [r], w')
    /\ PyDict.lookup "main_result_index" r = Some (Pipeline.CInt 0)
    /\ PyDict.lookup "main_result_text" r = Some (Pipeline.CStr "NA")
    /\ Forall (fun k => PyDict.lookup k r = Some (Pipeline.CStr "NA"))
              Parser.detail_keys
    /\ Effects.detail_calls w' = Effects.detail_calls w.
Proof.
  intros meta_data H.
  rewrite PipelineFacts.reconciled_count_eq in H.
  rewrite StudyClaims.process_study_cases. fold meta_data.
  destruct (Pipeline.split_main_results (Props.raw_results meta_data));
    [|simpl in H; lia].
  eexists. eexists. split; [reflexivity|].
  split.
  { rewrite StudyFacts.base_lookup;
      [reflexivity | apply StudyFacts.user_at_keys | simpl; tauto]. }
  split.
  { rewrite StudyFacts.base_lookup;
      [reflexivity | apply StudyFacts.user_at_keys | simpl; tauto]. }
  split.
  { apply Forall_forall. intros k Hk.
    now apply StudyClaims.zero_row_cells. }
  rewrite StudyFacts.detail_calls_app, StudyFacts.detail_calls_first.
  now rewrite app_nil_r.
Qed.

(** A study that reports 2 results and lists none. *)
Lemma zero_results_single_row_witness :
  Pipeline.reconciled_count
    (Pipeline.reported_count Props.sample_int
       (Props.meta_at Props.chat_no_results "text" []))
    (Pipeline.split_main_results
       (Props.raw_results (Props.meta_at Props.chat_no_results "text" [])))
    = 0%Z
  /\ exists r w',
       Pipeline.process_study Props.chat_no_results Props.sample_int
         "a.pdf" "text" ["age"] [] = (inr [r], w')
       /\ PyDict.lookup "main_result_index" r = Some (Pipeline.CInt 0)
       /\ Effects.detail_calls w' = [].
Proof.
  assert (Z0 : Pipeline.reconciled_count
            (Pipeline.reported_count Props.sample_int
               (Props.meta_at Props.chat_no_results "text" []))
            (Pipeline.split_main_results
               (Props.raw_results
                  (Props.meta_at Props.chat_no_results "text" []))) = 0%Z)
    by reflexivity.
  split; [exact Z0|].
  destruct (zero_results_single_row Props.chat_no_results Props.sample_int
              "a.pdf" "text" ["age"] [] Z0) as (r & w' & E & I & _ & _ & D).
  exists r, w'. split; [exact E|]. split; [exact I | exact D].
Defined.

(** C10.  For every study, every row holds under num_main_results the
    raw text parsed for meta item 7, or "0" when the meta call failed;
    reconciliation leaves it as it is.  The study contributes one row
    per candidate of the split results text and one row when there is
    none.  So the cell can be "NA" or a text that is no number and can
    differ from the number of rows. *)
Theorem num_main_results_cell_is_raw
    (chat : nat -> Effects.request -> option string)
    (py_int : string -> option Z) (pdf_file paper_text : string)
    (user_items : list string) (w : Effects.log) :
  (exists rows w',
     Pipeline.process_study chat py_int pdf_file paper_text user_items w
       = (inr rows, w')
     /\ Forall
          (fun r =>
             PyDict.lookup "num_main_results" r
             = Some (Pipeline.CStr
                       match chat (length w) (Effects.MetaPrompt paper_text)
                       with
                       | Some content =>
                           Parser.item_value 7 8 (PyStr.strip content)
                       | None => "0"
                       end))
          rows
     /\ length rows
        = Nat.max 1
            (length (Pipeline.split_main_results
                       (Props.raw_results
                          (Props.meta_at chat paper_text w)))))
  /\ (exists rows w',
        Pipeline.process_study Props.chat_no_count py_int pdf_file
          paper_text user_items w = (inr rows, w')
        /\ length rows = 2
        /\ Forall (fun r => PyDict.lookup "num_main_results" r
                            = Some (Pipeline.CStr "NA")) rows)
  /\ (exists rows w',
        Pipeline.process_study Props.chat_several py_int pdf_file
          paper_text user_items w = (inr rows, w')
        /\ length rows = 2
        /\ Forall (fun r => PyDict.lookup "num_main_results" r
                            = Some (Pipeline.CStr "several")) rows).
Proof.
  assert (G : forall chat',
    exists rows w',
      Pipeline.process_study chat' py_int pdf_file paper_text user_items w
        = (inr rows, w')
      /\ Forall
           (fun r =>
              PyDict.lookup "num_main_results" r
              = Some (Pipeline.CStr
                        match chat' (length w) (Effects.MetaPrompt paper_text)
                        with
                        | Some content =>
                            Parser.item_value 7 8 (PyStr.strip content)
                        | None => "0"
                        end))
           rows
      /\ length rows
         = Nat.max 1
             (length (Pipeline.split_main_results
                        (Props.raw_results
                           (Props.meta_at chat' paper_text w))))).
  { intros chat'. rewrite StudyClaims.process_study_cases.
    rewrite <- StudyClaims.meta_field7.
    change (Props.meta_of (chat' (length w) (Effects.MetaPrompt paper_text)))
      with (Props.meta_at chat' paper_text w).
    destruct (Pipeline.split_main_results
                (Props.raw_results (Props.meta_at chat' paper_text w)))
      as [|t l].
    - eexists. eexists. split; [reflexivity|]. split; [|reflexivity].
      constructor; [|constructor].
      rewrite StudyFacts.base_lookup;
        [reflexivity | apply StudyFacts.user_at_keys | simpl; tauto].
    - eexists. eexists. split; [reflexivity|]. split.
      + apply (StudyFacts.rows_from_meta chat' pdf_file paper_text _ _
                 (StudyFacts.user_at_keys chat' paper_text user_items w)
                 "num_main_results").
        * simpl; tauto.
        * discriminate.
      + rewrite StudyFacts.rows_from_length. simpl. lia. }
  split; [apply G|]. split.
  - destruct (G Props.chat_no_count) as (rows & w' & E & F & L).
    exists rows, w'. split; [exact E|]. split; [exact L | exact F].
  - destruct (G Props.chat_several) as (rows & w' & E & F & L).
    exists rows, w'. split; [exact E|]. split; [exact L | exact F].
Qed.

(** ** The batch *)

Module BatchFacts.
Import PyStr PyDict Effects Parser Extractors Pipeline Props.
Import StrFacts DictFacts UserItemsFacts ExtractorFacts PipelineFacts.
Import StudyFacts StudyClaims.

Section WithCollaborators.
Variable chat : nat -> request -> option string.
Variable py_int : string -> option Z.
Variable user_items : list string.

Lemma rows_from_built (pdf_file paper_text : string)
    (meta_data : dict string) (w : log) (results : list string) :
  forall (i : Z) (n : nat),
    Forall (built_row chat user_items)
      (rows_from chat pdf_file paper_text meta_data
         (user_at chat paper_text user_items w) i n results).
Proof.
  induction results as [|t l IH]; intros i n; simpl; constructor;
    [|apply IH].
  unfold built_row. repeat eexists.
Qed.

(** A study with text never raises and adds at least one row. *)
Lemma process_study_total (pdf_file paper_text : string) (w : log) :
  exists rows w',
    process_study chat py_int pdf_file paper_text user_items w
      = (inr rows, w')
    /\ 1 <= length rows
    /\ Forall (built_row chat user_items) rows.
Proof.
  rewrite process_study_cases.
  destruct (split_main_results
              (raw_results (meta_at chat paper_text w))) as [|t l].
  - eexists. eexists. split; [reflexivity|]. split; [simpl; lia|].
    constructor; [|constructor]. unfold built_row. repeat eexists.
  - eexists. eexists. split; [reflexivity|]. split.
    + rewrite rows_from_length. simpl. lia.
    + apply rows_from_built.
Qed.

(** The loop over the files never raises, whatever the calls do. *)
Lemma process_files_total (files : list (string * string)) :
  forall w : log,
    exists rows w',
      process_files chat py_int files user_items w = (inr rows, w')
      /\ length (with_text files) <= length rows
      /\ Forall (built_row chat user_items) rows.
Proof.
  induction files as [|[pdf_file paper_text] files IH]; intros w.
  - exists [], w. repeat split; [simpl; lia | constructor].
  - cbn [process_files with_text filter snd].
    destruct (is_empty (strip paper_text)) eqn:E; cbn [negb].
    + apply IH.
    + destruct (process_study_total pdf_file paper_text w)
        as (rows & w1 & E1 & L1 & B1).
      destruct (IH w1) as (more & w2 & E2 & L2 & B2).
      exists (rows ++ more), w2. unfold bind. rewrite E1, E2.
      split; [reflexivity|]. split.
      * rewrite length_app. simpl. fold (with_text files). lia.
      * now apply Forall_app.
Qed.

Lemma built_row_base (r : row) :
  built_row chat user_items r -> has_base_columns r.
Proof.
  intros (pdf & paper & meta & i & t & dd & w & ->) k Hk.
  rewrite build_row_lookup.
  - simpl in Hk.
    repeat (destruct Hk as [<-|Hk]; [discriminate|]). now elim Hk.
  - apply extra_keys_not_base; [apply user_at_keys | exact Hk].
Qed.

(** When no user-items call fails, the keys of a row are field names. *)
Lemma built_row_keys (r : row) :
  user_items = []
  \/ (forall n p, chat n (UserItemsPrompt p user_items) <> None) ->
  built_row chat user_items r ->
  forall k, In k (keys r) -> In k (fieldnames user_items).
Proof.
  intros Hu (pdf & paper & meta & i & t & dd & w & ->) k Hk.
  apply build_row_keys in Hk as [Hk|Hk]; unfold fieldnames;
    apply in_or_app; [now left | right].
  unfold user_at in Hk. destruct Hu as [->|Hu]; [now simpl in Hk|].
  destruct user_items as [|x l] eqn:Ex; [now simpl in Hk|].
  specialize (Hu (S (length w)) paper).
  destruct (chat (S (length w)) (UserItemsPrompt paper (x :: l)))
    as [c|]; [|now elim Hu].
  rewrite user_data_success_keys in Hk by discriminate. exact Hk.
Qed.

End WithCollaborators.

Lemma mem_list_in (k : string) (l : list string) :
  In k l -> mem_list k l = true.
Proof.
  intros H. unfold mem_list. apply existsb_exists. exists k.
  split; [exact H | apply String.eqb_refl].
Qed.

Lemma writerow_ok (names : list string) (r : row) :
  (forall k, In k (keys r) -> In k names) ->
  exists line, writerow names r = inr line /\ length line = length names.
Proof.
  intros H. unfold writerow.
  replace (forallb (fun k => mem_list k names) (keys r)) with true.
  - eexists. split; [reflexivity | apply length_map].
  - symmetry. apply forallb_forall. intros k Hk. now apply mem_list_in, H.
Qed.

Lemma writerows_ok (names : list string) (rows : list row) :
  Forall (fun r => forall k, In k (keys r) -> In k names) rows ->
  exists lines,
    writerows names rows = inr lines
    /\ length lines = length rows
    /\ Forall (fun line => length line = length names) lines.
Proof.
  induction 1 as [|r rows Hr _ IH]; simpl.
  - exists []. repeat split. constructor.
  - destruct (writerow_ok names r Hr) as (line & -> & Ll).
    destruct IH as (lines & -> & L & F).
    exists (line :: lines). repeat split; [simpl; lia | now constructor].
Qed.

End BatchFacts.

(** C1 (amended).  For every study and every failure of an upstream
    text-generation call, the failing extractor returns a degraded
    record and no exception reaches its caller (the three extractors
    return a record in every case).  The degraded meta record has the
    keys of a successful one, "0" under num_main_results and "NA" under
    the others; the degraded detail record has the keys of a successful
    one and "NA" everywhere; the degraded user-items record has one
    "NA" per label.  The loop over the files goes on: every file with
    text contributes at least one row and every row has the seventeen
    base columns.  When there is no user label, or no user-items call
    fails, the table is written with one line per row, each with one
    cell per field name. *)
Theorem degraded_records_keep_batch_going
    (chat : nat -> Effects.request -> option string)
    (py_int : string -> option Z) (w : Effects.log) :
  (forall paper_text,
     (exists d w', Extractors.extract_meta_info chat paper_text w
                   = (inr d, w'))
     /\ (chat (length w) (Effects.MetaPrompt paper_text) = None ->
         Extractors.extract_meta_info chat paper_text w
           = (inr Extractors.meta_fallback,
              w ++ [Effects.ChatCall (Effects.MetaPrompt paper_text)])
         /\ (forall content,
               PyDict.keys Extractors.meta_fallback
               = PyDict.keys (Parser.parse_meta_extraction content))
         /\ PyDict.lookup "num_main_results" Extractors.meta_fallback
            = Some "0"
         /\ (forall k, In k Parser.meta_keys -> k <> "num_main_results" ->
                       PyDict.lookup k Extractors.meta_fallback
                       = Some "NA")))
  /\ (forall paper_text result_text,
        (exists d w', Extractors.extract_result_details chat paper_text
                        result_text w = (inr d, w'))
        /\ (chat (length w) (Effects.DetailPrompt paper_text result_text)
            = None ->
            Extractors.extract_result_details chat paper_text result_text w
              = (inr Extractors.detail_fallback,
                 w ++ [Effects.ChatCall
                         (Effects.DetailPrompt paper_text result_text)])
            /\ (forall content,
                  PyDict.keys Extractors.detail_fallback
                  = PyDict.keys (Parser.parse_detail_extraction content))
            /\ Props.all_NA Extractors.detail_fallback))
  /\ (forall paper_text user_items,
        (exists d w', Extractors.extract_user_items chat paper_text
                        user_items w = (inr d, w'))
        /\ (user_items <> [] ->
            chat (length w) (Effects.UserItemsPrompt paper_text user_items)
            = None ->
            exists d w',
              Extractors.extract_user_items chat paper_text user_items w
                = (inr d, w')
              /\ length d = length user_items
              /\ Props.all_NA d))
  /\ (forall files user_items,
        exists rows w',
          Pipeline.process_files chat py_int files user_items w
            = (inr rows, w')
          /\ length (Props.with_text files) <= length rows
          /\ Forall Props.has_base_columns rows)
  /\ (forall files user_items,
        user_items = []
        \/ (forall n p,
              chat n (Effects.UserItemsPrompt p user_items) <> None) ->
        exists lines w',
          Pipeline.run_three_pass_extraction chat py_int files user_items w
            = (inr (Pipeline.fieldnames user_items :: lines), w')
          /\ length (Props.with_text files) <= length lines
          /\ Forall (fun line =>
                       length line
                       = length (Pipeline.fieldnames user_items)) lines).
Proof.
  split.
  { intros paper. split.
    - eexists. eexists. apply ExtractorFacts.extract_meta_info_eq.
    - intros H. rewrite ExtractorFacts.extract_meta_info_eq, H.
      split; [reflexivity|]. split; [reflexivity|].
      split; [reflexivity|]. intros k Hk Hne. simpl in Hk.
      repeat (destruct Hk as [<-|Hk];
              [first [reflexivity | now elim Hne]|]).
      now elim Hk. }
  split.
  { intros paper t. split.
    - eexists. eexists. apply ExtractorFacts.extract_result_details_eq.
    - intros H. rewrite ExtractorFacts.extract_result_details_eq, H.
      split; [reflexivity|]. split; [reflexivity|].
      unfold Props.all_NA. simpl. repeat constructor. }
  split.
  { intros paper items. split.
    - destruct items as [|x l].
      + eexists. eexists. reflexivity.
      + eexists. eexists. apply ExtractorFacts.extract_user_items_eq.
    - intros Hne H. destruct items as [|x l]; [now elim Hne|].
      rewrite ExtractorFacts.extract_user_items_eq, H.
      eexists. eexists. split; [reflexivity|].
      unfold Props.user_data_of.
      rewrite ExtractorFacts.user_items_fallback_eq.
      split; [now rewrite length_map, length_seq|].
      unfold Props.all_NA, PyDict.values. rewrite map_map.
      apply Forall_forall. intros v Hv.
      now apply in_map_iff in Hv as [j [<- _]]. }
  split.
  { intros files items.
    destruct (BatchFacts.process_files_total chat py_int items files w)
      as (rows & w' & E & L & B).
    exists rows, w'. split; [exact E|]. split; [exact L|].
    eapply Forall_impl; [|exact B].
    intros r. apply BatchFacts.built_row_base. }
  intros files items Hu.
  destruct (BatchFacts.process_files_total chat py_int items files w)
    as (rows & w' & E & L & B).
  destruct (BatchFacts.writerows_ok (Pipeline.fieldnames items) rows)
    as (lines & Ew & Ll & Fl).
  { eapply Forall_impl; [|exact B].
    intros r. now apply BatchFacts.built_row_keys. }
  exists lines, w'. unfold Pipeline.run_three_pass_extraction, Effects.bind.
  rewrite E. unfold Effects.lift. rewrite Ew.
  split; [reflexivity|]. split; [lia | exact Fl].
Qed.

(** A batch of two files, one without text, with every call failing. *)
Lemma degraded_records_keep_batch_going_witness :
  Props.chat_down 0 (Effects.MetaPrompt "text") = None
  /\ Extractors.extract_meta_info Props.chat_down "text" []
     = (inr Extractors.meta_fallback,
        [Effects.ChatCall (Effects.MetaPrompt "text")])
  /\ exists lines w',
       Pipeline.run_three_pass_extraction Props.chat_down Props.sample_int
         [("a.pdf", "text"); ("b.pdf", " ")] [] []
       = (inr (Pipeline.fieldnames [] :: lines), w')
       /\ 1 <= length lines.
Proof.
  destruct (degraded_records_keep_batch_going Props.chat_down
              Props.sample_int []) as (M & _ & _ & _ & R).
  split; [reflexivity|]. split.
  - destruct (M "text") as [_ H]. destruct (H eq_refl) as [E _]. exact E.
  - destruct (R [("a.pdf", "text"); ("b.pdf", " ")] [] (or_introl eq_refl))
      as (lines & w' & E & L & _).
    exists lines, w'. split; [exact E | exact L].
Defined.

(** C1 as stated fails: the record returned when the meta call fails is
    not all "NA", it holds "0" under num_main_results. *)
Lemma meta_fallback_is_not_all_NA :
  fst (Extractors.extract_meta_info Props.chat_down "text" [])
    = inr Extractors.meta_fallback
  /\ PyDict.lookup "num_main_results" Extractors.meta_fallback = Some "0"
  /\ ~ Props.all_NA Extractors.meta_fallback.
Proof.
  split; [reflexivity|]. split; [reflexivity|].
  unfold Props.all_NA. simpl. intros H.
  do 6 (apply Forall_inv_tail in H). apply Forall_inv in H. discriminate H.
Qed.

(** The keys of the degraded user-items record start at extra_1, and the
    writer, whose field names start at extra_0, then refuses the row. *)
Remark user_items_fallback_breaks_writer :
  PyDict.keys (Extractors.user_items_fallback ["age"; "sex"])
    = ["extra_1"; "extra_2"]
  /\ fst (Pipeline.run_three_pass_extraction Props.chat_down
            Props.sample_int [("a.pdf", "text")] ["age"; "sex"] [])
     = inl Effects.ValueError.
Proof. split; reflexivity. Qed.

(** ** The ontology matcher *)

Module OntologyFacts.
Import PyStr PyDict Effects Ontology Props.

Section WithCollaborators.
Variable embed : nat -> pyval -> option vector.
Variable np_dot : vector -> vector -> float.
Variable np_norm : vector -> float.

(** Against an empty query vector every similarity is 0.0. *)
Lemma similarities_empty (onto_df : onto_frame) :
  similarities np_dot np_norm [] onto_df
  = inr (repeat 0%float (length onto_df)).
Proof.
  induction onto_df as [|[term emb] rest IH]; simpl; [reflexivity|].
  now rewrite IH.
Qed.

Lemma argmax_scan_zeros (n : nat) :
  forall i, argmax_scan 0%float 0 i (repeat 0%float n) = 0.
Proof. induction n as [|n IH]; intros i; simpl; [reflexivity | apply IH]. Qed.

Lemma compute_embedding_failed (text : string) (w : log) :
  embed (length w) (VStr text) = None ->
  compute_embedding embed (VStr text) w = (inr [], w ++ [EmbedCall (VStr text)]).
Proof. intros H. unfold compute_embedding. now rewrite H. Qed.

(** A failed embedding of the query selects the first term. *)
Lemma find_best_match_failed (text : string) (term : pyval) (emb : vector)
    (rest : onto_frame) (w : log) :
  embed (length w) (VStr text) = None ->
  find_best_match_in_ontology embed np_dot np_norm text ((term, emb) :: rest) w
  = (inr term, w ++ [EmbedCall (VStr text)]).
Proof.
  intros H. unfold find_best_match_in_ontology, bind.
  rewrite (compute_embedding_failed text w H).
  unfold lift. rewrite similarities_empty. simpl.
  now rewrite argmax_scan_zeros.
Qed.

Lemma map_row_unmatched (intervention_onto_df outcome_onto_df : onto_frame)
    (r : text_row) (w : log) :
  wants_match (get r intervention_col "NA") = false ->
  wants_match (get r outcome_col "NA") = false ->
  map_row embed np_dot np_norm intervention_onto_df outcome_onto_df r w
  = (inr (VStr "NA", VStr "NA"), w).
Proof. intros H4 H7. unfold map_row, bind, ret. now rewrite H4, H7. Qed.

Lemma map_rows_unmatched (intervention_onto_df outcome_onto_df : onto_frame)
    (rows : list text_row) (w : log) :
  Forall (fun r => lookup intervention_col r = None
                   /\ lookup outcome_col r = None) rows ->
  map_rows embed np_dot np_norm intervention_onto_df outcome_onto_df rows w
  = (inr (map (fun _ => (VStr "NA", VStr "NA")) rows), w).
Proof.
  induction 1 as [|r rows [H4 H7] _ IH]; simpl; [reflexivity|].
  unfold bind at 1. rewrite map_row_unmatched.
  - unfold bind at 1. now rewrite IH.
  - unfold get. now rewrite H4.
  - unfold get. now rewrite H7.
Qed.

Lemma embed_terms_texts (terms : list string) :
  forall w, exists embs w',
    embed_terms embed (map VStr terms) w = (inr embs, w')
    /\ length embs = length terms.
Proof.
  induction terms as [|t terms IH]; intros w; simpl.
  - now exists [], w.
  - unfold bind at 1, compute_embedding.
    destruct (embed (length w) (VStr t)) as [e|]; simpl;
      destruct (IH (w ++ [EmbedCall (VStr t)])) as (embs & w' & E & L);
      unfold bind; rewrite E; eexists; eexists;
      (split; [reflexivity | simpl; now rewrite L]).
Qed.

(** An ontology of texts is embedded without an exception, whatever the
    embedding calls do. *)
Lemma create_ontology_embeddings_texts (terms : list string) (w : log) :
  exists onto_df w',
    create_ontology_embeddings embed (map VStr terms) w = (inr onto_df, w')
    /\ length onto_df = length terms.
Proof.
  destruct terms as [|t terms]; [now exists [], w|].
  unfold create_ontology_embeddings. cbn [map].
  destruct (embed_terms_texts (t :: terms) w) as (embs & w' & E & L).
  cbn [map] in E. unfold bind. rewrite E.
  eexists. eexists. split; [reflexivity|].
  rewrite length_combine. cbn [length] in *. rewrite length_map. lia.
Qed.

End WithCollaborators.

Lemma lookup_absent {V} (k : string) (d : dict V) :
  ~ In k (keys d) -> lookup k d = None.
Proof.
  induction d as [|[k' v] d IH]; simpl; intros H; [reflexivity|].
  destruct (String.eqb k k') eqn:E.
  - apply String.eqb_eq in E. elim H. now left.
  - apply IH. intros Hin. apply H. now right.
Qed.

Lemma as_text_row_keys (r : Pipeline.row) : keys (as_text_row r) = keys r.
Proof. unfold as_text_row, keys. rewrite map_map. reflexivity. Qed.

(** No row of the extraction table has a column named "4" or "7". *)
Lemma built_row_no_digit_column
    (chat : nat -> request -> option string) (user_items : list string)
    (r : Pipeline.row) :
  built_row chat user_items r ->
  lookup intervention_col (as_text_row r) = None
  /\ lookup outcome_col (as_text_row r) = None.
Proof.
  intros (pdf & paper & meta & i & t & dd & w & ->).
  split; apply lookup_absent; rewrite as_text_row_keys; intros H;
    apply PipelineFacts.build_row_keys in H as [H|H].
  - simpl in H. repeat (destruct H as [H|H]; [discriminate H|]). exact H.
  - apply StudyFacts.user_at_keys in H as [j H].
    unfold Parser.extra_key in H. discriminate H.
  - simpl in H. repeat (destruct H as [H|H]; [discriminate H|]). exact H.
  - apply StudyFacts.user_at_keys in H as [j H].
    unfold Parser.extra_key in H. discriminate H.
Qed.

(** Whatever the ontologies, every row that the extraction writes is
    mapped to "NA" twice and no text of it is ever embedded. *)
Lemma extraction_rows_map_to_NA
    (chat : nat -> request -> option string) (user_items : list string)
    (embed : nat -> pyval -> option vector)
    (np_dot : vector -> vector -> float) (np_norm : vector -> float)
    (intervention_onto_df outcome_onto_df : onto_frame)
    (rows : list Pipeline.row) (w : log) :
  Forall (built_row chat user_items) rows ->
  map_rows embed np_dot np_norm intervention_onto_df outcome_onto_df
    (map as_text_row rows) w
  = (inr (map (fun _ => (VStr "NA", VStr "NA")) (map as_text_row rows)), w).
Proof.
  intros H. apply map_rows_unmatched. apply Forall_map.
  eapply Forall_impl; [|exact H].
  intros r. apply built_row_no_digit_column.
Qed.

End OntologyFacts.

(** C3 (amended).  For every free-text value looked up against a
    non-empty ontology term set, if the embedding call for that value
    fails, the lookup does not raise and returns the first term of the
    set (every similarity is 0.0 and the first greatest one wins), after
    that one call; the rows that follow are then mapped exactly as they
    are from that point on their own. *)
Theorem failed_embedding_selects_first_term
    (embed : nat -> Effects.pyval -> option Ontology.vector)
    (np_dot : Ontology.vector -> Ontology.vector -> float)
    (np_norm : Ontology.vector -> float)
    (text : string) (term : Effects.pyval) (emb : Ontology.vector)
    (rest : Ontology.onto_frame) (w : Effects.log) :
  embed (length w) (Effects.VStr text) = None ->
  Ontology.find_best_match_in_ontology embed np_dot np_norm text
    ((term, emb) :: rest) w
  = (inr term, w ++ [Effects.EmbedCall (Effects.VStr text)])
  /\ forall (outcome_onto_df : Ontology.onto_frame)
            (r : Ontology.text_row) (rows : list Ontology.text_row),
       PyDict.lookup Ontology.intervention_col r = Some text ->
       Ontology.wants_match text = true ->
       Ontology.wants_match (PyDict.get r Ontology.outcome_col "NA")
       = false ->
       Ontology.map_rows embed np_dot np_norm ((term, emb) :: rest)
         outcome_onto_df (r :: rows) w
       = match Ontology.map_rows embed np_dot np_norm ((term, emb) :: rest)
                 outcome_onto_df rows
                 (w ++ [Effects.EmbedCall (Effects.VStr text)]) with
         | (inr ps, w') => (inr ((term, Effects.VStr "NA") :: ps), w')
         | (inl e, w') => (inl e, w')
         end.
Proof.
  intros H. split; [now apply OntologyFacts.find_best_match_failed|].
  intros O r rows H4 Hw H7.
  cbn [Ontology.map_rows]. unfold Effects.bind at 1.
  assert (G : PyDict.get r Ontology.intervention_col "NA" = text)
    by (unfold PyDict.get; now rewrite H4).
  unfold Ontology.map_row. rewrite G, Hw, H7.
  cbv beta iota. unfold Effects.bind at 1. unfold Effects.bind at 1.
  rewrite (OntologyFacts.find_best_match_failed embed np_dot np_norm
             text term emb rest w H).
  unfold Effects.bind, Effects.ret.
  destruct (Ontology.map_rows embed np_dot np_norm ((term, emb) :: rest) O
              rows (w ++ [Effects.EmbedCall (Effects.VStr text)]))
    as [[e|ps] w']; reflexivity.
Qed.

(** A lookup among two terms with a failing embedding call. *)
Lemma failed_embedding_selects_first_term_witness :
  Props.embed_down 0 (Effects.VStr "school meals") = None
  /\ Ontology.find_best_match_in_ontology Props.embed_down Props.sample_dot
       Props.sample_norm "school meals" Props.two_terms []
     = (inr (Effects.VStr "alpha"),
        [Effects.EmbedCall (Effects.VStr "school meals")]).
Proof.
  split; [reflexivity|].
  apply (failed_embedding_selects_first_term Props.embed_down
           Props.sample_dot Props.sample_norm "school meals"
           (Effects.VStr "alpha") [1%float; 0%float]
           [(Effects.VStr "beta", [0%float; 1%float])] []).
  reflexivity.
Defined.

(** C3 as stated fails: with the terms alpha and beta and a failing
    embedding call, the lookup returns alpha, not "NA". *)
Lemma failed_embedding_is_not_NA :
  fst (Ontology.find_best_match_in_ontology Props.embed_down
         Props.sample_dot Props.sample_norm "school meals"
         Props.two_terms [])
    = inr (Effects.VStr "alpha")
  /\ Effects.VStr "alpha" <> Effects.VStr "NA".
Proof. split; [reflexivity | discriminate]. Qed.

(** C4 (what the code does).  The row of the extraction table holds
    "Parenting education" and "Child mental health" under
    intervention_or_predictor_variable and outcome_variable, and the two
    ontologies hold exactly these terms; yet, whatever the embedding
    calls and the numeric kernels do, the mapped table has "NA" in both
    new columns: the texts are read from columns named "4" and "7",
    which the extraction table does not have. *)
Theorem mapped_columns_ignore_extracted_text
    (embed : nat -> Effects.pyval -> option Ontology.vector)
    (np_dot : Ontology.vector -> Ontology.vector -> float)
    (np_norm : Ontology.vector -> float) (w : Effects.log) :
  PyDict.lookup "intervention_or_predictor_variable" Props.extracted_row
    = Some "Parenting education"
  /\ PyDict.lookup "outcome_variable" Props.extracted_row
     = Some "Child mental health"
  /\ exists w',
       Ontology.map_interventions_and_outcomes embed np_dot np_norm
         [Props.extracted_row]
         (Props.json_file
            (inr (Effects.VList [Effects.VStr "Parenting education"])))
         (Props.json_file
            (inr (Effects.VList [Effects.VStr "Child mental health"])))
         w
       = (inr [(Props.extracted_row,
                (Effects.VStr "NA", Effects.VStr "NA"))], w').
Proof.
  split; [reflexivity|]. split; [reflexivity|].
  unfold Ontology.map_interventions_and_outcomes.
  unfold Effects.bind at 1. unfold Effects.lift at 1.
  cbn [Ontology.load_ontology Props.json_file Ontology.ext
       Ontology.json_load String.eqb Ascii.eqb Bool.eqb
       Ontology.terms_of_json Ontology.is_term_record forallb
       Ontology.is_str andb].
  unfold Effects.bind at 1. unfold Effects.lift at 1.
  destruct (OntologyFacts.create_ontology_embeddings_texts embed
              ["Parenting education"] w) as (I & w1 & E1 & _).
  destruct (OntologyFacts.create_ontology_embeddings_texts embed
              ["Child mental health"] w1) as (O & w2 & E2 & _).
  cbn [map] in E1, E2.
  unfold Effects.bind at 1. rewrite E1.
  unfold Effects.bind at 1. rewrite E2.
  unfold Effects.bind at 1.
  rewrite OntologyFacts.map_rows_unmatched
    by (constructor; [split; reflexivity | constructor]).
  exists w2. reflexivity.
Qed.

(** ** Loading an ontology *)

Module LoadFacts.
Import PyStr PyDict Effects Ontology Props.

Lemma forallb_is_str (texts : list string) :
  forallb is_str (map VStr texts) = true.
Proof. induction texts; simpl; auto. Qed.

Lemma terms_of_records_all (ds : list (list (string * pyval))) :
  Forall (fun d => mem "term" d = true) ds ->
  terms_of_records (map VDict ds)
  = inr (map (fun d => get d "term" VNone) ds).
Proof.
  induction 1 as [|d ds Hd _ IH]; simpl; [reflexivity|].
  rewrite Hd. unfold get. unfold mem in Hd.
  destruct (lookup "term" d) as [t|]; [|discriminate Hd].
  now rewrite IH.
Qed.

(** An item on which the test raises makes the comprehension raise. *)
Lemma terms_of_records_not_container (data : list pyval) (item : pyval) :
  In item data -> is_container item = false ->
  terms_of_records data = inl TypeError.
Proof.
  induction data as [|first data IH]; intros I C; [elim I|].
  assert (R : terms_of_records data = inl TypeError ->
              terms_of_records (first :: data) = inl TypeError).
  { intros R. cbn [terms_of_records]. rewrite R.
    destruct (term_in first) as [e|[|]] eqn:T; [| |reflexivity].
    - destruct first; try discriminate T; injection T as <-; reflexivity.
    - destruct (term_of first) as [e|t] eqn:O; [|reflexivity].
      destruct first as [| | | | | |d]; try (injection O as <-; reflexivity).
      cbn [term_in term_of] in T, O. unfold mem in T.
      destruct (lookup "term" d); [discriminate O | discriminate T]. }
  destruct I as [<-|I]; [|now apply R, IH].
  cbn [terms_of_records].
  destruct first; try discriminate C; reflexivity.
Qed.

Lemma terms_of_json_unsupported (data : pyval) :
  unsupported_json data = true -> terms_of_json data = inr [].
Proof.
  destruct data as [| | | | |[|first rest]|]; try reflexivity.
  unfold unsupported_json, terms_of_json. intros H.
  apply andb_true_iff in H as [H1 H2].
  apply negb_true_iff in H1, H2. now rewrite H1, H2.
Qed.

End LoadFacts.

(** C9 (amended).  Loading accepts a flat list of texts and returns it,
    and accepts a list of records each exposing a "term" field and
    returns their terms.  A file with an unsupported extension, and json
    data that is neither a list headed by a record with a "term" field
    nor a non-empty list of texts, yield an empty term set, with which
    the matcher returns "NA" for every query without any embedding
    call.  An exception of the json reader reaches the caller, and a
    list headed by a record with a "term" field that holds, anywhere
    after it, an item that is not a container ([None], a boolean or a
    number) raises TypeError. *)
Theorem load_ontology_shapes :
  (forall (text : string) (texts : list string),
     Ontology.load_ontology
       (Props.json_file
          (inr (Effects.VList (map Effects.VStr (text :: texts)))))
     = inr (map Effects.VStr (text :: texts)))
  /\ (forall (d : list (string * Effects.pyval))
             (ds : list (list (string * Effects.pyval))),
        Forall (fun d => PyDict.mem "term" d = true) (d :: ds) ->
        Ontology.load_ontology
          (Props.json_file
             (inr (Effects.VList (map Effects.VDict (d :: ds)))))
        = inr (map (fun d => PyDict.get d "term" Effects.VNone) (d :: ds)))
  /\ (forall f : Ontology.ontology_file,
        Ontology.ext f <> ".csv" -> Ontology.ext f <> ".json" ->
        Ontology.load_ontology f = inr [])
  /\ (forall data : Effects.pyval,
        Props.unsupported_json data = true ->
        Ontology.load_ontology (Props.json_file (inr data)) = inr [])
  /\ (forall e : Effects.exn,
        Ontology.load_ontology (Props.json_file (inl e)) = inl e)
  /\ (forall (d : list (string * Effects.pyval))
             (rest : list Effects.pyval) (item : Effects.pyval),
        PyDict.mem "term" d = true ->
        In item rest -> Props.is_container item = false ->
        Ontology.load_ontology
          (Props.json_file (inr (Effects.VList (Effects.VDict d :: rest))))
        = inl Effects.TypeError)
  /\ (forall (embed : nat -> Effects.pyval -> option Ontology.vector)
             (np_dot : Ontology.vector -> Ontology.vector -> float)
             (np_norm : Ontology.vector -> float)
             (text : string) (w : Effects.log),
        Ontology.create_ontology_embeddings embed [] w = (inr [], w)
        /\ Ontology.find_best_match_in_ontology embed np_dot np_norm text
             [] w
           = (inr (Effects.VStr "NA"), w)).
Proof.
  split.
  { intros text texts. unfold Ontology.load_ontology, Props.json_file.
    cbn [Ontology.ext Ontology.json_load]. simpl String.eqb. cbv iota.
    cbn [map Ontology.terms_of_json Ontology.is_term_record].
    change (Effects.VStr text :: map Effects.VStr texts)
      with (map Effects.VStr (text :: texts)).
    now rewrite LoadFacts.forallb_is_str. }
  split.
  { intros d ds H. unfold Ontology.load_ontology, Props.json_file.
    cbn [Ontology.ext Ontology.json_load]. simpl String.eqb. cbv iota.
    cbn [map Ontology.terms_of_json Ontology.is_term_record].
    rewrite (Forall_inv H).
    change (Effects.VDict d :: map Effects.VDict ds)
      with (map Effects.VDict (d :: ds)).
    now apply LoadFacts.terms_of_records_all. }
  split.
  { intros f Hc Hj. unfold Ontology.load_ontology.
    apply String.eqb_neq in Hc, Hj. now rewrite Hc, Hj. }
  split.
  { intros data H. unfold Ontology.load_ontology, Props.json_file.
    cbn [Ontology.ext Ontology.json_load]. simpl String.eqb. cbv iota.
    now apply LoadFacts.terms_of_json_unsupported. }
  split; [reflexivity|].
  split.
  { intros d rest item H I C. unfold Ontology.load_ontology, Props.json_file.
    cbn [Ontology.ext Ontology.json_load]. simpl String.eqb. cbv iota.
    cbn [Ontology.terms_of_json Ontology.is_term_record].
    rewrite H.
    apply LoadFacts.terms_of_records_not_container with (item := item);
      [now right | exact C]. }
  intros. split; reflexivity.
Qed.

(** A list of one record, an object without a list, a text file, and
    two records followed by a missing value. *)
Lemma load_ontology_shapes_witness :
  PyDict.mem "term" [("term", Effects.VStr "diet"); ("id", Effects.VInt 1)]
    = true
  /\ Ontology.load_ontology
       (Props.json_file
          (inr (Effects.VList
                  [Effects.VDict [("term", Effects.VStr "diet");
                                  ("id", Effects.VInt 1)]])))
     = inr [Effects.VStr "diet"]
  /\ Props.unsupported_json (Effects.VDict [("terms", Effects.VList [])])
     = true
  /\ Ontology.load_ontology
       (Props.json_file (inr (Effects.VDict [("terms", Effects.VList [])])))
     = inr []
  /\ Ontology.load_ontology (Props.other_file ".txt") = inr []
  /\ In Effects.VNone
        [Effects.VDict [("term", Effects.VStr "sleep")]; Effects.VNone]
  /\ Props.is_container Effects.VNone = false
  /\ Ontology.load_ontology
       (Props.json_file
          (inr (Effects.VList
                  [Effects.VDict [("term", Effects.VStr "diet")];
                   Effects.VDict [("term", Effects.VStr "sleep")];
                   Effects.VNone])))
     = inl Effects.TypeError.
Proof.
  destruct load_ontology_shapes as (_ & R & X & U & _ & T & _).
  split; [reflexivity|]. split.
  - apply (R [("term", Effects.VStr "diet"); ("id", Effects.VInt 1)] []).
    constructor; [reflexivity | constructor].
  - split; [reflexivity|]. split; [apply U; reflexivity|].
    split; [apply X; discriminate|].
    assert (I : In Effects.VNone
                  [Effects.VDict [("term", Effects.VStr "sleep")];
                   Effects.VNone])
      by (right; left; reflexivity).
    split; [exact I|]. split; [reflexivity|].
    apply (T [("term", Effects.VStr "diet")] _ Effects.VNone);
      [reflexivity | exact I | reflexivity].
Defined.

(** C9 as stated fails: a json list headed by a record with a "term"
    field and followed by a number makes the loading raise, and so does
    a json file that the reader rejects. *)
Lemma load_ontology_can_raise :
  Ontology.load_ontology
    (Props.json_file
       (inr (Effects.VList [Effects.VDict [("term", Effects.VStr "diet")];
                            Effects.VInt 5])))
    = inl Effects.TypeError
  /\ Ontology.load_ontology (Props.json_file (inl Effects.ValueError))
     = inl Effects.ValueError.
Proof. split; reflexivity. Qed.

(** ** Reading back an answer in the requested format *)

Module RoundTripFacts.
Import PyStr PyDict Parser Regex Props Shapes StrFacts ParserFacts RegexFacts.

Lemma length_rstrip (s : string) :
  String.length (rstrip s) <= String.length s.
Proof.
  induction s as [|c s IH]; simpl; [lia|].
  destruct (is_space c && is_empty (rstrip s))%bool; simpl; lia.
Qed.

Lemma length_lstrip (s : string) :
  String.length (lstrip s) <= String.length s.
Proof.
  induction s as [|c s IH]; simpl; [lia|].
  destruct (is_space c); simpl; lia.
Qed.

Lemma lstrip_same_length (s : string) :
  String.length s <= String.length (lstrip s) -> lstrip s = s.
Proof.
  destruct s as [|c s]; simpl; [reflexivity|].
  destruct (is_space c); [|reflexivity].
  pose proof (length_lstrip s). lia.
Qed.

(** A text that [strip] leaves alone is left alone on both sides. *)
Lemma strip_fixed (v : string) :
  strip v = v -> lstrip v = v /\ rstrip v = v.
Proof.
  unfold strip. intros H.
  assert (L : lstrip v = v).
  { apply lstrip_same_length. rewrite <- H at 1. apply length_rstrip. }
  split; [exact L | now rewrite L in H].
Qed.

Lemma append_assoc_string (a b c : string) :
  ((a ++ b) ++ c = a ++ (b ++ c))%string.
Proof. induction a as [|x a IH]; simpl; [reflexivity | now rewrite IH]. Qed.

Lemma rstrip_app_nl (x : string) : rstrip (x ++ nl) = rstrip x.
Proof.
  induction x as [|c x IH]; [reflexivity|].
  cbn [append rstrip]. now rewrite IH.
Qed.

Lemma rstrip_app_fixed (a b : string) :
  b <> "" -> rstrip b = b -> rstrip (a ++ b) = (a ++ b)%string.
Proof.
  intros Hne Hb. induction a as [|c a IH]; [exact Hb|].
  cbn [append rstrip]. rewrite IH.
  destruct (a ++ b)%string eqn:E.
  - destruct a; [now elim Hne | discriminate E].
  - cbn [is_empty]. now rewrite andb_false_r.
Qed.

Lemma plain_head (v : string) :
  v <> "" -> lstrip v = v ->
  exists c v', v = String c v' /\ is_space c = false.
Proof.
  destruct v as [|c v']; [intros H; now elim H|]. intros _ H.
  exists c, v'. split; [reflexivity|].
  simpl in H. destruct (is_space c) eqn:E; [|reflexivity].
  pose proof (length_lstrip v') as L. rewrite H in L. simpl in L. lia.
Qed.

(** The value between the blank after a label and the line break. *)
Lemma strip_line (v : string) :
  v <> "" -> strip v = v -> strip (" " ++ v ++ nl) = v.
Proof.
  intros Hne H. destruct (strip_fixed v H) as [L R].
  destruct (plain_head v Hne L) as (c & v' & -> & Hc).
  unfold strip. cbn [append lstrip]. 
  change (is_space " ") with true. cbv iota. rewrite Hc.
  change (String c (v' ++ nl)) with (String c v' ++ nl)%string.
  now rewrite rstrip_app_nl.
Qed.

Lemma strip_last (v : string) :
  v <> "" -> strip v = v -> strip (" " ++ v) = v.
Proof.
  intros Hne H. destruct (strip_fixed v H) as [L R].
  destruct (plain_head v Hne L) as (c & v' & -> & Hc).
  unfold strip. cbn [append lstrip].
  change (is_space " ") with true. cbv iota. now rewrite Hc.
Qed.

End RoundTripFacts.

Module ScanFacts.
Import PyStr PyDict Parser Regex Props Shapes StrFacts ParserFacts RegexFacts.
Import RoundTripFacts.

Lemma digit_not_newline (c : ascii) :
  is_digit c = true -> c <> newline.
Proof. intros H E. subst c. discriminate H. Qed.

Lemma digit_not_colon (c : ascii) :
  is_digit c = true -> c <> colon.
Proof. intros H E. subst c. discriminate H. Qed.

Lemma last_char_or_cons (p : option ascii) (c : ascii) (x : string) :
  x <> "" -> last_char_or p (String c x) = last_char x.
Proof. destruct x; [intros H; now elim H | reflexivity]. Qed.

(** No text of digits and a colon starts inside a piece that has no
    digit before a colon and ends with a line break. *)
Lemma no_label_in_piece (ds : string) :
  forall x rest,
    all_digits ds = true -> ds <> "" ->
    x <> "" -> has_digit_colon x = false -> last_char x = Some newline ->
    String.prefix (ds ++ ":") (x ++ rest) = false.
Proof.
  induction ds as [|a ds IH]; intros x rest Hd Hne Hx Hc Hl;
    [now elim Hne|].
  destruct x as [|c x]; [now elim Hx|].
  simpl in Hd. apply andb_true_iff in Hd as [Ha Hds].
  destruct (String.prefix (String a ds ++ ":") (String c x ++ rest)) eqn:P;
    [|reflexivity].
  exfalso. cbn [append] in P. apply prefix_cons in P as [<- P].
  destruct x as [|d x].
  - unfold last_char in Hl. simpl in Hl. injection Hl as ->.
    discriminate Ha.
  - destruct ds as [|a' ds].
    + cbn [append] in P. apply prefix_cons in P as [<- _].
      cbn [has_digit_colon] in Hc. rewrite Ha in Hc.
      unfold colon in Hc. simpl in Hc. discriminate Hc.
    + assert (F : String.prefix (String a' ds ++ ":")
                                (String d x ++ rest) = false).
      { apply IH;
          [exact Hds | discriminate | discriminate
          | now apply has_digit_colon_tail in Hc
          | rewrite <- Hl; symmetry; now apply last_char_or_cons]. }
      congruence.
Qed.

Lemma label_digits (i : nat) :
  all_digits (dec i) = true /\ dec i <> "".
Proof. split; [apply dec_digits | apply dec_nonempty]. Qed.

Lemma no_label_here_in_piece (i : nat) (prev : option ascii)
    (x rest : string) :
  x <> "" -> has_digit_colon x = false -> last_char x = Some newline ->
  label_here i prev (x ++ rest) = false.
Proof.
  intros Hx Hc Hl. unfold label_here, label.
  destruct (label_digits i) as [D N].
  rewrite (no_label_in_piece (dec i) x rest D N Hx Hc Hl).
  apply andb_false_r.
Qed.

Lemma after_label_unfold (i : nat) (prev : option ascii) (s : string) :
  after_label i prev s
  = if label_here i prev s then Some (skip (String.length (label i)) s)
    else match s with
         | EmptyString => None
         | String c s' => after_label i (Some c) s'
         end.
Proof. destruct s; reflexivity. Qed.

(** The search for a label runs through such a piece. *)
Lemma after_label_piece (i : nat) (x : string) :
  forall prev rest,
    x <> "" -> has_digit_colon x = false -> last_char x = Some newline ->
    after_label i prev (x ++ rest) = after_label i (Some newline) rest.
Proof.
  induction x as [|c x IH]; intros prev rest Hx Hc Hl; [now elim Hx|].
  cbn [append]. 
  change (String c (x ++ rest)) with (String c x ++ rest)%string.
  rewrite (after_label_unfold i prev (String c x ++ rest)).
  rewrite no_label_here_in_piece by assumption.
  cbn [append]. destruct x as [|d x].
  - unfold last_char in Hl. simpl in Hl. now injection Hl as ->.
  - apply IH; [discriminate | now apply has_digit_colon_tail in Hc|].
    rewrite <- Hl. symmetry. now apply last_char_or_cons.
Qed.

End ScanFacts.

Module LabelFacts.
Import PyStr PyDict Parser Regex Props Shapes StrFacts ParserFacts RegexFacts.
Import RoundTripFacts ScanFacts.

Lemma digits_prefix_eq (ds1 : string) :
  forall ds2 rest,
    all_digits ds1 = true -> all_digits ds2 = true ->
    String.prefix (ds1 ++ ":") (ds2 ++ ":" ++ rest) = true -> ds1 = ds2.
Proof.
  induction ds1 as [|a ds1 IH]; intros [|b ds2] rest D1 D2 P.
  - reflexivity.
  - cbn [append] in P. apply prefix_cons in P as [<- _].
    simpl in D2. discriminate D2.
  - cbn [append] in P. apply prefix_cons in P as [-> _].
    simpl in D1. discriminate D1.
  - cbn [append] in P. apply prefix_cons in P as [<- P].
    simpl in D1, D2. apply andb_true_iff in D1 as [_ D1].
    apply andb_true_iff in D2 as [_ D2].
    f_equal. now apply (IH ds2 rest).
Qed.

Lemma other_label_no_prefix (i j : nat) (rest : string) :
  i <> j -> String.prefix (label i) (label j ++ rest) = false.
Proof.
  intros Hne. destruct (String.prefix (label i) (label j ++ rest)) eqn:P;
    [|reflexivity].
  exfalso. apply Hne, dec_inj. unfold label in P.
  rewrite append_assoc_string in P.
  apply (digits_prefix_eq (dec i) (dec j) rest);
    [apply dec_digits | apply dec_digits | exact P].
Qed.

(** The search runs through the digits and the colon of a label that it
    does not match at its start. *)
Lemma after_label_digits (i : nat) (ds : string) :
  forall prev rest,
    all_digits ds = true ->
    is_word_opt prev = true
    \/ String.prefix (label i) (ds ++ ":" ++ rest) = false ->
    after_label i prev (ds ++ ":" ++ rest)
    = after_label i (Some colon) rest.
Proof.
  induction ds as [|a ds IH]; intros prev rest D H.
  - change ("" ++ ":" ++ rest)%string with (String ":" rest).
    rewrite after_label_unfold.
    replace (label_here i prev (String ":" rest)) with false; [reflexivity|].
    symmetry. unfold label_here, label.
    destruct (label_digits i) as [Di Ni].
    destruct (dec i) as [|c s]; [now elim Ni|].
    cbn [append]. simpl in Di. apply andb_true_iff in Di as [Dc _].
    replace (String.prefix (String c (s ++ ":")) (String ":" rest))
      with false; [apply andb_false_r|].
    symmetry. destruct (String.prefix (String c (s ++ ":")) (String ":" rest))
      eqn:P; [|reflexivity].
    apply prefix_cons in P as [-> _]. discriminate Dc.
  - simpl in D. apply andb_true_iff in D as [Da D].
    change (String a ds ++ ":" ++ rest)%string
      with (String a (ds ++ ":" ++ rest)) in *.
    rewrite after_label_unfold.
    replace (label_here i prev (String a (ds ++ ":" ++ rest))) with false.
    + apply IH; [exact D | left; simpl; now apply digit_is_word].
    + symmetry. unfold label_here. destruct H as [H|H].
      * unfold word_boundary. rewrite H. cbn [head is_word_opt].
        now rewrite (digit_is_word a Da).
      * rewrite H. apply andb_false_r.
Qed.

Lemma after_other_label (i j : nat) (prev : option ascii) (rest : string) :
  i <> j ->
  after_label i prev (label j ++ rest) = after_label i (Some colon) rest.
Proof.
  intros Hne. unfold label at 1. rewrite append_assoc_string.
  apply after_label_digits; [apply dec_digits|].
  right. rewrite <- append_assoc_string. now apply other_label_no_prefix.
Qed.

Lemma prefix_app (a rest : string) : String.prefix a (a ++ rest) = true.
Proof.
  induction a as [|c a IH]; [now destruct rest|].
  cbn [append]. simpl. now destruct (ascii_dec c c).
Qed.

Lemma skip_app (a rest : string) : skip (String.length a) (a ++ rest) = rest.
Proof. induction a as [|c a IH]; [reflexivity | exact IH]. Qed.

Lemma label_here_at (i : nat) (prev : option ascii) (rest : string) :
  is_word_opt prev = false -> label_here i prev (label i ++ rest) = true.
Proof.
  intros H. unfold label_here. rewrite prefix_app, andb_true_r.
  unfold word_boundary. rewrite H.
  pose proof (label_head_word i) as W.
  pose proof (label_nonempty i) as N.
  destruct (label i) as [|c s]; [now elim N|]. exact W.
Qed.

Lemma after_own_label (i : nat) (prev : option ascii) (rest : string) :
  is_word_opt prev = false ->
  after_label i prev (label i ++ rest) = Some rest.
Proof.
  intros H. rewrite after_label_unfold, label_here_at by exact H.
  now rewrite skip_app.
Qed.

End LabelFacts.

Module AnswerFacts.
Import PyStr PyDict Parser Regex Props Shapes StrFacts ParserFacts RegexFacts.
Import RoundTripFacts ScanFacts LabelFacts.

Lemma append_nil_r (a : string) : (a ++ "")%string = a.
Proof. induction a as [|c a IH]; simpl; [reflexivity | now rewrite IH]. Qed.

Lemma lazy_span_unfold (j : nat) (prev : option ascii) (s : string) :
  lazy_span j prev s
  = if lookahead_here j prev s then EmptyString
    else match s with
         | EmptyString => EmptyString
         | String c s' => String c (lazy_span j (Some c) s')
         end.
Proof. destruct s; reflexivity. Qed.

Lemma dollar_not_here (c : ascii) (x more : string) :
  more <> "" -> dollar_here (String c x ++ more) = false.
Proof.
  intros H. cbn [append dollar_here].
  destruct (x ++ more)%string eqn:E; [|reflexivity].
  destruct x; [now elim H | discriminate E].
Qed.

(** The lazy span stops exactly at the label that follows a piece. *)
Lemma lazy_span_piece (j : nat) (x : string) :
  forall prev more,
    x <> "" -> has_digit_colon x = false -> last_char x = Some newline ->
    more <> "" -> label_here j (Some newline) more = true ->
    lazy_span j prev (x ++ more) = x.
Proof.
  induction x as [|c x IH]; intros prev more Hx Hc Hl Hm Hj;
    [now elim Hx|].
  rewrite lazy_span_unfold. unfold lookahead_here.
  rewrite no_label_here_in_piece by assumption.
  rewrite dollar_not_here by assumption.
  cbn [orb append]. f_equal. destruct x as [|d x].
  - unfold last_char in Hl. simpl in Hl. injection Hl as ->.
    cbn [append]. rewrite lazy_span_unfold. unfold lookahead_here.
    now rewrite Hj.
  - apply IH; [discriminate | now apply has_digit_colon_tail in Hc
              | | exact Hm | exact Hj].
    rewrite <- Hl. symmetry. now apply last_char_or_cons.
Qed.

Lemma has_digit_colon_app_nl (v : string) :
  has_digit_colon v = false -> has_digit_colon (v ++ nl) = false.
Proof.
  induction v as [|c v IH]; intros H; [reflexivity|].
  cbn [append has_digit_colon] in *.
  apply orb_false_iff in H as [H1 H2]. rewrite (IH H2), orb_false_r.
  destruct v as [|d v]; [|exact H1].
  cbn [append]. unfold nl. unfold colon, newline. simpl.
  apply andb_false_r.
Qed.

Lemma last_char_or_app_nl (v : string) :
  forall prev, last_char_or prev (v ++ nl) = Some newline.
Proof. induction v as [|c v IH]; intros prev; [reflexivity | apply IH]. Qed.

(** The piece of a line after its label: a blank, the value and the
    line break. *)
Lemma piece_facts (v : string) :
  has_digit_colon v = false ->
  (" " ++ v ++ nl)%string <> ""
  /\ has_digit_colon (" " ++ v ++ nl) = false
  /\ last_char (" " ++ v ++ nl) = Some newline.
Proof.
  intros H. split; [discriminate|]. split.
  - cbn [append has_digit_colon].
    rewrite (has_digit_colon_app_nl v H). reflexivity.
  - unfold last_char. cbn [append last_char_or]. apply last_char_or_app_nl.
Qed.

Lemma answer_text_head (k : nat) (v : string) (vs : list string) :
  exists rest, answer_text k (v :: vs) = (label k ++ rest)%string.
Proof.
  destruct vs as [|v' vs].
  - now eexists.
  - cbn [answer_text]. unfold item_line. rewrite append_assoc_string.
    now eexists.
Qed.

Lemma answer_text_cons (k : nat) (v v' : string) (vs : list string) :
  answer_text k (v :: v' :: vs)
  = (label k ++ (" " ++ v ++ nl) ++ answer_text (S k) (v' :: vs))%string.
Proof.
  cbn [answer_text]. unfold item_line.
  now rewrite !append_assoc_string.
Qed.

(** An answer, cut at one of its values. *)
Lemma answer_text_split (before : list string) :
  forall (k : nat) (v : string) (after : list string),
    answer_text k (before ++ v :: after)
    = (full_lines k before
       ++ label (k + length before)
       ++ match after with
          | [] => " " ++ v
          | _ :: _ =>
              (" " ++ v ++ nl)
              ++ answer_text (S (k + length before)) after
          end)%string.
Proof.
  induction before as [|b before IH]; intros k v after.
  - cbn [app length full_lines append]. rewrite Nat.add_0_r.
    destruct after as [|a after]; [reflexivity|].
    apply answer_text_cons.
  - cbn [app length full_lines].
    destruct (before ++ v :: after) as [|x l] eqn:E;
      [now destruct before|].
    rewrite answer_text_cons, <- E, IH.
    replace (S k + length before) with (k + S (length before)) by lia.
    unfold item_line. now rewrite !append_assoc_string.
Qed.

(** The search for the label of item [i] runs through the lines of the
    other items. *)
Lemma after_label_full_lines (i : nat) (before : list string) :
  forall (k : nat) (prev : option ascii) (X : string),
    Forall plain_value before ->
    (forall j, k <= j < k + length before -> j <> i) ->
    is_word_opt prev = false ->
    exists prev',
      is_word_opt prev' = false
      /\ after_label i prev (full_lines k before ++ X)
         = after_label i prev' X.
Proof.
  induction before as [|b before IH]; intros k prev X F Hk Hp.
  - exists prev. now split.
  - inversion F as [|b' l' [_ [_ Hb]] F']; subst.
    destruct (piece_facts b Hb) as (P1 & P2 & P3).
    destruct (IH (S k) (Some newline) X F') as (prev' & W & E).
    + intros j Hj. apply Hk. cbn [length]. lia.
    + reflexivity.
    + exists prev'. split; [exact W|].
      cbn [full_lines]. unfold item_line.
      rewrite !append_assoc_string.
      rewrite after_other_label
        by (intros Ei; apply (Hk k); [cbn [length]; lia | now symmetry]).
      replace (" " ++ b ++ nl ++ full_lines (S k) before ++ X)%string
        with ((" " ++ b ++ nl) ++ (full_lines (S k) before ++ X))%string
        by (rewrite !append_assoc_string; reflexivity).
      rewrite (after_label_piece i _ (Some colon) _ P1 P2 P3).
      exact E.
Qed.

End AnswerFacts.

Module RoundTrip.
Import PyStr PyDict Parser Regex Props Shapes StrFacts ParserFacts RegexFacts.
Import RoundTripFacts ScanFacts LabelFacts AnswerFacts.

Lemma label_not_empty_app (k : nat) (rest : string) :
  (label k ++ rest)%string <> "".
Proof.
  pose proof (label_nonempty k) as N.
  destruct (label k); [now elim N | discriminate].
Qed.

(** In a formatted answer, each item is read back as its value. *)
Lemma item_value_answer (before : list string) (v : string)
    (after : list string) :
  Forall plain_value (before ++ v :: after) ->
  item_value (S (length before)) (length (before ++ v :: after))
    (answer_text 1 (before ++ v :: after)) = v.
Proof.
  intros F. apply Forall_app in F as [Fb Fv].
  inversion Fv as [|v0 l0 (Hne & Hs & Hc) Fa]; subst.
  rewrite answer_text_split. cbn [Nat.add].
  unfold item_value, search_item.
  destruct (after_label_full_lines (S (length before)) before 1 None
              (label (S (length before))
               ++ match after with
                  | [] => " " ++ v
                  | _ :: _ =>
                      (" " ++ v ++ nl)
                      ++ answer_text (S (S (length before))) after
                  end)%string Fb) as (prev' & W & E);
    [intros j Hj; lia | reflexivity |].
  rewrite E, after_own_label by exact W.
  rewrite length_app.
  destruct after as [|a after]; cbn [length].
  - replace (Nat.ltb (S (length before)) (length before + 1)) with false
      by (symmetry; apply Nat.ltb_ge; lia).
    rewrite strip_last by assumption.
    destruct v; [now elim Hne | reflexivity].
  - replace (Nat.ltb (S (length before))
               (length before + S (S (length after)))) with true
      by (symmetry; apply Nat.ltb_lt; lia).
    destruct (piece_facts v Hc) as (P1 & P2 & P3).
    destruct (answer_text_head (S (S (length before))) a after)
      as [rest R].
    rewrite lazy_span_piece; try assumption.
    + rewrite strip_line by assumption.
      destruct v; [now elim Hne | reflexivity].
    + rewrite R. apply label_not_empty_app.
    + rewrite R, Nat.add_1_r. now apply label_here_at.
Qed.

Lemma digit_not_space (c : ascii) : is_digit c = true -> is_space c = false.
Proof.
  destruct c as [[] [] [] [] [] [] [] []]; intros H;
    first [discriminate H | reflexivity].
Qed.

(** A formatted answer has no white space around it. *)
Lemma answer_text_stripped (vs : list string) :
  vs <> [] -> Forall plain_value vs ->
  strip (answer_text 1 vs) = answer_text 1 vs.
Proof.
  intros Hne F. destruct (exists_last Hne) as (before & v & ->).
  pose proof F as F'. apply Forall_app in F' as [_ Fv].
  inversion Fv as [|v0 l0 (Hv & Hs & _) _]; subst.
  destruct (strip_fixed v Hs) as [_ R].
  unfold strip.
  assert (L : lstrip (answer_text 1 (before ++ [v]))
              = answer_text 1 (before ++ [v])).
  { destruct (before ++ [v]) as [|x l] eqn:E; [now destruct before|].
    destruct (answer_text_head 1 x l) as [rest ->].
    pose proof (dec_nonempty 1) as N. pose proof (dec_digits 1) as D.
    unfold label. destruct (dec 1) as [|c s]; [now elim N|].
    cbn [append lstrip]. simpl in D. apply andb_true_iff in D as [D _].
    now rewrite (digit_not_space c D). }
  rewrite L, answer_text_split.
  rewrite <- !append_assoc_string. now apply rstrip_app_fixed.
Qed.

Lemma map_nth_all (vs : list string) (f : nat -> string) :
  (forall before v after,
     vs = before ++ v :: after -> f (S (length before)) = v) ->
  map f (seq 1 (length vs)) = vs.
Proof.
  revert f. induction vs as [|x vs IH]; intros f H; [reflexivity|].
  cbn [length seq map]. f_equal.
  - apply (H [] x vs). reflexivity.
  - rewrite <- seq_shift, map_map. apply IH.
    intros before v after E. apply (H (x :: before) v after).
    now rewrite E.
Qed.

End RoundTrip.

(** X1.  An answer in the format that the prompts ask for, one numbered
    line per value, is read back as its values: when no value is empty,
    has white space around it or holds a digit directly followed by a
    colon, the enumerated parser returns exactly the values, in order. *)
Theorem formatted_answer_parses_back (vs : list string) :
  Forall Shapes.plain_value vs ->
  Parser.parse_items (Shapes.answer_text 1 vs) (length vs) = vs.
Proof.
  intros F. rewrite ParserFacts.parse_items_map.
  apply RoundTrip.map_nth_all. intros before v after E.
  rewrite E. apply RoundTrip.item_value_answer. now rewrite <- E.
Qed.

(** The three lines of a short answer. *)
Lemma formatted_answer_parses_back_witness :
  Forall Shapes.plain_value ["Odds ratio"; "1.8"; "95% CI [1.2, 2.4]"]
  /\ Parser.parse_items
       (Shapes.answer_text 1 ["Odds ratio"; "1.8"; "95% CI [1.2, 2.4]"]) 3
     = ["Odds ratio"; "1.8"; "95% CI [1.2, 2.4]"].
Proof.
  assert (F : Forall Shapes.plain_value
                ["Odds ratio"; "1.8"; "95% CI [1.2, 2.4]"]).
  { repeat (apply Forall_cons;
            [split; [discriminate | split; reflexivity]|]).
    apply Forall_nil. }
  split; [exact F|].
  apply (formatted_answer_parses_back _ F).
Defined.

(** X2.  When the text-generation call answers a detail prompt with
    seven values in the requested format, and a meta prompt with eight,
    and no value is empty, has surrounding white space or holds a digit
    directly followed by a colon, the extractor returns each value
    under the key of its position: the record is the key list zipped
    with the values. *)
Theorem extractors_read_formatted_answers
    (chat : nat -> Effects.request -> option string)
    (paper_text result_text : string) (w : Effects.log)
    (vs : list string) :
  Forall Shapes.plain_value vs ->
  (length vs = 7 ->
   chat (length w) (Effects.DetailPrompt paper_text result_text)
   = Some (Shapes.answer_text 1 vs) ->
   fst (Extractors.extract_result_details chat paper_text result_text w)
   = inr (combine Parser.detail_keys vs))
  /\ (length vs = 8 ->
      chat (length w) (Effects.MetaPrompt paper_text)
      = Some (Shapes.answer_text 1 vs) ->
      fst (Extractors.extract_meta_info chat paper_text w)
      = inr (combine Parser.meta_keys vs)).
Proof.
  intros F. split; intros L H.
  - rewrite ExtractorFacts.extract_result_details_eq, H. cbn [fst].
    unfold Props.detail_of, Parser.parse_detail_extraction.
    rewrite RoundTrip.answer_text_stripped
      by (try exact F; intros ->; discriminate L).
    rewrite <- L, (formatted_answer_parses_back vs F).
    do 8 (destruct vs as [|? vs]; try discriminate L). reflexivity.
  - rewrite ExtractorFacts.extract_meta_info_eq, H. cbn [fst].
    unfold Props.meta_of, Parser.parse_meta_extraction.
    rewrite RoundTrip.answer_text_stripped
      by (try exact F; intros ->; discriminate L).
    rewrite <- L, (formatted_answer_parses_back vs F).
    do 9 (destruct vs as [|? vs]; try discriminate L). reflexivity.
Qed.

(** The example answer of the detail prompt. *)
Lemma extractors_read_formatted_answers_witness :
  Forall Shapes.plain_value XSamples.seven_values
  /\ length XSamples.seven_values = 7
  /\ XSamples.chat_formatted 0 (Effects.DetailPrompt "text" "result")
     = Some (Shapes.answer_text 1 XSamples.seven_values)
  /\ fst (Extractors.extract_result_details XSamples.chat_formatted
            "text" "result" [])
     = inr (combine Parser.detail_keys XSamples.seven_values).
Proof.
  assert (F : Forall Shapes.plain_value XSamples.seven_values).
  { repeat (apply Forall_cons;
            [split; [discriminate | split; reflexivity]|]).
    apply Forall_nil. }
  split; [exact F|]. split; [reflexivity|]. split; [reflexivity|].
  apply (extractors_read_formatted_answers XSamples.chat_formatted
           "text" "result" [] XSamples.seven_values F); reflexivity.
Defined.

(** The condition on the values is needed: a value that holds a digit
    directly followed by a colon, as the ratio 2:1, is cut at the label
    found inside it. *)
Remark value_holding_a_label_is_cut :
  Parser.parse_items (Shapes.answer_text 1 ["ratio 2:1"; "0.5"]) 2
  = ["ratio"; ("1" ++ Props.nl ++ "2: 0.5")%string].
Proof. reflexivity. Qed.

(** ** The relevance filter *)

Module RelevanceFacts.
Import PyStr PyDict Effects Relevance Shapes.

Section WithClassifier.
Variable classify : nat -> query -> option string.
Variable user_description : string.

Lemma filter_step (ref : dict pyval) (rest : list (dict pyval))
    (w : list query) :
  filter_references_with_gpt classify (ref :: rest) user_description w
  = if has_text ref then
      let w1 := w ++ [query_of user_description ref] in
      let r := filter_references_with_gpt classify rest user_description w1 in
      match classify (length w) (query_of user_description ref) with
      | Some answer =>
          if says_include (lower (strip answer))
          then (ref :: fst r, snd r) else r
      | None => r
      end
    else filter_references_with_gpt classify rest user_description w.
Proof.
  cbn [filter_references_with_gpt]. unfold has_text, query_of, says_include.
  destruct (negb (truthy (get ref "title" (VStr "")))
            && negb (truthy (get ref "abstract" (VStr ""))))%bool;
    cbn [negb]; [reflexivity|].
  cbv zeta.
  destruct (classify (length w) _) as [answer|]; [|reflexivity].
  destruct (filter_references_with_gpt classify rest user_description _)
    as [filtered w'].
  cbn [fst snd].
  now destruct (Ontology.contains "include" (lower (strip answer))
                && negb (Ontology.contains "exclude" (lower (strip answer))))%bool.
Qed.

Lemma filter_none (references : list (dict pyval)) :
  (forall n q, match classify n q with
               | Some answer => says_include (lower (strip answer)) = false
               | None => True
               end) ->
  forall w,
    fst (filter_references_with_gpt classify references user_description w)
    = [].
Proof.
  intros H. induction references as [|ref rest IH]; intros w;
    [reflexivity|].
  rewrite filter_step. destruct (has_text ref); [|apply IH].
  cbv zeta. specialize (H (length w) (query_of user_description ref)).
  destruct (classify (length w) (query_of user_description ref))
    as [answer|]; [|apply IH].
  rewrite H. apply IH.
Qed.

Lemma filter_all (references : list (dict pyval)) :
  (forall n q, exists answer,
      classify n q = Some answer
      /\ says_include (lower (strip answer)) = true) ->
  forall w,
    fst (filter_references_with_gpt classify references user_description w)
    = filter has_text references.
Proof.
  intros H. induction references as [|ref rest IH]; intros w;
    [reflexivity|].
  rewrite filter_step. cbn [filter]. destruct (has_text ref); [|apply IH].
  cbv zeta.
  destruct (H (length w) (query_of user_description ref))
    as (answer & -> & ->).
  cbn [fst]. now rewrite IH.
Qed.

End WithClassifier.

End RelevanceFacts.

(** X3.  The relevance filter only leaves references out: the list it
    returns is the given list with some references removed, in the same
    order, and every reference it keeps has a title or an abstract. *)
Theorem filter_keeps_a_subsequence
    (classify : nat -> Relevance.query -> option string)
    (references : list (PyDict.dict Effects.pyval))
    (user_description : string) (w : list Relevance.query) :
  Shapes.Subseq
    (fst (Relevance.filter_references_with_gpt classify references
            user_description w)) references
  /\ Forall (fun ref => Relevance.has_text ref = true)
       (fst (Relevance.filter_references_with_gpt classify references
               user_description w)).
Proof.
  revert w. induction references as [|ref rest IH]; intros w.
  - split; constructor.
  - rewrite RelevanceFacts.filter_step.
    destruct (Relevance.has_text ref) eqn:T.
    + cbv zeta.
      destruct (IH (w ++ [Relevance.query_of user_description ref]))
        as [S F].
      destruct (classify (length w)
                  (Relevance.query_of user_description ref)) as [answer|].
      * destruct (Relevance.says_include
                    (Relevance.lower (PyStr.strip answer))); cbn [fst].
        -- split; [now constructor | now constructor].
        -- split; [now constructor | exact F].
      * split; [now constructor | exact F].
    + destruct (IH w) as [S F]. split; [now constructor | exact F].
Qed.

(** X4.  The relevance filter makes exactly one classification call per
    reference that has a title or an abstract, in the order of the
    list, whatever the answers are, and no call for the others. *)
Theorem filter_calls_once_per_reference
    (classify : nat -> Relevance.query -> option string)
    (references : list (PyDict.dict Effects.pyval))
    (user_description : string) (w : list Relevance.query) :
  snd (Relevance.filter_references_with_gpt classify references
         user_description w)
  = w ++ map (Relevance.query_of user_description)
             (filter Relevance.has_text references).
Proof.
  revert w. induction references as [|ref rest IH]; intros w.
  - cbn. now rewrite app_nil_r.
  - rewrite RelevanceFacts.filter_step. cbn [filter].
    destruct (Relevance.has_text ref).
    + cbv zeta.
      assert (E : snd (Relevance.filter_references_with_gpt classify rest
                         user_description
                         (w ++ [Relevance.query_of user_description ref]))
                  = w ++ map (Relevance.query_of user_description)
                             (ref :: filter Relevance.has_text rest)).
      { rewrite IH, <- app_assoc. reflexivity. }
      destruct (classify (length w)
                  (Relevance.query_of user_description ref))
        as [answer|]; [|exact E].
      now destruct (Relevance.says_include
                      (Relevance.lower (PyStr.strip answer))).
    + apply IH.
Qed.

(** X5.  The relevance filter fails closed: when every call fails or
    gives an answer that does not hold "include" without "exclude"
    (white space and letter case apart), no reference is kept; when
    every call gives such an answer, exactly the references with a
    title or an abstract are kept. *)
Theorem filter_fails_closed
    (classify : nat -> Relevance.query -> option string)
    (references : list (PyDict.dict Effects.pyval))
    (user_description : string) (w : list Relevance.query) :
  ((forall n q,
      match classify n q with
      | Some answer =>
          Relevance.says_include (Relevance.lower (PyStr.strip answer))
          = false
      | None => True
      end) ->
   fst (Relevance.filter_references_with_gpt classify references
          user_description w) = [])
  /\ ((forall n q, exists answer,
         classify n q = Some answer
         /\ Relevance.says_include (Relevance.lower (PyStr.strip answer))
            = true) ->
      fst (Relevance.filter_references_with_gpt classify references
             user_description w)
      = filter Relevance.has_text references).
Proof.
  split; intros H.
  - now apply RelevanceFacts.filter_none.
  - now apply RelevanceFacts.filter_all.
Qed.

(** Three references under a classifier that is down and under one that
    always answers INCLUDE. *)
Lemma filter_fails_closed_witness :
  fst (Relevance.filter_references_with_gpt XSamples.classify_down
         XSamples.three_references "sleep" []) = []
  /\ length (fst (Relevance.filter_references_with_gpt XSamples.classify_yes
                    XSamples.three_references "sleep" [])) = 2.
Proof.
  destruct (filter_fails_closed XSamples.classify_down
              XSamples.three_references "sleep" []) as [N _].
  destruct (filter_fails_closed XSamples.classify_yes
              XSamples.three_references "sleep" []) as [_ Y].
  split.
  - apply N. intros n q. exact I.
  - rewrite Y; [reflexivity|].
    intros n q. exists " INCLUDE ". split; reflexivity.
Defined.

(** ** The inverted index of an abstract *)

Module IndexFacts.
Import PyStr PyDict Effects OpenAlex IndexShapes.

Lemma nth_error_set_nth {A} (l : list A) :
  forall (i j : nat) (v : A),
    i < length l ->
    nth_error (PyList.set_nth i v l) j
    = if Nat.eqb j i then Some v else nth_error l j.
Proof.
  induction l as [|x l IH]; intros i j v H; [simpl in H; lia|].
  destruct i as [|i], j as [|j]; simpl; try reflexivity.
  apply IH. simpl in H. lia.
Qed.

Lemma setitem_in_range {A} (l : list A) (p : Z) (v : A) :
  (0 <= p < Z.of_nat (length l))%Z ->
  setitem l p v = inr (PyList.set_nth (Z.to_nat p) v l).
Proof.
  intros H. unfold setitem.
  replace (0 <=? p)%Z with true by (symmetry; apply Z.leb_le; lia).
  replace (p <? Z.of_nat (length l))%Z with true
    by (symmetry; apply Z.ltb_lt; lia).
  reflexivity.
Qed.

(** The writes of one word: the positions listed hold the word, the
    others are as before. *)
Lemma write_positions_spec (word : string) (positions : list Z) :
  forall l : list string,
    (forall p, In p positions -> (0 <= p < Z.of_nat (length l))%Z) ->
    exists l',
      write_positions l word positions = inr l'
      /\ length l' = length l
      /\ forall j,
           nth_error l' j
           = if existsb (fun p => Z.eqb p (Z.of_nat j)) positions
             then (if Nat.ltb j (length l) then Some word else None)
             else nth_error l j.
Proof.
  induction positions as [|p positions IH]; intros l H.
  - exists l. repeat split; reflexivity.
  - assert (Hp : (0 <= p < Z.of_nat (length l))%Z) by (apply H; now left).
    cbn [write_positions]. rewrite setitem_in_range by exact Hp.
    destruct (IH (PyList.set_nth (Z.to_nat p) word l)) as (l' & E & L & N).
    { intros q Hq. rewrite ParserFacts.set_nth_length. apply H. now right. }
    exists l'. split; [exact E|].
    rewrite ParserFacts.set_nth_length in L, N. split; [exact L|].
    intros j. rewrite N. cbn [existsb].
    destruct (existsb (fun q => Z.eqb q (Z.of_nat j)) positions);
      [now rewrite orb_true_r|].
    rewrite orb_false_r, nth_error_set_nth by lia.
    destruct (Z.eqb p (Z.of_nat j)) eqn:Ep.
    + apply Z.eqb_eq in Ep.
      replace (Nat.eqb j (Z.to_nat p)) with true
        by (symmetry; apply Nat.eqb_eq; lia).
      replace (Nat.ltb j (length l)) with true
        by (symmetry; apply Nat.ltb_lt; lia).
      reflexivity.
    + apply Z.eqb_neq in Ep.
      replace (Nat.eqb j (Z.to_nat p)) with false
        by (symmetry; apply Nat.eqb_neq; lia).
      reflexivity.
Qed.

(** The writes of all words never raise on positions in range; a
    position listed somewhere holds a word it is listed under, and a
    position listed nowhere is as before. *)
Lemma write_words_spec (n : nat) (items : dict (list Z)) :
  forall l : list string,
    length l = n -> in_range n items ->
    exists l',
      write_words l items = inr l'
      /\ length l' = n
      /\ forall j,
           if covered j items
           then exists word positions,
                  In (word, positions) items
                  /\ In (Z.of_nat j) positions
                  /\ nth_error l' j = Some word
           else nth_error l' j = nth_error l j.
Proof.
  induction items as [|[word positions] items IH]; intros l L R.
  - exists l. split; [reflexivity|]. split; [exact L|].
    intros j. reflexivity.
  - destruct (write_positions_spec word positions l) as (l1 & E1 & L1 & N1).
    { intros p Hp. rewrite L. apply (R word positions); [now left | exact Hp]. }
    destruct (IH l1) as (l' & E & L' & N).
    { now rewrite L1. }
    { intros w ps p Hw Hp. apply (R w ps); [now right | exact Hp]. }
    exists l'. cbn [write_words]. rewrite E1. split; [exact E|].
    split; [exact L'|]. intros j. specialize (N j).
    unfold covered in *. cbn [existsb snd].
    destruct (existsb (fun kv => existsb (fun p => Z.eqb p (Z.of_nat j))
                                         (snd kv)) items) eqn:C.
    + rewrite orb_true_r. destruct N as (w & ps & Hw & Hp & Hn).
      exists w, ps. split; [now right | now split].
    + rewrite orb_false_r, N, N1.
      destruct (existsb (fun p => Z.eqb p (Z.of_nat j)) positions) eqn:P;
        [|reflexivity].
      apply existsb_exists in P as (p & Hp & Ep). apply Z.eqb_eq in Ep.
      subst p. exists word, positions.
      split; [now left|]. split; [exact Hp|].
      replace (Nat.ltb j (length l)) with true; [reflexivity|].
      symmetry. apply Nat.ltb_lt.
      pose proof (R word positions (Z.of_nat j) (or_introl eq_refl) Hp).
      lia.
Qed.

Lemma fold_max_spec (l : list Z) :
  forall x,
    (x <= fold_left Z.max l x)%Z
    /\ Forall (fun y => (y <= fold_left Z.max l x)%Z) l
    /\ In (fold_left Z.max l x) (x :: l).
Proof.
  induction l as [|y l IH]; intros x; simpl.
  - split; [lia|]. split; [constructor | now left].
  - destruct (IH (Z.max x y)) as (A & B & C).
    split; [lia|]. split.
    + constructor; [lia | exact B].
    + destruct C as [C|C]; [|right; now right].
      rewrite <- C. destruct (Z.max_spec x y) as [[_ ->]|[_ ->]];
        [right; now left | now left].
Qed.

Lemma in_positions (items : dict (list Z)) (p : Z) :
  In p (flat_map snd items) <->
  exists word positions, In (word, positions) items /\ In p positions.
Proof.
  rewrite in_flat_map. split.
  - intros [[w ps] [H1 H2]]. now exists w, ps.
  - intros (w & ps & H1 & H2). now exists (w, ps).
Qed.

Lemma covered_in (j : nat) (items : dict (list Z)) :
  covered j items = true -> In (Z.of_nat j) (flat_map snd items).
Proof.
  unfold covered. intros H. apply existsb_exists in H as ([w ps] & H1 & H2).
  apply existsb_exists in H2 as (p & Hp & E). apply Z.eqb_eq in E. subst p.
  apply in_positions. now exists w, ps.
Qed.

End IndexFacts.

Module AbstractFacts.
Import PyStr PyDict Effects OpenAlex IndexShapes IndexFacts.

(** With positions that are not negative, the greatest position sizes
    the list of words and no write is out of range. *)
Lemma reconstruct_nonneg (item : string * list Z) (items : dict (list Z))
    (m : Z) :
  Forall (fun p => (0 <= p)%Z) (flat_map snd (item :: items)) ->
  py_max (flat_map snd (item :: items)) = inr m ->
  (0 <= m)%Z
  /\ in_range (Z.to_nat (m + 1)) (item :: items)
  /\ In m (flat_map snd (item :: items)).
Proof.
  intros F E. unfold py_max in E.
  destruct (flat_map snd (item :: items)) as [|x l] eqn:P;
    [discriminate E|].
  injection E as <-.
  destruct (fold_max_spec l x) as (A & B & C).
  assert (M : (0 <= fold_left Z.max l x)%Z).
  { eapply Forall_forall in F; [exact F | exact C]. }
  split; [exact M|]. split; [|exact C].
  intros word positions p Hw Hp.
  assert (Hin : In p (x :: l)).
  { rewrite <- P. apply in_positions. now exists word, positions. }
  split; [eapply Forall_forall in F; [exact F | exact Hin]|].
  assert (p <= fold_left Z.max l x)%Z.
  { destruct Hin as [<-|Hin]; [exact A|].
    eapply Forall_forall in B; [exact B | exact Hin]. }
  lia.
Qed.

End AbstractFacts.

(** X6.  An inverted index that lists the words of a text at their
    positions gives the text back: when every listed position holds the
    word it is listed under and every position of the word list is
    listed, reconstruct_abstract returns the words joined by single
    blanks. *)
Theorem abstract_round_trip (items : PyDict.dict (list Z))
    (ws : list string) :
  ws <> [] ->
  IndexShapes.describes items ws ->
  OpenAlex.reconstruct_abstract (Some items)
  = inr (Some (OpenAlex.join " " ws)).
Proof.
  intros Hne [D C].
  assert (Hn : 0 < length ws) by (destruct ws; [now elim Hne | simpl; lia]).
  assert (R : IndexShapes.in_range (length ws) items).
  { intros word positions p Hw Hp. destruct (D word positions p Hw Hp)
      as [P N].
    assert (Z.to_nat p < length ws)
      by (apply nth_error_Some; rewrite N; discriminate).
    lia. }
  assert (Hlast : In (Z.of_nat (length ws - 1)) (flat_map snd items))
    by (apply IndexFacts.covered_in, C; lia).
  destruct items as [|item items]; [now elim Hlast|].
  unfold OpenAlex.reconstruct_abstract, OpenAlex.py_max.
  destruct (flat_map snd (item :: items)) as [|x l] eqn:P;
    [now elim Hlast|].
  destruct (IndexFacts.fold_max_spec l x) as (A & B & M).
  assert (Em : fold_left Z.max l x = Z.of_nat (length ws - 1)).
  { assert (fold_left Z.max l x < Z.of_nat (length ws))%Z.
    { rewrite <- P in M. apply IndexFacts.in_positions in M
        as (w & ps & Hw & Hp).
      apply (R w ps _ Hw Hp). }
    assert (Z.of_nat (length ws - 1) <= fold_left Z.max l x)%Z.
    { destruct Hlast as [<-|Hl]; [exact A|].
      eapply Forall_forall in B; [exact B | exact Hl]. }
    lia. }
  rewrite Em.
  replace (Z.to_nat (Z.of_nat (length ws - 1) + 1)) with (length ws)
    by lia.
  destruct (IndexFacts.write_words_spec (length ws) (item :: items)
              (repeat EmptyString (length ws)))
    as (l' & E & L & N); [apply repeat_length | exact R |].
  rewrite E. assert (El : l' = ws); [|now rewrite El].
  apply nth_error_ext. intros j.
  destruct (Nat.lt_ge_cases j (length ws)) as [Hj|Hj].
  - specialize (N j). rewrite (C j Hj) in N.
    destruct N as (w & ps & Hw & Hp & ->).
    destruct (D w ps _ Hw Hp) as [_ Dn]. now rewrite Nat2Z.id in Dn.
  - transitivity (@None string);
      [apply nth_error_None; lia | symmetry; apply nth_error_None; lia].
Qed.

(** The index of a text of four words. *)
Lemma abstract_round_trip_witness :
  XSamples.sample_words <> []
  /\ IndexShapes.describes XSamples.sample_index XSamples.sample_words
  /\ OpenAlex.reconstruct_abstract (Some XSamples.sample_index)
     = inr (Some "the cat the sat").
Proof.
  assert (D : IndexShapes.describes XSamples.sample_index
                XSamples.sample_words).
  { split.
    - intros word positions p Hw Hp. simpl in Hw.
      destruct Hw as [Hw|[Hw|[Hw|[]]]]; injection Hw as <- <-;
        simpl in Hp;
        repeat (destruct Hp as [<-|Hp]; [split; [lia | reflexivity]|]);
        now elim Hp.
    - intros j Hj. simpl in Hj.
      do 4 (destruct j as [|j]; [reflexivity|]). lia. }
  split; [discriminate|]. split; [exact D|].
  apply (abstract_round_trip XSamples.sample_index XSamples.sample_words);
    [discriminate | exact D].
Defined.

(** X7.  reconstruct_abstract returns no text for a missing or empty
    index and raises ValueError for an index whose words list no
    position at all.  For an index with positions that are not negative
    it never raises: the text has one word slot per position up to the
    greatest one, a listed slot holds a word listed there and a slot
    listed nowhere is an empty word. *)
Theorem abstract_slots (items : PyDict.dict (list Z)) :
  OpenAlex.reconstruct_abstract None = inr None
  /\ OpenAlex.reconstruct_abstract (Some []) = inr None
  /\ (items <> [] -> flat_map snd items = [] ->
      OpenAlex.reconstruct_abstract (Some items) = inl Effects.ValueError)
  /\ (flat_map snd items <> [] ->
      Forall (fun p => (0 <= p)%Z) (flat_map snd items) ->
      exists (m : Z) (slots : list string),
        OpenAlex.py_max (flat_map snd items) = inr m
        /\ OpenAlex.reconstruct_abstract (Some items)
           = inr (Some (OpenAlex.join " " slots))
        /\ Z.of_nat (length slots) = (m + 1)%Z
        /\ forall j, j < length slots ->
             if IndexShapes.covered j items
             then exists word positions,
                    In (word, positions) items
                    /\ In (Z.of_nat j) positions
                    /\ nth_error slots j = Some word
             else nth_error slots j = Some EmptyString).
Proof.
  split; [reflexivity|]. split; [reflexivity|]. split.
  - intros Hne E. destruct items as [|item items]; [now elim Hne|].
    unfold OpenAlex.reconstruct_abstract. now rewrite E.
  - intros Hne F. destruct items as [|item items]; [now elim Hne|].
    destruct (OpenAlex.py_max (flat_map snd (item :: items))) as [e|m] eqn:E.
    { unfold OpenAlex.py_max in E.
      destruct (flat_map snd (item :: items)); [now elim Hne | discriminate E]. }
    destruct (AbstractFacts.reconstruct_nonneg item items m F E)
      as (M & R & _).
    destruct (IndexFacts.write_words_spec (Z.to_nat (m + 1)) (item :: items)
                (repeat EmptyString (Z.to_nat (m + 1))))
      as (l' & W & L & N); [apply repeat_length | exact R |].
    exists m, l'. split; [reflexivity|].
    unfold OpenAlex.reconstruct_abstract. rewrite E, W.
    split; [reflexivity|]. split; [lia|].
    intros j Hj. specialize (N j).
    destruct (IndexShapes.covered j (item :: items)); [exact N|].
    rewrite N. apply nth_error_repeat. lia.
Qed.

(** A word at position 2 alone: two empty slots before it. *)
Lemma abstract_slots_witness :
  flat_map snd XSamples.gap_index <> []
  /\ Forall (fun p => (0 <= p)%Z) (flat_map snd XSamples.gap_index)
  /\ exists slots,
       OpenAlex.reconstruct_abstract (Some XSamples.gap_index)
       = inr (Some (OpenAlex.join " " slots))
       /\ length slots = 3.
Proof.
  assert (F : Forall (fun p => (0 <= p)%Z) (flat_map snd XSamples.gap_index))
    by (repeat constructor; discriminate).
  split; [discriminate|]. split; [exact F|].
  destruct (abstract_slots XSamples.gap_index) as (_ & _ & _ & H).
  destruct H as (m & slots & Em & E & L & _); [discriminate | exact F|].
  exists slots. split; [exact E|].
  injection Em as <-. simpl in L. lia.
Defined.

(** ** Embeddings of the ontology and the best match *)

Module MatchFacts.
Import PyStr PyDict Effects Ontology Props.

Section WithCollaborators.
Variable embed : nat -> pyval -> option vector.
Variable np_dot : vector -> vector -> float.
Variable np_norm : vector -> float.

Lemma compute_embedding_text (text : string) (w : log) :
  exists emb,
    compute_embedding embed (VStr text) w
    = (inr emb, w ++ [EmbedCall (VStr text)]).
Proof.
  unfold compute_embedding.
  destruct (embed (length w) (VStr text)) as [emb|]; eexists; reflexivity.
Qed.

Lemma embed_terms_calls (terms : list string) :
  forall w, exists embs,
    embed_terms embed (map VStr terms) w
    = (inr embs, w ++ map EmbedCall (map VStr terms))
    /\ length embs = length terms.
Proof.
  induction terms as [|t terms IH]; intros w.
  - exists []. cbn. now rewrite app_nil_r.
  - destruct (compute_embedding_text t w) as [emb E].
    destruct (IH (w ++ [EmbedCall (VStr t)])) as (embs & E' & L).
    exists (emb :: embs). cbn [map embed_terms]. unfold bind at 1.
    rewrite E. unfold bind at 1. rewrite E'. unfold ret.
    rewrite <- app_assoc. split; [reflexivity | simpl; now rewrite L].
Qed.

Lemma cosine_error (a b : vector) (e : exn) :
  cosine_similarity np_dot np_norm a b = inl e -> e = ValueError.
Proof.
  unfold cosine_similarity.
  destruct (is_nil a || is_nil b)%bool; [discriminate|].
  destruct (negb (Nat.eqb (length a) (length b))); [now intros [= <-]|].
  destruct (is_zero (np_norm a) || is_zero (np_norm b))%bool; discriminate.
Qed.

Lemma similarities_shape (item_embedding : vector) (onto_df : onto_frame) :
  match similarities np_dot np_norm item_embedding onto_df with
  | inl e => e = ValueError
  | inr sims => length sims = length onto_df
  end.
Proof.
  induction onto_df as [|[term emb] rest IH]; cbn [similarities];
    [reflexivity|].
  destruct (cosine_similarity np_dot np_norm item_embedding emb) as [e|sim]
    eqn:C; [now apply cosine_error in C|].
  destruct (similarities np_dot np_norm item_embedding rest) as [e|sims];
    [exact IH | simpl; now rewrite IH].
Qed.

(** The scan of the argmax stays inside the list. *)
Lemma argmax_scan_bound (l : list float) :
  forall (mp : float) (max_ind i : nat),
    max_ind < i -> argmax_scan mp max_ind i l < i + length l.
Proof.
  induction l as [|x l IH]; intros mp max_ind i H.
  - destruct (PrimFloat.is_nan mp) eqn:E; simpl; rewrite E; simpl; lia.
  - simpl. destruct (PrimFloat.is_nan mp); [lia|].
    destruct (negb (PrimFloat.leb x mp)).
    + specialize (IH x i (S i)). lia.
    + specialize (IH mp max_ind (S i)). lia.
Qed.

End WithCollaborators.

End MatchFacts.

(** X8.  create_ontology_embeddings on an ontology of texts makes
    exactly one embedding call per term, in the order of the terms,
    and never raises, even when calls fail; the frame it returns holds
    the terms in that order.  An empty ontology makes no call. *)
Theorem ontology_embedded_once_per_term
    (embed : nat -> Effects.pyval -> option Ontology.vector)
    (terms : list string) (w : Effects.log) :
  exists onto_df,
    Ontology.create_ontology_embeddings embed (map Effects.VStr terms) w
    = (inr onto_df, w ++ map Effects.EmbedCall (map Effects.VStr terms))
    /\ map fst onto_df = map Effects.VStr terms.
Proof.
  destruct terms as [|t terms].
  - exists []. cbn. now rewrite app_nil_r.
  - destruct (MatchFacts.embed_terms_calls embed (t :: terms) w)
      as (embs & E & L).
    exists (combine (map Effects.VStr (t :: terms)) embs).
    unfold Ontology.create_ontology_embeddings. cbn [map] in *.
    unfold Effects.bind. rewrite E. split; [reflexivity|].
    change (Effects.VStr t :: map Effects.VStr terms)
      with (map Effects.VStr (t :: terms)).
    clear E. revert embs L. generalize (t :: terms) as ts.
    induction ts as [|x ts IH]; intros [|e embs] L; try discriminate L;
      [reflexivity|].
    cbn [map combine fst]. f_equal. apply IH. simpl in L. lia.
Qed.

(** X9.  A lookup against a non-empty ontology makes exactly one
    embedding call, for the text looked up, and returns a term of the
    ontology; the only exception it can raise is the ValueError of
    vectors of two lengths.  It never returns a sentinel of its own. *)
Theorem best_match_is_a_term
    (embed : nat -> Effects.pyval -> option Ontology.vector)
    (np_dot : Ontology.vector -> Ontology.vector -> float)
    (np_norm : Ontology.vector -> float)
    (item_text : string) (onto_df : Ontology.onto_frame)
    (w : Effects.log) :
  onto_df <> [] ->
  snd (Ontology.find_best_match_in_ontology embed np_dot np_norm
         item_text onto_df w)
  = w ++ [Effects.EmbedCall (Effects.VStr item_text)]
  /\ match fst (Ontology.find_best_match_in_ontology embed np_dot np_norm
                  item_text onto_df w) with
     | inr best_term => In best_term (map fst onto_df)
     | inl e => e = Effects.ValueError
     end.
Proof.
  intros Hne. destruct onto_df as [|row rest]; [now elim Hne|].
  assert (G : exists r,
             Ontology.find_best_match_in_ontology embed np_dot np_norm
               item_text (row :: rest) w
             = (r, w ++ [Effects.EmbedCall (Effects.VStr item_text)])
             /\ match r with
                | inr best_term => In best_term (map fst (row :: rest))
                | inl e => e = Effects.ValueError
                end).
  { unfold Ontology.find_best_match_in_ontology.
    destruct (MatchFacts.compute_embedding_text embed item_text w)
      as [emb E].
    unfold Effects.bind at 1. rewrite E.
    pose proof (MatchFacts.similarities_shape np_dot np_norm emb
                  (row :: rest)) as S.
    unfold Effects.bind at 1. unfold Effects.lift at 1.
    destruct (Ontology.similarities np_dot np_norm emb (row :: rest))
      as [e|sims]; [eexists; split; [reflexivity | exact S]|].
    destruct sims as [|x sims]; [discriminate S|].
    unfold Effects.bind, Effects.lift, Ontology.np_argmax.
    pose proof (MatchFacts.argmax_scan_bound sims x 0 1 (Nat.lt_0_1)) as B.
    simpl in S.
    destruct (nth_error (row :: rest) (Ontology.argmax_scan x 0 1 sims))
      as [[best_term best_emb]|] eqn:N.
    - eexists. split; [reflexivity|].
      apply nth_error_In in N. apply (in_map fst) in N. exact N.
    - apply nth_error_None in N. simpl in N. lia. }
  destruct G as (r & -> & H). split; [reflexivity | exact H].
Qed.

(** A lookup among two terms with an embedding that fails. *)
Lemma best_match_is_a_term_witness :
  Props.two_terms <> []
  /\ In (Effects.VStr "alpha") (map fst Props.two_terms)
  /\ snd (Ontology.find_best_match_in_ontology Props.embed_down
            Props.sample_dot Props.sample_norm "diet" Props.two_terms [])
     = [Effects.EmbedCall (Effects.VStr "diet")].
Proof.
  split; [discriminate|]. split; [now left|].
  apply (best_match_is_a_term Props.embed_down Props.sample_dot
           Props.sample_norm "diet" Props.two_terms []).
  discriminate.
Defined.

(** ** Records of a json ontology *)

Module MappingFacts.
Import PyStr PyDict Effects Ontology Props.

Lemma terms_of_records_skips (ds : list (list (string * pyval))) :
  terms_of_records (map VDict ds)
  = inr (flat_map (fun d => match lookup "term" d with
                            | Some t => [t]
                            | None => []
                            end) ds).
Proof.
  induction ds as [|d ds IH]; [reflexivity|].
  cbn [map terms_of_records term_in term_of flat_map]. unfold mem.
  rewrite IH. now destruct (lookup "term" d).
Qed.

End MappingFacts.

(** X10.  In a json ontology that is a list of records, the field
    "term" of the first record decides: when the first record has it,
    the terms are those of the records that have the field and the
    records without it are skipped; when the first record lacks it, the
    term set is empty whatever the other items are. *)
Theorem json_records_follow_the_first
    (d : list (string * Effects.pyval)) :
  (PyDict.mem "term" d = true ->
   forall ds : list (list (string * Effects.pyval)),
     Ontology.load_ontology
       (Props.json_file (inr (Effects.VList (map Effects.VDict (d :: ds)))))
     = inr (flat_map (fun d => match PyDict.lookup "term" d with
                               | Some t => [t]
                               | None => []
                               end) (d :: ds)))
  /\ (PyDict.mem "term" d = false ->
      forall rest : list Effects.pyval,
        Ontology.load_ontology
          (Props.json_file (inr (Effects.VList (Effects.VDict d :: rest))))
        = inr []).
Proof.
  split; intros H.
  - intros ds. unfold Ontology.load_ontology, Props.json_file.
    cbn [Ontology.ext Ontology.json_load]. simpl String.eqb. cbv iota.
    cbn [map Ontology.terms_of_json Ontology.is_term_record].
    rewrite H.
    change (Effects.VDict d :: map Effects.VDict ds)
      with (map Effects.VDict (d :: ds)).
    apply MappingFacts.terms_of_records_skips.
  - intros rest. unfold Ontology.load_ontology, Props.json_file.
    cbn [Ontology.ext Ontology.json_load]. simpl String.eqb. cbv iota.
    cbn [Ontology.terms_of_json Ontology.is_term_record forallb
         Ontology.is_str andb].
    now rewrite H.
Qed.

(** A record with a term before one without, and the other way round. *)
Lemma json_records_follow_the_first_witness :
  PyDict.mem "term" [("term", Effects.VStr "diet")] = true
  /\ Ontology.load_ontology
       (Props.json_file
          (inr (Effects.VList
                  (map Effects.VDict
                     [ [("term", Effects.VStr "diet")];
                       [("label", Effects.VStr "sleep")] ]))))
     = inr [Effects.VStr "diet"]
  /\ PyDict.mem "term" [("label", Effects.VStr "sleep")] = false
  /\ Ontology.load_ontology
       (Props.json_file
          (inr (Effects.VList
                  [ Effects.VDict [("label", Effects.VStr "sleep")];
                    Effects.VDict [("term", Effects.VStr "diet")] ])))
     = inr [].
Proof.
  split; [reflexivity|]. split.
  - destruct (json_records_follow_the_first [("term", Effects.VStr "diet")])
      as [H _].
    apply (H eq_refl [[("label", Effects.VStr "sleep")]]).
  - split; [reflexivity|].
    destruct (json_records_follow_the_first
                [("label", Effects.VStr "sleep")]) as [_ H].
    apply (H eq_refl).
Defined.

(** ** Files without text, user data and calls of a study *)

Module FileFacts.
Import PyStr PyDict Effects Parser Extractors Pipeline Props PdfText.
Import RowShapes DictFacts PipelineFacts StudyFacts StudyClaims.

Lemma add_pages_bad (pages : list (exn + pyval)) :
  existsb bad_page pages = true ->
  forall text, exists e, add_pages text pages = inl e.
Proof.
  induction pages as [|page pages IH]; intros H text; [discriminate H|].
  destruct page as [e|v]; [now exists e|].
  destruct v; try (now exists TypeError).
  apply IH. exact H.
Qed.

Lemma add_pages_texts (texts : list string) :
  forall text,
    add_pages text (map text_page texts)
    = inr (text ++ String.concat "" texts)%string.
Proof.
  induction texts as [|t texts IH]; intros text.
  - cbn. now rewrite AnswerFacts.append_nil_r.
  - cbn [map text_page add_pages]. fold text_page. rewrite IH.
    rewrite RoundTripFacts.append_assoc_string.
    destruct texts as [|t' texts]; [|reflexivity].
    cbn. now rewrite AnswerFacts.append_nil_r.
Qed.

Lemma lookup_set_same {V} (k : string) (v : V) (d : dict V) :
  lookup k (set k v d) = Some v.
Proof.
  induction d as [|[k' v'] d IH]; simpl.
  - now rewrite String.eqb_refl.
  - destruct (String.eqb k k') eqn:E; simpl; rewrite E;
      [reflexivity | exact IH].
Qed.

(** With pairwise distinct keys, every entry of the user data is in the
    row, under its key. *)
Lemma fold_set_lookup_in (ud : dict string) :
  forall (r0 : row) (k v : string),
    NoDup (keys ud) -> lookup k ud = Some v ->
    lookup k (fold_left (fun r kv => set (fst kv) (CStr (snd kv)) r) ud r0)
    = Some (CStr v).
Proof.
  induction ud as [|[k1 v1] ud IH]; intros r0 k v N H; [discriminate H|].
  cbn [keys map fst] in N. inversion N as [|k1' l1 Hnot N']; subst.
  cbn [lookup] in H. cbn [fold_left fst snd].
  destruct (String.eqb k k1) eqn:E.
  - apply String.eqb_eq in E. subst k1. injection H as ->.
    rewrite fold_set_lookup_other; [apply lookup_set_same|].
    intros k' Hk' ->. now apply Hnot.
  - now apply IH.
Qed.

Lemma user_data_keys_distinct (user_items : list string)
    (answer : option string) :
  NoDup (keys (user_data_of user_items answer)).
Proof.
  unfold user_data_of. destruct user_items as [|x l]; [constructor|].
  destruct answer as [c|].
  - rewrite UserItemsFacts.parse_user_items_response_eq.
    unfold keys. rewrite map_map.
    apply UserItemsFacts.extra_keys_distinct, seq_NoDup.
  - rewrite ExtractorFacts.user_items_fallback_eq.
    unfold keys. rewrite map_map.
    apply UserItemsFacts.extra_keys_distinct, seq_NoDup.
Qed.

End FileFacts.

(** X12.  A file whose text cannot be extracted is skipped silently:
    when the reader raises, or any page raises or gives no text,
    extract_text_from_pdf returns the empty text (the text of the pages
    read before is lost); and a file whose text is empty or white space
    adds no row and makes no call, the batch goes on as without it.
    When every page gives a text, the text is their concatenation. *)
Theorem unreadable_file_is_skipped
    (chat : nat -> Effects.request -> option string)
    (py_int : string -> option Z) (pdf_file : string)
    (reader : Effects.exn + list (Effects.exn + Effects.pyval))
    (pdfs : list (string
                  * (Effects.exn + list (Effects.exn + Effects.pyval))))
    (user_items : list string) (w : Effects.log) :
  (match reader with
   | inl _ => True
   | inr pages => existsb RowShapes.bad_page pages = true
   end -> PdfText.extract_text_from_pdf reader = EmptyString)
  /\ (PyStr.is_empty (PyStr.strip (PdfText.extract_text_from_pdf reader))
      = true ->
      PdfText.process_pdfs chat py_int ((pdf_file, reader) :: pdfs)
        user_items w
      = PdfText.process_pdfs chat py_int pdfs user_items w)
  /\ (forall texts : list string,
        PdfText.extract_text_from_pdf
          (inr (map RowShapes.text_page texts))
        = String.concat "" texts).
Proof.
  split.
  { destruct reader as [e|pages]; [reflexivity|]. intros H.
    unfold PdfText.extract_text_from_pdf.
    destruct (FileFacts.add_pages_bad pages H EmptyString) as [e ->].
    reflexivity. }
  split.
  { intros H. unfold PdfText.process_pdfs.
    cbn [map fst snd Pipeline.process_files]. now rewrite H. }
  intros texts. unfold PdfText.extract_text_from_pdf.
  now rewrite FileFacts.add_pages_texts.
Qed.

(** A file whose second page raises, before a file with text. *)
Lemma unreadable_file_is_skipped_witness :
  existsb RowShapes.bad_page
    [RowShapes.text_page "Title"; inl Effects.ValueError] = true
  /\ PdfText.extract_text_from_pdf
       (inr [RowShapes.text_page "Title"; inl Effects.ValueError])
     = EmptyString
  /\ PdfText.process_pdfs Props.chat_no_results Props.sample_int
       [ ("a.pdf", inr [RowShapes.text_page "Title"; inl Effects.ValueError]);
         ("b.pdf", inr [RowShapes.text_page "Text"]) ] [] []
     = PdfText.process_pdfs Props.chat_no_results Props.sample_int
         [ ("b.pdf", inr [RowShapes.text_page "Text"]) ] [] [].
Proof.
  destruct (unreadable_file_is_skipped Props.chat_no_results
              Props.sample_int "a.pdf"
              (inr [RowShapes.text_page "Title"; inl Effects.ValueError])
              [ ("b.pdf", inr [RowShapes.text_page "Text"]) ] [] [])
    as (A & B & _).
  split; [reflexivity|]. split; [apply A; reflexivity|].
  apply B. reflexivity.
Defined.

(** X13.  The user data of a study is replicated in each of its rows:
    every row that process_study returns holds, under every key of the
    record returned by the user-items call of that study, the value of
    that record. *)
Theorem user_data_in_every_row
    (chat : nat -> Effects.request -> option string)
    (py_int : string -> option Z) (pdf_file paper_text : string)
    (user_items : list string) (w : Effects.log) :
  exists rows w',
    Pipeline.process_study chat py_int pdf_file paper_text user_items w
      = (inr rows, w')
    /\ Forall
         (fun r =>
            forall k v,
              PyDict.lookup k (Props.user_at chat paper_text user_items w)
              = Some v ->
              PyDict.lookup k r = Some (Pipeline.CStr v))
         rows.
Proof.
  assert (B : forall i t dd k v,
             PyDict.lookup k (Props.user_at chat paper_text user_items w)
             = Some v ->
             PyDict.lookup k
               (Pipeline.build_row pdf_file
                  (Props.meta_at chat paper_text w) i t dd
                  (Props.user_at chat paper_text user_items w))
             = Some (Pipeline.CStr v)).
  { intros i t dd k v H. unfold Pipeline.build_row.
    apply FileFacts.fold_set_lookup_in; [|exact H].
    apply FileFacts.user_data_keys_distinct. }
  rewrite StudyClaims.process_study_cases.
  destruct (Pipeline.split_main_results
              (Props.raw_results (Props.meta_at chat paper_text w)))
    as [|t l].
  - eexists. eexists. split; [reflexivity|].
    constructor; [|constructor]. intros k v. apply B.
  - eexists. eexists. split; [reflexivity|].
    generalize (length (w ++ Props.first_calls paper_text user_items)).
    generalize 1%Z. generalize (t :: l) as results.
    induction results as [|x results IH]; intros i n; cbn [Props.rows_from];
      constructor; [intros k v; apply B | apply IH].
Qed.

(** X14.  The calls of a study are, in this order: one meta call, one
    user-items call when there are user labels and none otherwise, then
    one detail call per candidate of the split results text, in split
    order; nothing else is called, whatever the calls return. *)
Theorem study_call_sequence
    (chat : nat -> Effects.request -> option string)
    (py_int : string -> option Z) (pdf_file paper_text : string)
    (user_items : list string) (w : Effects.log) :
  snd (Pipeline.process_study chat py_int pdf_file paper_text user_items w)
  = w ++ Props.first_calls paper_text user_items
      ++ Props.detail_requests paper_text
           (Pipeline.split_main_results
              (Props.raw_results (Props.meta_at chat paper_text w))).
Proof.
  rewrite StudyClaims.process_study_cases.
  destruct (Pipeline.split_main_results
              (Props.raw_results (Props.meta_at chat paper_text w)))
    as [|t l]; cbn [snd].
  - cbn [Props.detail_requests map]. now rewrite app_nil_r.
  - now rewrite app_assoc.
Qed.

(** ** Cells of the written lines *)

Module CellFacts.
Import PyStr PyDict Effects Parser Extractors Pipeline Props RowShapes.
Import DictFacts PipelineFacts StudyFacts StudyClaims FileFacts.

Lemma trimmed_nonempty (v : string) : trimmed_or_NA v -> v <> "".
Proof. intros [->|[H _]]; [discriminate | exact H]. Qed.

Lemma get_values {V} (P : V -> Prop) (d : dict V) (k : string) (d0 : V) :
  Forall P (values d) -> P d0 -> P (get d k d0).
Proof.
  intros F H0. unfold get. induction d as [|[k' v] d IH]; [exact H0|].
  cbn [lookup]. inversion F; subst.
  destruct (String.eqb k k'); [assumption | now apply IH].
Qed.

Lemma meta_values_nonempty (answer : option string) :
  Forall (fun v => v <> "") (values (meta_of answer)).
Proof.
  destruct answer as [c|].
  - eapply Forall_impl; [|apply ParserClaims.meta_values_trimmed].
    intros v. apply trimmed_nonempty.
  - cbn. repeat (constructor; [discriminate|]). constructor.
Qed.

Lemma detail_values_nonempty (dd : dict string) :
  dd = na_detail_data \/ (exists answer, dd = detail_of answer) ->
  Forall (fun v => v <> "") (values dd).
Proof.
  intros [->|[[c|] ->]].
  - cbn. repeat (constructor; [discriminate|]). constructor.
  - eapply Forall_impl; [|apply ParserClaims.detail_values_trimmed].
    intros v. apply trimmed_nonempty.
  - cbn. repeat (constructor; [discriminate|]). constructor.
Qed.

Lemma user_values_nonempty (user_items : list string) (content : string) :
  Forall (fun v => v <> "")
         (values (user_data_of user_items (Some content))).
Proof.
  unfold user_data_of. destruct user_items as [|x l]; [constructor|].
  destruct (ParserClaims.user_items_values_trimmed (strip content)
              (length (x :: l))) as (d & -> & _ & F).
  eapply Forall_impl; [|exact F]. intros v. apply trimmed_nonempty.
Qed.

Lemma dec_Z_nonempty (z : Z) : dec_Z z <> "".
Proof.
  unfold dec_Z, NilZero.string_of_int.
  destruct (Z.to_int z) as [d|d]; [|discriminate].
  unfold NilZero.string_of_uint. destruct d; discriminate.
Qed.

Lemma keys_lookup {V} (d : dict V) (k : string) :
  In k (keys d) -> exists v, lookup k d = Some v /\ In v (values d).
Proof.
  induction d as [|[k' v'] d IH]; [easy|]. cbn [keys map fst lookup values snd].
  intros H. destruct (String.eqb k k') eqn:E.
  - exists v'. split; [reflexivity | now left].
  - destruct H as [H|H]; [subst; now rewrite String.eqb_refl in E|].
    destruct (IH H) as (v & Hv & Hin). exists v. split; [exact Hv | now right].
Qed.

Section WithCollaborators.
Variable chat : nat -> request -> option string.
Variable py_int : string -> option Z.
Variable user_items : list string.

Lemma candidates_nonempty (raw : string) :
  Forall (fun t => t <> "") (split_main_results raw).
Proof.
  rewrite split_main_results_eq. destruct (String.eqb raw "NA");
    [constructor|].
  unfold nonempty_parts. apply Forall_forall. intros t H.
  apply filter_In in H as [_ H]. destruct t; [discriminate H | discriminate].
Qed.

Lemma rows_from_study (pdf_file paper_text : string) (w : log)
    (results : list string) :
  Forall (fun t => t <> "") results ->
  forall (i : Z) (n : nat),
    Forall (study_row chat user_items)
      (rows_from chat pdf_file paper_text (meta_at chat paper_text w)
         (user_at chat paper_text user_items w) i n results).
Proof.
  induction 1 as [|t l Ht _ IH]; intros i n; cbn [rows_from];
    constructor; [|apply IH].
  exists pdf_file, paper_text, w, i, t.
  eexists. split; [reflexivity|]. split; [exact Ht|].
  right. now eexists.
Qed.

Lemma process_study_rows (pdf_file paper_text : string) (w : log) :
  exists rows w',
    process_study chat py_int pdf_file paper_text user_items w
      = (inr rows, w')
    /\ Forall (study_row chat user_items) rows.
Proof.
  rewrite process_study_cases.
  pose proof (candidates_nonempty
                (raw_results (meta_at chat paper_text w))) as C.
  destruct (split_main_results
              (raw_results (meta_at chat paper_text w))) as [|t l].
  - eexists. eexists. split; [reflexivity|].
    constructor; [|constructor].
    exists pdf_file, paper_text, w, 0%Z, "NA", na_detail_data.
    split; [reflexivity|]. split; [discriminate | now left].
  - eexists. eexists. split; [reflexivity|].
    now apply rows_from_study.
Qed.

Lemma process_files_rows (files : list (string * string)) :
  forall w rows w',
    process_files chat py_int files user_items w = (inr rows, w') ->
    Forall (study_row chat user_items) rows.
Proof.
  induction files as [|[pdf_file paper_text] files IH]; intros w rows w' H.
  - injection H as <- _. constructor.
  - cbn [process_files] in H.
    destruct (is_empty (strip paper_text)); [now apply (IH w rows w')|].
    destruct (process_study_rows pdf_file paper_text w)
      as (rows1 & w1 & E1 & F1).
    unfold bind at 1 in H. rewrite E1 in H. unfold bind at 1 in H.
    destruct (process_files chat py_int files user_items w1)
      as [[e|more] w2] eqn:E2; [discriminate H|].
    injection H as <- _. apply Forall_app. split; [exact F1|].
    now apply (IH w1 more w2).
Qed.

(** Under every field name but the file name, a row of a study holds a
    cell whose text is not empty. *)
Lemma study_row_cells (r : row) (k : string) :
  user_items = []
  \/ (forall n p, chat n (UserItemsPrompt p user_items) <> None) ->
  study_row chat user_items r ->
  In k (fieldnames user_items) -> k <> "filename" ->
  exists c, lookup k r = Some c /\ cell_text c <> "".
Proof.
  intros Hu (pdf & paper & w & i & t & dd & -> & Ht & Hd) Hk Hf.
  unfold fieldnames in Hk. apply in_app_or in Hk as [Hk|Hk].
  - rewrite build_row_lookup
      by (apply extra_keys_not_base; [apply user_at_keys | exact Hk]).
    pose proof (meta_values_nonempty
                  (chat (length w) (MetaPrompt paper))) as M.
    fold (meta_at chat paper w) in M.
    pose proof (detail_values_nonempty dd Hd) as D.
    simpl in Hk.
    repeat (destruct Hk as [<-|Hk];
      [first
         [ now elim Hf
         | eexists; split; [reflexivity|]; cbn [cell_text];
           first [ apply (get_values (fun v => v <> "") _ _ _ M);
                   discriminate
                 | apply (get_values (fun v => v <> "") _ _ _ D);
                   discriminate
                 | apply dec_Z_nonempty
                 | exact Ht ] ]|]).
    now elim Hk.
  - assert (K : In k (keys (user_at chat paper user_items w))
                /\ Forall (fun v => v <> "")
                          (values (user_at chat paper user_items w))).
    { unfold user_at. destruct Hu as [->|Hu]; [now simpl in Hk|].
      destruct user_items as [|x l] eqn:Ex; [now simpl in Hk|].
      specialize (Hu (S (length w)) paper).
      destruct (chat (S (length w)) (UserItemsPrompt paper (x :: l)))
        as [c|]; [|now elim Hu].
      split; [|apply user_values_nonempty].
      rewrite ExtractorFacts.user_data_success_keys by discriminate.
      exact Hk. }
    destruct K as [K F].
    destruct (keys_lookup _ k K) as (v & Hv & Hin).
    exists (CStr v). split.
    + unfold build_row. apply fold_set_lookup_in; [|exact Hv].
      apply user_data_keys_distinct.
    + cbn [cell_text]. eapply Forall_forall in F; [exact F | exact Hin].
Qed.

End WithCollaborators.

Lemma writerows_lines (names : list string) (rows : list row) :
  forall lines,
    writerows names rows = inr lines ->
    lines = map (fun r => map (fun k => cell_text (get r k (CStr ""))) names)
                rows.
Proof.
  induction rows as [|r rows IH]; intros lines H.
  - injection H as <-. reflexivity.
  - cbn [writerows] in H. unfold writerow in H.
    destruct (forallb (fun k => mem_list k names) (keys r));
      [|discriminate H].
    destruct (writerows names rows) as [e|more]; [discriminate H|].
    injection H as <-. cbn [map]. f_equal. now apply IH.
Qed.

Lemma in_combine_map {A B} (f : A -> B) (l : list A) (k : A) (c : B) :
  In (k, c) (combine l (map f l)) -> In k l /\ c = f k.
Proof.
  induction l as [|x l IH]; [easy|]. cbn [map combine].
  intros [H|H]; [injection H as <- <-; split; [now left | reflexivity]|].
  destruct (IH H) as [H1 H2]. split; [now right | exact H2].
Qed.

End CellFacts.

(** X15.  No cell of the written table is blank, the file name apart:
    when there is no user label, or no user-items call fails, every
    line that run_three_pass_extraction writes has, under every field
    name other than filename, a text that is not empty. *)
Theorem written_cells_are_never_blank
    (chat : nat -> Effects.request -> option string)
    (py_int : string -> option Z) (files : list (string * string))
    (user_items : list string) (w w' : Effects.log)
    (lines : list (list string)) :
  user_items = []
  \/ (forall n p, chat n (Effects.UserItemsPrompt p user_items) <> None) ->
  Pipeline.run_three_pass_extraction chat py_int files user_items w
  = (inr (Pipeline.fieldnames user_items :: lines), w') ->
  Forall (fun line =>
            forall k c,
              In (k, c) (combine (Pipeline.fieldnames user_items) line) ->
              k <> "filename" -> c <> "")
         lines.
Proof.
  intros Hu H. unfold Pipeline.run_three_pass_extraction in H.
  unfold Effects.bind at 1 in H.
  destruct (Pipeline.process_files chat py_int files user_items w)
    as [[e|rows] w1] eqn:E; [discriminate H|].
  pose proof (CellFacts.process_files_rows chat py_int user_items files
                w rows w1 E) as F.
  unfold Effects.bind, Effects.lift, Effects.ret in H.
  destruct (Pipeline.writerows (Pipeline.fieldnames user_items) rows)
    as [e|lines'] eqn:W; [discriminate H|].
  injection H as <- _.
  rewrite (CellFacts.writerows_lines _ _ _ W).
  apply Forall_map. eapply Forall_impl; [|exact F].
  intros r Hr k c Hin Hk.
  apply CellFacts.in_combine_map in Hin as [Hin ->].
  destruct (CellFacts.study_row_cells chat user_items r k Hu Hr Hin Hk)
    as (cell & Hc & Hn).
  unfold PyDict.get. now rewrite Hc.
Qed.

(** A batch of one file with three results and no user label. *)
Lemma written_cells_are_never_blank_witness :
  exists lines w',
    Pipeline.run_three_pass_extraction Props.chat_three_results
      Props.sample_int [("a.pdf", "text")] [] []
    = (inr (Pipeline.fieldnames [] :: lines), w')
    /\ length lines = 3
    /\ Forall (fun line =>
                 forall k c,
                   In (k, c) (combine (Pipeline.fieldnames []) line) ->
                   k <> "filename" -> c <> "")
              lines.
Proof.
  eexists. eexists.
  assert (E : Pipeline.run_three_pass_extraction Props.chat_three_results
                Props.sample_int [("a.pdf", "text")] [] []
              = (inr (Pipeline.fieldnames []
                      :: tl (match fst (Pipeline.run_three_pass_extraction
                                          Props.chat_three_results
                                          Props.sample_int
                                          [("a.pdf", "text")] [] []) with
                             | inr table => table
                             | inl _ => []
                             end)),
                 snd (Pipeline.run_three_pass_extraction
                        Props.chat_three_results Props.sample_int
                        [("a.pdf", "text")] [] [])))
    by (vm_compute; reflexivity).
  split; [exact E|]. split; [vm_compute; reflexivity|].
  exact (written_cells_are_never_blank Props.chat_three_results
           Props.sample_int [("a.pdf", "text")] [] [] _ _
           (or_introl eq_refl) E).
Defined.

(** ** Identifiers and downloads of a search *)

Module SearchFacts.
Import PyStr PyDict Effects Props Search SearchShapes StrFacts.

Lemma digits_before_dot (a : string) :
  forall b rest,
    all_digits a = true -> all_digits b = true ->
    (a ++ String "." rest = b ++ String "." rest)%string -> a = b.
Proof.
  induction a as [|x a IH]; intros [|y b] rest Da Db E.
  - reflexivity.
  - cbn [append] in E. injection E as <- _. discriminate Db.
  - cbn [append] in E. injection E as -> _. discriminate Da.
  - cbn [append] in E. injection E as <- E.
    simpl in Da, Db. apply andb_true_iff in Da as [_ Da].
    apply andb_true_iff in Db as [_ Db].
    f_equal. now apply (IH b rest).
Qed.

(** The file name of the row at position [i], counted from 0. *)
Lemma file_name_inj (i j : nat) :
  ("study_" ++ dec (i + 1) ++ ".pdf" = "study_" ++ dec (j + 1) ++ ".pdf")%string
  -> i = j.
Proof.
  intros E. cbn [append] in E. injection E as E.
  apply digits_before_dot in E; [|apply dec_digits | apply dec_digits].
  apply dec_inj in E. lia.
Qed.

Lemma step_spec (u : pyval) (id : string) (d : pyval * string) :
  In d (step (u, id)) ->
  exists s, u = VStr s /\ is_empty (strip s) = false
            /\ d = (VStr s, (id ++ ".pdf")%string).
Proof.
  unfold step, wants_download. cbn [fst snd].
  destruct u as [| | | |s| |]; try (rewrite andb_false_r; easy).
  destruct (is_empty (strip s)) eqn:E;
    [rewrite andb_false_r; easy|].
  destruct (Relevance.truthy (VStr s) && Relevance.truthy (VStr id))%bool;
    [|easy].
  intros [<-|[]]. now exists s.
Qed.

Lemma downloads_from (pdf_urls : list pyval) :
  forall k d,
    In d (flat_map step (combine pdf_urls (ids_from k (length pdf_urls)))) ->
    exists s i,
      k <= i < k + length pdf_urls
      /\ nth_error pdf_urls (i - k) = Some (VStr s)
      /\ is_empty (strip s) = false
      /\ d = (VStr s, ("study_" ++ dec (i + 1) ++ ".pdf")%string).
Proof.
  induction pdf_urls as [|u urls IH]; intros k d H; [easy|].
  cbn [length ids_from seq map combine flat_map] in H.
  apply in_app_or in H as [H|H].
  - apply step_spec in H as (s & -> & E & ->).
    exists s, k. rewrite Nat.sub_diag. cbn [length].
    split; [lia|]. split; [reflexivity|]. split; [exact E|].
    now rewrite RoundTripFacts.append_assoc_string.
  - destruct (IH (S k) d H) as (s & i & R & N & E & ->).
    exists s, i. cbn [length]. split; [lia|]. split; [|now split].
    replace (i - k) with (S (i - S k)) by lia. exact N.
Qed.

Lemma downloads_distinct (pdf_urls : list pyval) :
  forall k,
    NoDup (map snd (flat_map step
                      (combine pdf_urls (ids_from k (length pdf_urls))))).
Proof.
  induction pdf_urls as [|u urls IH]; intros k; [constructor|].
  cbn [length ids_from seq map combine flat_map].
  rewrite map_app. specialize (IH (S k)).
  unfold step at 1. cbn [fst snd].
  destruct (wants_download u (VStr ("study_" ++ dec (k + 1))));
    [|exact IH].
  cbn [map app snd]. constructor; [|exact IH].
  intros H. apply in_map_iff in H as (d & Ed & Hd).
  apply downloads_from in Hd as (s & i & R & _ & _ & ->).
  cbn [snd] in Ed. rewrite RoundTripFacts.append_assoc_string in Ed.
  apply file_name_inj in Ed. lia.
Qed.

End SearchFacts.

(** X16.  No two downloads of a search are saved under one file name:
    the rows of the filtered table are numbered study_1, study_2, ... by
    position, a download is requested only for a row whose pdf_url is a
    text that is not blank, and it is saved as the identifier of its
    row followed by ".pdf". *)
Theorem downloads_have_distinct_names (pdf_urls : list Effects.pyval) :
  NoDup (map snd (Search.downloads pdf_urls))
  /\ length (Search.unique_ids (length pdf_urls)) = length pdf_urls
  /\ NoDup (Search.unique_ids (length pdf_urls))
  /\ Forall
       (fun d =>
          exists s i,
            nth_error pdf_urls i = Some (Effects.VStr s)
            /\ PyStr.is_empty (PyStr.strip s) = false
            /\ d = (Effects.VStr s,
                    ("study_" ++ PyStr.dec (i + 1) ++ ".pdf")%string))
       (Search.downloads pdf_urls).
Proof.
  assert (U : Search.downloads pdf_urls
              = flat_map SearchShapes.step
                  (combine pdf_urls
                     (SearchShapes.ids_from 0 (length pdf_urls))))
    by reflexivity.
  split; [rewrite U; apply SearchFacts.downloads_distinct|].
  split; [unfold Search.unique_ids; now rewrite length_map, length_seq|].
  split.
  - unfold Search.unique_ids. generalize (seq_NoDup (length pdf_urls) 0).
    generalize (seq 0 (length pdf_urls)) as l.
    induction l as [|i l IH]; intros N; [constructor|].
    inversion N as [|i' l' Hi N']; subst. cbn [map]. constructor.
    + intros H. apply in_map_iff in H as (j & E & Hj).
      assert (j = i); [|now subst].
      apply SearchFacts.file_name_inj.
      rewrite <- !RoundTripFacts.append_assoc_string. now rewrite E.
    + now apply IH.
  - apply Forall_forall. intros d H. rewrite U in H.
    apply SearchFacts.downloads_from in H as (s & i & _ & N & E & ->).
    exists s, i. rewrite Nat.sub_0_r in N. now split.
Qed.

(** ** Prose before the first label *)

Module PreambleFacts.
Import PyStr PyDict Parser Regex Props.

Lemma after_label_prev (i : nat) (p1 p2 : option ascii) (s : string) :
  is_word_opt p1 = is_word_opt p2 ->
  after_label i p1 s = after_label i p2 s.
Proof.
  intros H. rewrite !ScanFacts.after_label_unfold.
  unfold label_here, word_boundary. now rewrite H.
Qed.

End PreambleFacts.

(** X17.  Prose before the answer is ignored: for every answer and
    every expected count, putting in front of the answer full lines of
    text in which no digit is directly followed by a colon does not
    change any parsed value. *)
Theorem preamble_is_ignored (preamble content : string) (n : nat) :
  preamble <> "" ->
  Props.has_digit_colon preamble = false ->
  Props.last_char preamble = Some PyStr.newline ->
  Parser.parse_items (preamble ++ content) n = Parser.parse_items content n.
Proof.
  intros Hne Hc Hl. rewrite !ParserFacts.parse_items_map.
  apply map_ext. intros i. unfold Parser.item_value, Regex.search_item.
  rewrite (ScanFacts.after_label_piece i preamble None content Hne Hc Hl).
  now rewrite (PreambleFacts.after_label_prev i (Some PyStr.newline) None).
Qed.

(** One line of prose before a two-item answer. *)
Lemma preamble_is_ignored_witness :
  Props.has_digit_colon ("Here are the answers:" ++ Props.nl) = false
  /\ Props.last_char ("Here are the answers:" ++ Props.nl)
     = Some PyStr.newline
  /\ Parser.parse_items
       (("Here are the answers:" ++ Props.nl) ++ "1: a 2: b") 2
     = ["a"; "b"].
Proof.
  split; [reflexivity|]. split; [reflexivity|].
  rewrite (preamble_is_ignored ("Here are the answers:" ++ Props.nl)
             "1: a 2: b" 2); [reflexivity | discriminate | reflexivity
                             | reflexivity].
Defined.
